(** * Solo Leveling System: the progression engine

    A shallow embedding of the progression engine of the four program
    variants
      - [sl.py]               text menu, JSON data file,
      - [slv2.py]             text menu, SQLite store,
      - [slv3.py]             graphical dashboard, SQLite store,
      - [tokyo_night_gui.py]  the same dashboard with another theme
    and the verification of its leveling calculator, session commit
    protocol, assessment workflow, first-run detection and history reader.

    Layout: the definitions come first (calculator, store, one module per
    variant), the theorems follow. *)

From Stdlib Require Import ZArith String Ascii List Bool Reals Lra Lia Psatz.
From Stdlib Require Import Sorting.Permutation Sorting.Sorted Sorting.Mergesort Orders.
From Stdlib Require Import Relations.Relation_Definitions Classes.RelationClasses.
Import ListNotations.
Open Scope string_scope.
Open Scope list_scope.
Open Scope Z_scope.

(* ================================================================= *)
(** * Part I: definitions *)
(* ================================================================= *)

(** ** Python exceptions and results *)

(** The exceptions the modelled code can raise: [/] on a zero divisor,
    a dictionary lookup on a missing key, [input()] on an exhausted
    standard input, [datetime.fromisoformat] on a text it cannot read. *)
Inductive exn := ZeroDivisionError | KeyError | EOFError | ValueError.

Inductive result (A : Type) := Ok (a : A) | Raise (e : exn).
Arguments Ok {A} a.
Arguments Raise {A} e.

Definition bind {A B} (r : result A) (k : A -> result B) : result B :=
  match r with Ok a => k a | Raise e => Raise e end.

Notation "x <- c ;; k" := (bind c (fun x => k))
  (at level 61, c at next level, right associativity).
Notation "' p <- c ;; k" := (bind c (fun p => k))
  (at level 61, p pattern, c at next level, right associativity).

(** ** Floating-point arithmetic

    Python's [float] is IEEE-754 binary64.  Every arithmetic operation
    returns the exact real result rounded to a representable number; the
    rounding is [rnd].  [math.exp] is the platform's C library function,
    [math_exp].  Both are parameters of the model: the calculator is
    embedded over any [float_arith], and its properties are proved for
    every arithmetic that is [binary64_like].  The exponent range is taken
    as unbounded: the model is the arithmetic within the binary64 range,
    and [truediv_in_range] below tells the integer quotients within it. *)
Record float_arith := { rnd : R -> R; math_exp : R -> R }.

(** Arithmetic without rounding error: the real-number reading of the code. *)
Definition exact : float_arith := {| rnd := fun x => x; math_exp := exp |}.

(** An arithmetic that rounds: every result is rounded to the nearest
    multiple of [2^-1074], the spacing of the smallest binary64 numbers. *)
Definition fixed_point_rnd (x : R) : R :=
  (IZR (Int_part (x * 2 ^ 1074 + / 2)) / 2 ^ 1074)%R.

Definition fixed_point : float_arith :=
  {| rnd := fixed_point_rnd; math_exp := fun u => fixed_point_rnd (exp u) |}.

(** What the proofs use of binary64 and of the C library:
    rounding is monotone; a number [m / 2^e] with a significand of at most
    53 bits is representable, hence not changed by rounding; [math.exp] is
    non-negative, monotone, and accurate to a relative error of [2^-50]
    away from the overflow and underflow thresholds. *)
Record binary64_like (F : float_arith) : Prop := {
  rnd_monotone : forall x y : R, (x <= y -> rnd F x <= rnd F y)%R;
  rnd_representable : forall (m : Z) (e : nat),
    Z.abs m <= 2 ^ 53 -> (e <= 1074)%nat ->
    rnd F (IZR m / 2 ^ e)%R = (IZR m / 2 ^ e)%R;
  math_exp_nonneg : forall u : R, (0 <= math_exp F u)%R;
  math_exp_monotone : forall u v : R, (u <= v -> math_exp F u <= math_exp F v)%R;
  math_exp_accurate : forall u : R, (-700 <= u <= 700 ->
    exp u * (1 - / 2 ^ 50) <= math_exp F u <= exp u * (1 + / 2 ^ 50))%R
}.

(** The quotients [a / b] of two [int]s that are within the range of
    binary64: the largest binary64 number is [2^1024 - 2^971], and a
    quotient rounds to a binary64 number when its magnitude is below
    [2^1024 - 2^970], half a unit in the last place above it.  At or
    above this bound CPython's true division raises [OverflowError]
    ("integer division result too large for a float"), at
    [10**400 / 1000] for one. *)
Definition truediv_in_range (a b : Z) : bool :=
  Z.abs a <? (2 ^ 1024 - 2 ^ 970) * Z.abs b.

Section Calculator.
Variable F : float_arith.
Local Open Scope R_scope.

(** [x + y], [x - y], [x * y] on floats. *)
Definition fadd (x y : R) : R := rnd F (x + y).
Definition fsub (x y : R) : R := rnd F (x - y).
Definition fmul (x y : R) : R := rnd F (x * y).

(** [x / y] on floats. *)
Definition fdiv (x y : R) : result R :=
  if Req_dec_T y 0 then Raise ZeroDivisionError else Ok (rnd F (x / y)).

(** [a / b] on two [int]s: true division, correctly rounded.  This is
    the division where [truediv_in_range a b] holds; beyond this range
    CPython raises [OverflowError], which the model does not have, and a
    statement about the calculator at a total that is not bounded
    otherwise is made within the range. *)
Definition int_truediv (a b : Z) : result R :=
  if (b =? 0)%Z then Raise ZeroDivisionError else Ok (rnd F (IZR a / IZR b)).

(** [int(r)]: truncation toward zero. *)
Definition int_of_float (r : R) : Z :=
  if Rle_dec 0 r then Int_part r else (- Int_part (- r))%Z.

(** [sigmoid_value = 1 / (1 + math.exp(-10 * (x - 0.5)))] *)
Definition sigmoid_value (x : R) : result R :=
  fdiv 1 (fadd 1 (math_exp F (fmul (-10) (fsub x (/ 2))))).

(** [sigmoid_level_calculation], the same text in sl.py:46-65,
    slv2.py:240-253, slv3.py:146-154 and tokyo_night_gui.py:205-213. *)
Definition sigmoid_level_calculation (total_points max_points : Z) : result Z :=
  if (total_points <=? 0)%Z then Ok 1%Z else
  x <- int_truediv total_points max_points ;;
  sigmoid_value <- sigmoid_value x ;;
  let level := int_of_float (fadd 1 (fmul sigmoid_value 99)) in
  Ok (Z.min level 100).
End Calculator.

(** ** The taxonomy: [self.attributes], the same dictionary in all four
    files, in insertion order. *)
Definition attributes : list (string * list string) :=
  [ ("life_skills",
      [ "communication"; "critical_thinking_problem_solving"; "time_management";
        "self_care_emotional_regulation"; "cooking_nutrition"; "car_home_maintenance";
        "digital_literacy"; "interpersonal_social_skills"; "independence";
        "learning_efficiency" ]);
    ("content_creation",
      [ "seo_literacy"; "video_editing"; "streaming"; "long_form_content_output";
        "short_form_content_output"; "charisma"; "personality_authenticity";
        "online_presence"; "consistency"; "backlog_management" ]);
    ("financial_literacy",
      [ "budgeting_savings"; "emergency_fund_management"; "investment_knowledge";
        "retirement_contributions_roth"; "401k_optimization"; "hsa_utilization";
        "insurance_literacy"; "loan_understanding"; "tax_optimization";
        "financial_goal_tracking" ]);
    ("career",
      [ "technical_mastery"; "soft_skills_work"; "time_management_work";
        "growth_milestones"; "professional_networking"; "contribution_tracking";
        "performance_feedback"; "industry_knowledge"; "leadership_development";
        "project_management" ]);
    ("vision_strategy",
      [ "daily_goal_setting"; "weekly_planning"; "monthly_goal_review";
        "quarterly_assessment"; "yearly_vision_alignment"; "system_design";
        "reflection_reviewing"; "strategic_thinking"; "priority_management";
        "personal_roadmapping" ]) ].

(** [self.attributes[attribute]] *)
Definition attributes_get (attribute : string) : result (list string) :=
  match find (fun kv => fst kv =? attribute)%string attributes with
  | Some (_, skill_names) => Ok skill_names
  | None => Raise KeyError
  end.

(** The (attribute, skill) pairs of the taxonomy, in iteration order. *)
Definition taxonomy_keys : list (string * string) :=
  flat_map (fun kv => map (fun skill => (fst kv, skill)) (snd kv)) attributes.

(** ** What the user types into a level field

    The code tests the text of a field three ways: whether it is empty,
    whether [int()] accepts it, and the integer it then denotes.  A field
    is embedded as the outcome of these tests. *)
Inductive field_input :=
| Blank              (* the empty text *)
| Int (n : Z)        (* text on which [int()] returns [n] *)
| NotInt.            (* text on which [int()] raises [ValueError] *)

(** ** The SQLite store of slv2.py, slv3.py and tokyo_night_gui.py

    The three files create the same three tables in the same file
    [solo_leveling.db].  A table is the list of its rows in insertion
    order.  The columns [id] of [skills] and [session_updates] and the
    column [last_updated] are not read by any modelled code and are left
    out. *)
Record skill_row := {
  attribute : string;
  skill_name : string;
  current_level : Z
}.

Record session_row := {
  rowid : Z;                      (* column [id] *)
  session_timestamp : string;
  total_gains : Z;
  session_type : string;
  notes : option string
}.

Record session_update_row := {
  session_id : Z;
  su_attribute : string;          (* column [attribute] *)
  su_skill_name : string;         (* column [skill_name] *)
  old_level : Z;
  new_level : Z;
  gain : Z
}.

Record database := {
  skills : list skill_row;
  sessions : list session_row;
  session_updates : list session_update_row
}.

(** The store before [init_database] has run: [CREATE TABLE IF NOT EXISTS]
    makes three empty tables. *)
Definition empty_database : database :=
  {| skills := []; sessions := []; session_updates := [] |}.

Definition same_skill (a s : string) (r : skill_row) : bool :=
  ((attribute r =? a) && (skill_name r =? s))%string.

(** [INSERT OR IGNORE INTO skills (attribute, skill_name, current_level)
    VALUES (?, ?, ?)] under [UNIQUE(attribute, skill_name)]. *)
Definition insert_or_ignore_skill (a s : string) (level : Z) (t : list skill_row)
  : list skill_row :=
  if existsb (same_skill a s) t then t
  else t ++ [ {| attribute := a; skill_name := s; current_level := level |} ].

(** [UPDATE skills SET current_level = ?, last_updated = ?
    WHERE attribute = ? AND skill_name = ?] *)
Definition update_skill (level : Z) (a s : string) (t : list skill_row)
  : list skill_row :=
  map (fun r => if same_skill a s r
                then {| attribute := attribute r; skill_name := skill_name r;
                        current_level := level |}
                else r) t.

(** [cursor.lastrowid] after an [INSERT INTO sessions]: the key is
    [AUTOINCREMENT] and no row is ever deleted, so it is the number of rows. *)
Definition lastrowid (t : list session_row) : Z := Z.of_nat (length t).

(** [INSERT INTO sessions (session_timestamp, total_gains, session_type, notes)] *)
Definition insert_session (ts : string) (total : Z) (type : string)
    (note : option string) (t : list session_row) : list session_row :=
  t ++ [ {| rowid := Z.of_nat (S (length t)); session_timestamp := ts;
            total_gains := total; session_type := type; notes := note |} ].

(** [init_database] (slv2.py:44-97, slv3.py:77-130,
    tokyo_night_gui.py:136-189). *)
Definition init_database (db : database) : database :=
  if (Z.of_nat (length (skills db)) =? 0)
  then {| skills :=
            fold_left (fun t kv =>
                         fold_left (fun t skill => insert_or_ignore_skill (fst kv) skill 1 t)
                                   (snd kv) t)
                      attributes (skills db);
          sessions := sessions db;
          session_updates := session_updates db |}
  else db.

(** [check_first_run] (slv2.py:99-113, slv3.py:132-144,
    tokyo_night_gui.py:191-203). *)
Definition check_first_run (db : database) : bool :=
  let has_progress :=
    0 <? Z.of_nat (length (filter (fun r => 1 <? current_level r) (skills db))) in
  let has_sessions := 0 <? Z.of_nat (length (sessions db)) in
  negb (has_progress || has_sessions).

(** [SELECT SUM(current_level) FROM skills WHERE attribute = ?]:
    [None] is SQL's NULL, the sum over no row. *)
Definition select_sum_current_level (a : string) (t : list skill_row) : option Z :=
  match filter (fun r => (attribute r =? a)%string) t with
  | [] => None
  | rows => Some (fold_right Z.add 0 (map current_level rows))
  end.

(** [get_current_skills] followed by the two lookups
    [current_skills.get(attribute, {}).get(skill, 1)]: the nested
    dictionary is filled row by row, a later row for the same key
    overwriting an earlier one. *)
Definition lookup_level (t : list skill_row) (a s : string) : option Z :=
  option_map current_level (find (same_skill a s) (rev t)).

Definition get_current_skills (db : database) (a s : string) : option Z :=
  lookup_level (skills db) a s.

Definition current_skill_level (db : database) (a s : string) : Z :=
  match get_current_skills db a s with Some level => level | None => 1 end.

Section StoreCalculator.
Variable F : float_arith.

(** [calculate_attribute_level] (slv2.py:255-266, slv3.py:156-167,
    tokyo_night_gui.py:215-226). *)
Definition calculate_attribute_level (db : database) (a : string) : result Z :=
  let total_skill_points :=
    match select_sum_current_level a (skills db) with
    | Some total => total          (* [x or 0]: a sum of 0 also gives 0 *)
    | None => 0
    end in
  skill_names <- attributes_get a ;;
  let max_skill_points := Z.of_nat (length skill_names) * 100 in
  sigmoid_level_calculation F total_skill_points max_skill_points.

(** [sum(self.calculate_attribute_level(attr) for attr in self.attributes)] *)
Fixpoint sum_attribute_levels (db : database) (attrs : list (string * list string))
  : result Z :=
  match attrs with
  | [] => Ok 0
  | kv :: rest =>
      level <- calculate_attribute_level db (fst kv) ;;
      total <- sum_attribute_levels db rest ;;
      Ok (level + total)
  end.
End StoreCalculator.

(** One entry of the list [updates] handed to [save_update_session]: a
    dictionary with these five keys in slv2.py, a 5-tuple in slv3.py. *)
Record update := {
  u_attribute : string;
  u_skill : string;
  u_old_level : Z;
  u_new_level : Z;
  u_gain : Z
}.

(** The body of the loop of [save_update_session]: the [UPDATE skills] and
    the [INSERT INTO session_updates] of one update. *)
Definition apply_update (sid : Z) (db : database) (u : update) : database :=
  {| skills := update_skill (u_new_level u) (u_attribute u) (u_skill u) (skills db);
     sessions := sessions db;
     session_updates :=
       session_updates db ++
       [ {| session_id := sid; su_attribute := u_attribute u;
            su_skill_name := u_skill u; old_level := u_old_level u;
            new_level := u_new_level u; gain := u_gain u |} ] |}.

(** The integers that SQLite stores and that [sqlite3] binds to a
    statement: the signed 64-bit ones.  On a parameter outside this range
    [cursor.execute] raises [OverflowError], and nothing of the session
    is committed. *)
Definition int64 (n : Z) : bool := (- 2 ^ 63 <=? n) && (n <? 2 ^ 63).

(** [save_update_session] (slv2.py:396-426, slv3.py:641-666), for a
    session whose numbers are [int64], as are those of every session that
    the programs collect; the [OverflowError] of [sqlite3] on other
    numbers is not in the model. *)
Definition save_update_session (db : database) (timestamp : string)
    (updates : list update) (total_gains : Z) : database :=
  let sessions' := insert_session timestamp total_gains "skill_update" None (sessions db) in
  let session_id := lastrowid sessions' in
  fold_left (apply_update session_id) updates
    {| skills := skills db; sessions := sessions'; session_updates := session_updates db |}.

(** Monadic loop over a list: a [for] loop whose body may raise. *)
Fixpoint foldM {A B : Type} (f : A -> B -> result A) (l : list B) (a : A) : result A :=
  match l with
  | [] => Ok a
  | b :: l' => a' <- f a b ;; foldM f l' a'
  end.

(** A dictionary [{"old_level": .., "new_level": .., "gain": ..}] as stored
    in a session of the JSON file and in [session_data] of slv2.py. *)
Record level_change := {
  lc_old_level : Z;
  lc_new_level : Z;
  lc_gain : Z
}.

(** [session_data]: [{"timestamp": .., "updates": {attribute: {skill: ..}}}];
    nested dictionaries are association lists in insertion order. *)
Record session_data := {
  timestamp : string;
  updates : list (string * list (string * level_change))
}.

(** [sum(update["gain"] for update in d.values())] *)
Definition sum_gains (d : list (string * level_change)) : Z :=
  fold_right Z.add 0 (map (fun kv => lc_gain (snd kv)) d).

(** [ORDER BY session_timestamp DESC].  The column is declared
    [TIMESTAMP], which gives it numeric affinity: a text that is a numeral
    would be stored as a number.  The timestamps that the programs write
    begin with a date and are no numerals, so that the column holds text,
    which SQLite compares byte by byte, a proper prefix first:
    [String.leb].  This is the order of the text, not of the time that
    the text stands for; the two agree on the zero-padded texts of the
    clock, and differ on a custom date typed without padding.  SQL leaves
    the order of rows with equal timestamps open; the model takes the one
    of a merge sort. *)
Module TimestampDesc <: TotalLeBool.
Definition t := session_row.
Definition leb (a b : t) : bool :=
  String.leb (session_timestamp b) (session_timestamp a).
Lemma leb_total : forall a b, leb a b = true \/ leb b a = true.
Proof. intros a b. apply String.leb_total. Qed.
End TimestampDesc.

Module SessionSort := Sort TimestampDesc.

(** [ORDER BY session_timestamp], ascending. *)
Module TimestampAsc <: TotalLeBool.
Definition t := session_row.
Definition leb (a b : t) : bool :=
  String.leb (session_timestamp a) (session_timestamp b).
Definition leb_total : forall a b, leb a b = true \/ leb b a = true :=
  fun a b => String.leb_total (session_timestamp a) (session_timestamp b).
End TimestampAsc.

Module SessionSortAsc := Sort TimestampAsc.

(** [np.cumsum]: the running totals of a list.  numpy keeps them in
    machine integers, of 64 bits or of 32 on some platforms, and wraps
    around beyond them; the model is exact, and is that of running totals
    that are [machine_int]. *)
Definition machine_int (n : Z) : bool := (- 2 ^ 31 <=? n) && (n <? 2 ^ 31).

Fixpoint cumsum_from (acc : Z) (l : list Z) : list Z :=
  match l with
  | [] => []
  | x :: l' => (acc + x) :: cumsum_from (acc + x) l'
  end.

Definition cumsum (l : list Z) : list Z := cumsum_from 0 l.

(** ** slv2.py: text menu over the SQLite store *)
Module Slv2.

(** [calculate_overall_level] (slv2.py:268-272). *)
Definition calculate_overall_level (F : float_arith) (db : database) : result Z :=
  total_attribute_points <- sum_attribute_levels F db attributes ;;
  let max_attribute_points := Z.of_nat (length attributes) * 100 in
  sigmoid_level_calculation F total_attribute_points max_attribute_points.

(** The [while True] loop of [crystal_ball_assessment] (slv2.py:148-165)
    reading one level from the pending lines of standard input. *)
Fixpoint prompt_assessment (inputs : list field_input)
  : result (Z * list field_input) :=
  match inputs with
  | [] => Raise EOFError
  | Blank :: rest => Ok (1, rest)
  | Int level :: rest =>
      if (level <? 1) || (100 <? level) then prompt_assessment rest
      else Ok (level, rest)
  | NotInt :: rest => prompt_assessment rest
  end.

(** [save_crystal_ball_assessment] (slv2.py:184-219). *)
Definition save_crystal_ball_assessment (db : database)
    (assessment : list (string * list (string * Z))) (session_data : session_data)
  : database :=
  let total := fold_right Z.add 0 (map (fun kv => sum_gains (snd kv)) (updates session_data)) in
  let sessions' :=
    insert_session (timestamp session_data) total "crystal_ball_assessment"
      (Some "Initial stat assessment using the mystical crystal ball") (sessions db) in
  let session_id := lastrowid sessions' in
  fold_left
    (fun db kv =>
       fold_left
         (fun db item =>
            apply_update session_id db
              {| u_attribute := fst kv; u_skill := fst item; u_old_level := 1;
                 u_new_level := snd item; u_gain := snd item - 1 |})
         (snd kv) db)
    assessment
    {| skills := skills db; sessions := sessions'; session_updates := session_updates db |}.

(** [crystal_ball_assessment] (slv2.py:115-182) without its printing:
    [now] is the clock's [isoformat()], [inputs] the lines typed. *)
Definition crystal_ball_assessment (db : database) (now : string)
    (inputs : list field_input) : result (database * list field_input) :=
  '(initial_assessment, session_updates, rest) <-
    foldM (fun acc kv =>
             let '(initial_assessment, session_updates, inputs) := acc in
             '(levels, changes, inputs') <-
               foldM (fun acc skill =>
                        let '(levels, changes, inputs) := acc in
                        '(level, inputs') <- prompt_assessment inputs ;;
                        Ok (levels ++ [(skill, level)],
                            changes ++ [(skill, {| lc_old_level := 1; lc_new_level := level;
                                                   lc_gain := level - 1 |})],
                            inputs'))
                     (snd kv) ([], [], inputs) ;;
             Ok (initial_assessment ++ [(fst kv, levels)],
                 session_updates ++ [(fst kv, changes)], inputs'))
          attributes ([], [], inputs) ;;
  Ok (save_crystal_ball_assessment db initial_assessment
        {| timestamp := now; updates := session_updates |}, rest).

(** The [while True] loop of [update_skills_session] (slv2.py:351-376):
    a refused value prints its message and the field is asked again. *)
Fixpoint prompt_level (current_level : Z) (inputs : list field_input)
  : result (Z * list field_input) :=
  match inputs with
  | [] => Raise EOFError
  | Blank :: rest => Ok (current_level, rest)
  | Int new_level :: rest =>
      if new_level <? current_level then prompt_level current_level rest
      else if current_level + 10 <? new_level then prompt_level current_level rest
      else if 100 <? new_level then prompt_level current_level rest
      else Ok (new_level, rest)
  | NotInt :: rest => prompt_level current_level rest
  end.

(** The body of the inner [for] loop of [update_skills_session]
    (slv2.py:347-388). *)
Definition update_one_skill (db : database) (attribute_name skill : string)
    (acc : list update * Z * list field_input)
  : result (list update * Z * list field_input) :=
  let '(session_updates, total_gains, inputs) := acc in
  let current_level := current_skill_level db attribute_name skill in
  '(new_level, inputs') <- prompt_level current_level inputs ;;
  if current_level <? new_level then
    let gain := new_level - current_level in
    Ok (session_updates ++
          [ {| u_attribute := attribute_name; u_skill := skill;
               u_old_level := current_level; u_new_level := new_level;
               u_gain := gain |} ],
        total_gains + gain, inputs')
  else Ok (session_updates, total_gains, inputs').

(** The two nested [for] loops of [update_skills_session]. *)
Definition collect_updates (db : database) (inputs : list field_input)
  : result (list update * Z * list field_input) :=
  foldM (fun acc kv =>
           foldM (fun acc skill => update_one_skill db (fst kv) skill acc) (snd kv) acc)
        attributes ([], 0, inputs).

(** [update_skills_session] (slv2.py:314-394) without its printing.
    [session_timestamp] is what the date prompt and the clock resolve
    to; [inputs] are the lines typed at the skill prompts. *)
Definition update_skills_session (db : database) (session_timestamp : string)
    (inputs : list field_input) : result (database * list field_input) :=
  '(session_updates, total_gains, rest) <- collect_updates db inputs ;;
  match session_updates with
  | [] => Ok (db, rest)
  | _ => Ok (save_update_session db session_timestamp session_updates total_gains, rest)
  end.

(** [view_history] (slv2.py:428-461): the rows of
    [SELECT .. FROM sessions ORDER BY session_timestamp DESC LIMIT 10],
    which the function then prints one by one in this order.  To print a
    row it converts the timestamp with [datetime.fromisoformat], outside
    any [try]: on a timestamp that the library cannot read the function
    raises [ValueError], the rows before it printed and the others not.
    [fromisoformat] tells the texts that the library reads.  The result is
    the list of the rows printed; the layout of a printed row is left
    out. *)
Definition view_history (fromisoformat : string -> bool) (db : database)
  : result (list session_row) :=
  let rows := firstn 10 (SessionSort.sort (sessions db)) in
  foldM (fun printed session =>
           if fromisoformat (session_timestamp session)
           then Ok (printed ++ [session])
           else Raise ValueError)
        rows [].

End Slv2.

(** ** slv3.py: the dashboard over the SQLite store

    tokyo_night_gui.py is the same dashboard in other colours; its
    [calculate_overall_level] is the same text as the one of slv3.py. *)
Module Slv3.

(** [calculate_overall_level] (slv3.py:169-173,
    tokyo_night_gui.py:228-232): "Return raw sum for display as X/500". *)
Definition calculate_overall_level (F : float_arith) (db : database) : result Z :=
  total_attribute_points <- sum_attribute_levels F db attributes ;;
  let max_attribute_points := Z.of_nat (length attributes) * 100 in
  Ok total_attribute_points.

(** The first loop of [process_crystal_ball_assessment] (slv3.py:538-547)
    on one entry: [int(var.get() or 1)], clamped, or the [except] arm. *)
Definition assess_entry (attribute skill : string) (v : field_input)
    (acc : list update * Z) : list update * Z :=
  let '(updates, total_gains) := acc in
  let parsed := match v with Blank => Some 1 | Int n => Some n | NotInt => None end in
  match parsed with
  | Some n =>
      let new_level := Z.max 1 (Z.min 100 n) in
      let gain := new_level - 1 in
      (updates ++ [ {| u_attribute := attribute; u_skill := skill; u_old_level := 1;
                       u_new_level := new_level; u_gain := gain |} ],
       total_gains + gain)
  | None =>
      (updates ++ [ {| u_attribute := attribute; u_skill := skill; u_old_level := 1;
                       u_new_level := 1; u_gain := 0 |} ],
       total_gains)
  end.

(** [process_crystal_ball_assessment] (slv3.py:527-571); [timestamp] is
    the clock's [isoformat()]. *)
Definition process_crystal_ball_assessment (db : database) (timestamp : string)
    (entries : list (string * list (string * field_input))) : database :=
  let '(updates, total_gains) :=
    fold_left (fun acc kv =>
                 fold_left (fun acc e => assess_entry (fst kv) (fst e) (snd e) acc)
                           (snd kv) acc)
              entries ([], 0) in
  let sessions' :=
    insert_session timestamp total_gains "crystal_ball_assessment"
      (Some "Initial stat assessment using the mystical crystal ball") (sessions db) in
  let session_id := lastrowid sessions' in
  fold_left (apply_update session_id) updates
    {| skills := skills db; sessions := sessions'; session_updates := session_updates db |}.

(** One value of [self.update_entries[attribute][skill]]: the text of
    the entry widget and the level shown next to it. *)
Record entry_data := { var : field_input; current : Z }.

Record gui := {
  store : database;
  update_entries : list (string * list (string * entry_data))
}.

(** The message boxes of [process_skill_updates]. *)
Inductive error :=
| CannotDecrease (skill : string)     (* "Cannot decrease {skill} level!" *)
| MaxIncrease (skill : string)        (* "Max +10 increase for {skill}!" *)
| MaxLevel (skill : string)           (* "Max level is 100 for {skill}!" *)
| InvalidLevel (skill : string)       (* "Invalid level for {skill}!" *)
| InvalidDateFormat.                  (* "Invalid date format. Use YYYY-MM-DD" *)

Inductive info :=
| NoUpdates                           (* "No changes to save." *)
| Success (count : nat) (total_gains : Z).

Inductive messagebox := showerror (e : error) | showinfo (i : info).

(** A [for] loop left by [return] on the first error. *)
Fixpoint fold_until {A B : Type} (f : A -> B -> error + A) (l : list B) (a : A)
  : error + A :=
  match l with
  | [] => inr a
  | b :: l' => match f a b with inl e => inl e | inr a' => fold_until f l' a' end
  end.

(** The body of the inner loop of [process_skill_updates]
    (slv3.py:582-610). *)
Definition check_entry (attribute skill : string) (entry_data : entry_data)
    (acc : list update * Z) : error + (list update * Z) :=
  let '(updates, total_gains) := acc in
  let current_level := current entry_data in
  match var entry_data with
  | Blank => inr acc
  | NotInt => inl (InvalidLevel skill)
  | Int new_level =>
      if new_level <? current_level then inl (CannotDecrease skill)
      else if current_level + 10 <? new_level then inl (MaxIncrease skill)
      else if 100 <? new_level then inl (MaxLevel skill)
      else if current_level <? new_level then
        let gain := new_level - current_level in
        inr (updates ++ [ {| u_attribute := attribute; u_skill := skill;
                             u_old_level := current_level; u_new_level := new_level;
                             u_gain := gain |} ],
             total_gains + gain)
      else inr acc
  end.

Definition collect_updates (entries : list (string * list (string * entry_data)))
  : error + (list update * Z) :=
  fold_until (fun acc kv =>
                fold_until (fun acc e => check_entry (fst kv) (fst e) (snd e) acc)
                           (snd kv) acc)
             entries ([], 0).

(** [setup_update_interface] (slv3.py:290-350): one empty entry per
    taxonomy skill, labelled with the stored level. *)
Definition setup_update_interface (db : database)
  : list (string * list (string * entry_data)) :=
  map (fun kv =>
         (fst kv,
          map (fun skill =>
                 (skill, {| var := Blank; current := current_skill_level db (fst kv) skill |}))
              (snd kv)))
      attributes.

(** The last loop of [refresh_all_data] (slv3.py:894-900). *)
Definition refresh_all_data (g : gui) : gui :=
  {| store := store g;
     update_entries :=
       map (fun kv =>
              (fst kv,
               map (fun e => (fst e, {| var := var (snd e);
                                        current := current_skill_level (store g) (fst kv) (fst e) |}))
                   (snd kv)))
           (update_entries g) |}.

Definition clear_entries (entries : list (string * list (string * entry_data)))
  : list (string * list (string * entry_data)) :=
  map (fun kv =>
         (fst kv, map (fun e => (fst e, {| var := Blank; current := current (snd e) |})) (snd kv)))
      entries.

(** [process_skill_updates] (slv3.py:573-639).  [timestamp] is [None]
    when the custom date does not parse, and otherwise the custom date
    joined with the clock time, or the clock's [isoformat()]. *)
Definition process_skill_updates (g : gui) (timestamp : option string)
  : messagebox * gui :=
  match collect_updates (update_entries g) with
  | inl e => (showerror e, g)
  | inr (updates, total_gains) =>
      match updates with
      | [] => (showinfo NoUpdates, g)
      | _ =>
          match timestamp with
          | None => (showerror InvalidDateFormat, g)
          | Some timestamp =>
              let db' := save_update_session (store g) timestamp updates total_gains in
              (showinfo (Success (length updates) total_gains),
               refresh_all_data {| store := db';
                                   update_entries := clear_entries (update_entries g) |})
          end
      end
  end.

(** [refresh_history_display] (slv3.py:841-880): the rows put into the
    history table, in order: every session, by
    [ORDER BY session_timestamp DESC] without a limit.  A row shows the
    timestamp, the kind, the total gain and the note, an absent or empty
    note as the empty text; the formatting of the first three columns is
    left out. *)
Definition refresh_history_display (db : database)
  : list (string * string * Z * string) :=
  map (fun session =>
         (session_timestamp session, session_type session, total_gains session,
          match notes session with
          | Some note => note
          | None => ""
          end))
      (SessionSort.sort (sessions db)).

(** [show_progress_chart] (slv3.py:742-789): the points of the chart, one
    per session by [ORDER BY session_timestamp], each with the cumulative
    gain up to it; [None] is the text "No session data yet!" shown for an
    empty history.  The dates are converted with [datetime.fromisoformat],
    outside any [try]: on a timestamp that the library cannot read the
    function raises [ValueError] and draws nothing.  [fromisoformat] tells
    the texts that the library reads; a date is kept as its text. *)
Definition show_progress_chart (fromisoformat : string -> bool) (db : database)
  : result (option (list (string * Z))) :=
  let session_data := SessionSortAsc.sort (sessions db) in
  match session_data with
  | [] => Ok None
  | _ =>
      dates <- foldM (fun dates session =>
                        if fromisoformat (session_timestamp session)
                        then Ok (dates ++ [session_timestamp session])
                        else Raise ValueError)
                     session_data [] ;;
      let gains := map total_gains session_data in
      let cumulative_gains := cumsum gains in
      Ok (Some (combine dates cumulative_gains))
  end.

(** [show_skill_heatmap] (slv3.py:791-808): the matrix [skill_matrix] of
    levels that it draws, one row per attribute, a missing skill read as
    level 1. *)
Definition show_skill_heatmap (db : database) : list (list Z) :=
  map (fun kv => map (fun skill => current_skill_level db (fst kv) skill) (snd kv))
      attributes.

End Slv3.

(** ** sl.py: text menu over a JSON data file *)
Module Sl.

(** The document in [leveling_data.json]; the key ["sessions"] may be
    absent.  [last_updated] is not read by any code. *)
Record data := {
  skill_levels : list (string * list (string * Z));
  sessions : option (list session_data)
}.

(** What [json.load] makes of the file: [None] when the file is missing
    or is not JSON. *)
Definition data_file := option data.

(** [save_session] (sl.py:206-220). *)
Definition save_session (file : data_file) (s : session_data) : data_file :=
  let data := match file with
              | Some d => d
              | None => {| skill_levels := []; sessions := Some [] |}
              end in
  let old := match sessions data with Some l => l | None => [] end in
  Some {| skill_levels := skill_levels data; sessions := Some (old ++ [s]) |}.

(** [sessions[-10:]] *)
Definition last_ten {A : Type} (l : list A) : list A :=
  skipn (length l - 10)%nat l.

(** [view_history] (sl.py:238-264): the sessions printed, in the order
    printed, each with the total gain printed for it.  The formatting of
    a printed session is left out, and with it the conversion of its
    timestamp by [datetime.fromisoformat]: sl.py has no date prompt and
    writes no timestamp but [datetime.now().isoformat()] (sl.py:108),
    which the library reads; this is the history of the files that sl.py
    writes. *)
Definition view_history (file : data_file) : list (session_data * Z) :=
  let sessions := match file with
                  | Some d => match sessions d with Some l => l | None => [] end
                  | None => []
                  end in
  map (fun session =>
         (session, fold_left (fun total_gains kv => total_gains + sum_gains (snd kv))
                             (updates session) 0))
      (last_ten sessions).

(** Python dictionaries with text keys, as association lists in
    insertion order: [d.get(k)] and [d[k] = v], which keeps the place of a
    key already present. *)
Definition dict_get {V : Type} (k : string) (d : list (string * V)) : option V :=
  option_map snd (find (fun kv => (fst kv =? k)%string) d).

Fixpoint dict_set {V : Type} (k : string) (v : V) (d : list (string * V))
  : list (string * V) :=
  match d with
  | [] => [(k, v)]
  | kv :: d' => if (fst kv =? k)%string then (k, v) :: d' else kv :: dict_set k v d'
  end.

(** [d[k]], which raises [KeyError] on a missing key. *)
Definition dict_item {V : Type} (k : string) (d : list (string * V)) : result V :=
  match dict_get k d with
  | Some v => Ok v
  | None => Raise KeyError
  end.

(** The loops of [__init__] (sl.py:36-41): every skill at level 1. *)
Definition init_skill_levels : list (string * list (string * Z)) :=
  fold_left (fun levels kv =>
               dict_set (fst kv)
                        (fold_left (fun d skill => dict_set skill 1 d) (snd kv) [])
                        levels)
            attributes [].

(** [load_data] (sl.py:222-236): the saved levels of the skills that the
    taxonomy knows replace the current ones.  A file without the key
    ["skill_levels"] is read as one with an empty dictionary there; the
    file is taken to hold dictionaries and integers where the program
    reads them. *)
Definition load_data (levels : list (string * list (string * Z))) (file : data_file)
  : list (string * list (string * Z)) :=
  match file with
  | None => levels
  | Some data =>
      fold_left
        (fun levels kv =>
           match dict_get (fst kv) levels with
           | None => levels
           | Some mine =>
               dict_set (fst kv)
                 (fold_left
                    (fun mine item =>
                       match dict_get (fst item) mine with
                       | None => mine
                       | Some _ => dict_set (fst item) (snd item) mine
                       end)
                    (snd kv) mine)
                 levels
           end)
        (skill_levels data) levels
  end.

(** [save_data] (sl.py:192-204). *)
Definition save_data (levels : list (string * list (string * Z))) (file : data_file)
  : data_file :=
  let data := match file with
              | Some d => d
              | None => {| skill_levels := []; sessions := Some [] |}
              end in
  Some {| skill_levels := levels; sessions := sessions data |}.

(** [calculate_attribute_level] (sl.py:67-71). *)
Definition calculate_attribute_level (F : float_arith)
    (levels : list (string * list (string * Z))) (a : string) : result Z :=
  mine <- dict_item a levels ;;
  let total_skill_points := fold_right Z.add 0 (map snd mine) in
  skill_names <- attributes_get a ;;
  let max_skill_points := Z.of_nat (length skill_names) * 100 in
  sigmoid_level_calculation F total_skill_points max_skill_points.

(** [calculate_overall_level] (sl.py:73-77). *)
Definition calculate_overall_level (F : float_arith)
    (levels : list (string * list (string * Z))) : result Z :=
  total_attribute_points <-
    foldM (fun total kv =>
             level <- calculate_attribute_level F levels (fst kv) ;;
             Ok (total + level))
          attributes 0 ;;
  let max_attribute_points := Z.of_nat (length attributes) * 100 in
  sigmoid_level_calculation F total_attribute_points max_attribute_points.

(** The [while True] loop of [update_skills_session] (sl.py:123-150), the
    same text as in slv2.py. *)
Fixpoint prompt_level (current_level : Z) (inputs : list field_input)
  : result (Z * list field_input) :=
  match inputs with
  | [] => Raise EOFError
  | Blank :: rest => Ok (current_level, rest)
  | Int new_level :: rest =>
      if new_level <? current_level then prompt_level current_level rest
      else if current_level + 10 <? new_level then prompt_level current_level rest
      else if 100 <? new_level then prompt_level current_level rest
      else Ok (new_level, rest)
  | NotInt :: rest => prompt_level current_level rest
  end.

(** The body of the inner loop of [update_skills_session] (sl.py:119-162):
    every skill is written back and recorded, changed or not. *)
Definition update_one_skill (attribute_name skill : string)
    (acc : list (string * list (string * Z)) * list (string * level_change)
           * list field_input)
  : result (list (string * list (string * Z)) * list (string * level_change)
            * list field_input) :=
  let '(levels, changes, inputs) := acc in
  mine <- dict_item attribute_name levels ;;
  current_level <- dict_item skill mine ;;
  '(new_level, inputs') <- prompt_level current_level inputs ;;
  let old_level := current_level in
  Ok (dict_set attribute_name (dict_set skill new_level mine) levels,
      dict_set skill {| lc_old_level := old_level; lc_new_level := new_level;
                        lc_gain := new_level - old_level |} changes,
      inputs').

(** [update_skills_session] (sl.py:99-169) without its printing: the
    levels in memory, the data file, the session recorded and the lines
    left.  [now] is the clock's [isoformat()]. *)
Definition update_skills_session (levels : list (string * list (string * Z)))
    (file : data_file) (now : string) (inputs : list field_input)
  : result (list (string * list (string * Z)) * data_file * session_data
            * list field_input) :=
  '(levels', session_updates, rest) <-
    foldM (fun acc kv =>
             let '(levels, session_updates, inputs) := acc in
             '(levels', changes, inputs') <-
               foldM (fun acc skill => update_one_skill (fst kv) skill acc)
                     (snd kv) (levels, [], inputs) ;;
             Ok (levels', dict_set (fst kv) changes session_updates, inputs'))
          attributes (levels, [], inputs) ;;
  let session := {| timestamp := now; updates := session_updates |} in
  Ok (levels', save_data levels' (save_session file session), session, rest).

(** [display_session_summary] (sl.py:171-190): the attributes printed with
    their gains, and the total; a total of 0 prints "No changes made this
    session." *)
Definition display_session_summary (session : session_data)
  : list (string * Z) * Z :=
  fold_left (fun acc kv =>
               let '(lines, total_gains) := acc in
               let attr_gains := sum_gains (snd kv) in
               if 0 <? attr_gains
               then (lines ++ [(fst kv, attr_gains)], total_gains + attr_gains)
               else (lines, total_gains))
            (updates session) ([], 0).

End Sl.

(** ** Reachable stores

    The store file is shared by the text menu and the dashboard.  A store
    is reachable when it results from runs of the programs: every start
    runs [init_database]; the menu commits assessments and update
    sessions; the dashboard keeps its entry widgets next to the store. *)

(** The user types [v] into the entry widget of skill [s] of attribute [a]. *)
Definition set_var (g : Slv3.gui) (a s : string) (v : field_input) : Slv3.gui :=
  {| Slv3.store := Slv3.store g;
     Slv3.update_entries :=
       map (fun kv =>
              (fst kv,
               map (fun e =>
                      if ((fst kv =? a) && (fst e =? s))%string
                      then (fst e, {| Slv3.var := v; Slv3.current := Slv3.current (snd e) |})
                      else e)
                   (snd kv)))
           (Slv3.update_entries g) |}.

Inductive reachable : database -> Prop :=
| reach_new : reachable (init_database empty_database)
| reach_start db : reachable db -> reachable (init_database db)
| reach_menu_assessment db now inputs db' rest :
    reachable db ->
    Slv2.crystal_ball_assessment db now inputs = Ok (db', rest) ->
    reachable db'
| reach_menu_update db ts inputs db' rest :
    reachable db ->
    Slv2.update_skills_session db ts inputs = Ok (db', rest) ->
    reachable db'
| reach_dashboard g : gui_reachable g -> reachable (Slv3.store g)

with gui_reachable : Slv3.gui -> Prop :=
| gui_start db :
    reachable db ->
    gui_reachable {| Slv3.store := db;
                     Slv3.update_entries := Slv3.setup_update_interface db |}
| gui_typing g a s v : gui_reachable g -> gui_reachable (set_var g a s v)
| gui_refresh g : gui_reachable g -> gui_reachable (Slv3.refresh_all_data g)
| gui_update g ts :
    gui_reachable g -> gui_reachable (snd (Slv3.process_skill_updates g ts))
| gui_assessment g now entries :
    gui_reachable g ->
    gui_reachable
      (Slv3.refresh_all_data
         {| Slv3.store := Slv3.process_crystal_ball_assessment (Slv3.store g) now entries;
            Slv3.update_entries := Slv3.update_entries g |}).

Scheme reachable_mut := Minimality for reachable Sort Prop
  with gui_reachable_mut := Minimality for gui_reachable Sort Prop.
Combined Scheme reachable_gui_ind from reachable_mut, gui_reachable_mut.

(** The key of a row of [skills], and the store invariant: one row per
    taxonomy skill, in taxonomy order, each level within 1..100. *)
Definition key_of (r : skill_row) : string * string := (attribute r, skill_name r).

Definition store_ok (db : database) : Prop :=
  map key_of (skills db) = taxonomy_keys /\
  Forall (fun r => 1 <= current_level r <= 100) (skills db).

(** ** Vocabulary of the statements *)

Definition update_key (u : update) : string * string := (u_attribute u, u_skill u).

Definition key_eqb (k1 k2 : string * string) : bool :=
  ((fst k1 =? fst k2) && (snd k1 =? snd k2))%string.

(** The row of [session_updates] recorded for an update. *)
Definition row_of_update (sid : Z) (u : update) : session_update_row :=
  {| session_id := sid; su_attribute := u_attribute u; su_skill_name := u_skill u;
     old_level := u_old_level u; new_level := u_new_level u; gain := u_gain u |}.

(** The [UPDATE skills] statements of a list of updates, in order. *)
Definition write_levels (us : list update) (t : list skill_row) : list skill_row :=
  fold_left (fun t u => update_skill (u_new_level u) (u_attribute u) (u_skill u) t) us t.

(** The updates that an assessment dictionary stands for. *)
Definition assessment_updates (assessment : list (string * list (string * Z)))
  : list update :=
  flat_map (fun kv =>
              map (fun item => {| u_attribute := fst kv; u_skill := fst item;
                                  u_old_level := 1; u_new_level := snd item;
                                  u_gain := snd item - 1 |})
                  (snd kv))
           assessment.

(** No key occurs twice. *)
Fixpoint nodup_keys (l : list (string * string)) : bool :=
  match l with
  | [] => true
  | k :: l' => negb (existsb (key_eqb k) l') && nodup_keys l'
  end.

(** An update as the validator of an update session lets it through:
    the old level is the stored one, the new level is above it by at
    most 10 and at most 100, the gain is their difference. *)
Definition valid_update (db : database) (u : update) : Prop :=
  u_old_level u = current_skill_level db (u_attribute u) (u_skill u) /\
  u_old_level u < u_new_level u /\
  u_new_level u <= u_old_level u + 10 /\
  u_new_level u <= 100 /\
  u_gain u = u_new_level u - u_old_level u.

(** The level the dashboard's assessment takes from an entry:
    [max(1, min(100, int(text or 1)))], and 1 on text that is no number. *)
Definition assessed_level (v : field_input) : Z :=
  match v with
  | Blank => Z.max 1 (Z.min 100 1)
  | Int n => Z.max 1 (Z.min 100 n)
  | NotInt => 1
  end.

(** The update the dashboard's assessment makes of an entry: from level 1
    to the assessed level. *)
Definition assessed_update (e : string * string * field_input) : update :=
  {| u_attribute := fst (fst e); u_skill := snd (fst e); u_old_level := 1;
     u_new_level := assessed_level (snd e); u_gain := assessed_level (snd e) - 1 |}.

(** The sum of a column of integers. *)
Definition total (l : list Z) : Z := fold_right Z.add 0 l.

(** The entries of the dashboard, flattened in iteration order. *)
Definition flat_entries {A : Type} (entries : list (string * list (string * A)))
  : list (string * string * A) :=
  flat_map (fun kv => map (fun e => (fst kv, fst e, snd e)) (snd kv)) entries.

(** The error, if any, that the checks of [process_skill_updates] find in
    the entry of [skill]. *)
Definition entry_error (skill : string) (e : Slv3.entry_data) : option Slv3.error :=
  match Slv3.var e with
  | Blank => None
  | NotInt => Some (Slv3.InvalidLevel skill)
  | Int n =>
      if n <? Slv3.current e then Some (Slv3.CannotDecrease skill)
      else if Slv3.current e + 10 <? n then Some (Slv3.MaxIncrease skill)
      else if 100 <? n then Some (Slv3.MaxLevel skill)
      else None
  end.

(** The error of the first entry, in iteration order, that has one. *)
Fixpoint first_error (l : list (string * string * Slv3.entry_data))
  : option Slv3.error :=
  match l with
  | [] => None
  | x :: l' =>
      match entry_error (snd (fst x)) (snd x) with
      | Some err => Some err
      | None => first_error l'
      end
  end.

(** The entry widgets show the stored levels. *)
Definition entries_synced (g : Slv3.gui) : Prop :=
  Forall (fun e => Slv3.current (snd e)
                   = current_skill_level (Slv3.store g) (fst (fst e)) (snd (fst e)))
         (flat_entries (Slv3.update_entries g)).

(** The order of [ORDER BY session_timestamp DESC]: the timestamp texts
    never increase along the list.  For texts of one zero-padded shape,
    as the clock writes them, this is newest first. *)
Definition text_descending (l : list string) : Prop :=
  StronglySorted (fun a b => String.leb b a = true) l.

(** The rows of [session_updates] that belong to the session [sid]. *)
Definition rows_of (sid : Z) (rows : list session_update_row) : list session_update_row :=
  filter (fun r => session_id r =? sid) rows.

(** What the rows recorded for a session are like, by the kind of the
    session: an update session has at least one row, each with a gain of
    1 to 10, and no note; the rows of an assessment start from level 1. *)
Definition session_kind_ok (s : session_row) (rows : list session_update_row) : Prop :=
  (session_type s = "skill_update" /\ notes s = None /\ rows <> [] /\
   Forall (fun r => 0 < gain r <= 10) rows) \/
  (session_type s = "crystal_ball_assessment" /\
   Forall (fun r => old_level r = 1) rows).

(** The invariant of the two history tables: the session keys count up
    from 1 in insertion order; every recorded change names a session of
    the table, has the difference of its two levels as its gain, and
    leads from a level of at least 1 to one that is no lower and at most
    100; the total of a session is the sum of the gains recorded for it,
    and its rows are those of its kind; the totals of all sessions add up
    to the gains of all rows. *)
Definition ledger_ok (db : database) : Prop :=
  map rowid (sessions db) = map Z.of_nat (seq 1 (length (sessions db))) /\
  Forall (fun r => 1 <= session_id r <= Z.of_nat (length (sessions db)) /\
                   gain r = new_level r - old_level r /\
                   1 <= old_level r <= new_level r /\ new_level r <= 100)
         (session_updates db) /\
  Forall (fun s => total_gains s = total (map gain (rows_of (rowid s) (session_updates db))) /\
                   session_kind_ok s (rows_of (rowid s) (session_updates db)))
         (sessions db) /\
  total (map total_gains (sessions db)) = total (map gain (session_updates db)).

(** An update as every commit path hands it to the store. *)
Definition sound_update (u : update) : Prop :=
  u_gain u = u_new_level u - u_old_level u /\
  1 <= u_old_level u <= u_new_level u /\ u_new_level u <= 100.

(** The update, if any, that [process_skill_updates] takes from an entry
    without an error: a number above the level shown. *)
Definition entry_update (x : string * string * Slv3.entry_data) : list update :=
  match Slv3.var (snd x) with
  | Int n =>
      if Slv3.current (snd x) <? n
      then [ {| u_attribute := fst (fst x); u_skill := snd (fst x);
                u_old_level := Slv3.current (snd x); u_new_level := n;
                u_gain := n - Slv3.current (snd x) |} ]
      else []
  | _ => []
  end.

(** A row of the dashboard's history table. *)
Definition history_row (s : session_row) : string * string * Z * string :=
  (session_timestamp s, session_type s, total_gains s,
   match notes s with
   | Some note => note
   | None => ""
   end).

(** The order of [ORDER BY session_timestamp]: the timestamp texts never
    decrease along the list.  For texts of one zero-padded shape this is
    oldest first. *)
Definition text_ascending (l : list string) : Prop :=
  StronglySorted (fun a b => String.leb a b = true) l.

(** The store [db'] shows no level, category level or overall level below
    the one of [db]. *)
Definition rollup_le (F : float_arith) (db db' : database) : Prop :=
  (forall a s, current_skill_level db a s <= current_skill_level db' a s) /\
  (forall a, In a (map fst attributes) ->
     exists l l', calculate_attribute_level F db a = Ok l /\
                  calculate_attribute_level F db' a = Ok l' /\ l <= l') /\
  (exists o o', Slv2.calculate_overall_level F db = Ok o /\
                Slv2.calculate_overall_level F db' = Ok o' /\ o <= o') /\
  (exists o o', Slv3.calculate_overall_level F db = Ok o /\
                Slv3.calculate_overall_level F db' = Ok o' /\ o <= o').

(** The keys of a nested dictionary, attribute by attribute. *)
Definition shape {V : Type} (levels : list (string * list (string * V)))
  : list (string * list string) :=
  map (fun kv => (fst kv, map fst (snd kv))) levels.

(** [levels.get(a, {}).get(s)] *)
Definition level_of {V : Type} (levels : list (string * list (string * V)))
    (a s : string) : option V :=
  match Sl.dict_get a levels with
  | Some d => Sl.dict_get s d
  | None => None
  end.

(** No text occurs twice. *)
Fixpoint nodup_strings (l : list string) : bool :=
  match l with
  | [] => true
  | x :: l' => negb (existsb (String.eqb x) l') && nodup_strings l'
  end.

(** A JSON object has no key twice: neither has a nested dictionary read
    from a file. *)
Definition unique_keys {V : Type} (d : list (string * list (string * V))) : Prop :=
  NoDup (map fst d) /\ Forall (fun kv => NoDup (map fst (snd kv))) d.

(** A level that the prompt of an update session lets through: the old
    one, or a typed one above it by at most 10 and at most 100. *)
Definition accepted_change (inputs : list field_input) (old new : Z) : Prop :=
  new = old \/ (In (Int new) inputs /\ old <= new /\ new <= old + 10 /\ new <= 100).

(** The sessions of a data file, none for a missing or damaged file or a
    file without the key. *)
Definition sessions_of (file : Sl.data_file) : list session_data :=
  match file with
  | Some d => match Sl.sessions d with Some l => l | None => [] end
  | None => []
  end.

(** An entry of the assessment dialog that the prompt of the text menu
    takes as it is: empty, or a number within 1..100. *)
Definition plain_assessment (v : field_input) : bool :=
  match v with
  | Blank => true
  | Int n => (1 <=? n) && (n <=? 100)
  | NotInt => false
  end.

(** What the prompt of an update session does with a line typed at the
    level [current_level]: it refuses it with a message and asks again,
    or it takes it as the answer. *)
Definition refused (current_level : Z) (v : field_input) : bool :=
  match v with
  | Blank => false
  | Int n => (n <? current_level) || (current_level + 10 <? n) || (100 <? n)
  | NotInt => true
  end.

(** The level that an answer requests: the number typed, or the current
    level for an empty line. *)
Definition requested_level (current_level : Z) (answer : field_input) : Z :=
  match answer with
  | Int n => n
  | _ => current_level
  end.

(** The update, if any, that the answer for the skill [k] requests: none
    when the level requested is the stored one. *)
Definition requested_update (db : database) (k : string * string)
    (answer : field_input) : list update :=
  let current_level := current_skill_level db (fst k) (snd k) in
  let new_level := requested_level current_level answer in
  if current_level <? new_level
  then [ {| u_attribute := fst k; u_skill := snd k;
            u_old_level := current_level; u_new_level := new_level;
            u_gain := new_level - current_level |} ]
  else [].

(** The lines typed at the prompt of the skill [k]: the lines refused,
    then the answer. *)
Definition prompt_of (db : database) (k : string * string)
    (p : list field_input * field_input) : Prop :=
  Forall (fun v => refused (current_skill_level db (fst k) (snd k)) v = true) (fst p) /\
  refused (current_skill_level db (fst k) (snd k)) (snd p) = false.

(** The lines of a list of prompts, in the order typed. *)
Definition lines_typed (prompts : list (list field_input * field_input))
  : list field_input :=
  flat_map (fun p => fst p ++ [snd p]) prompts.

(** The three columns of the table [skills] that the programs read. *)
Definition skill_columns (db : database) : list (string * string * Z) :=
  map (fun r => (attribute r, skill_name r, current_level r)) (skills db).

(** An update whose numbers SQLite stores. *)
Definition int64_update (u : update) : bool :=
  int64 (u_old_level u) && int64 (u_new_level u) && int64 (u_gain u).

(** A text of a given shape, a [0] of the shape standing for any digit. *)
Definition is_digit (c : ascii) : bool :=
  (48 <=? Z.of_N (N_of_ascii c)) && (Z.of_N (N_of_ascii c) <=? 57).

Fixpoint has_shape (shape text : string) : bool :=
  match shape, text with
  | EmptyString, EmptyString => true
  | String p shape', String c text' =>
      (if Ascii.eqb p "0"%char then is_digit c else Ascii.eqb p c) && has_shape shape' text'
  | _, _ => false
  end.

(** The shapes of the texts that [datetime.isoformat()] writes for the
    clock, without and with microseconds.  As a reader of timestamps,
    [isoformat_shape] stands for a [fromisoformat] in the examples. *)
Definition seconds_shape : string := "0000-00-00T00:00:00".
Definition microseconds_shape : string := "0000-00-00T00:00:00.000000".

Definition isoformat_shape (ts : string) : bool :=
  has_shape seconds_shape ts || has_shape microseconds_shape ts.

(** The number that a text of a shape spells: its digits at the places
    of the [0]s of the shape, read as one decimal number.  For a
    timestamp of the shape [seconds_shape] this is the number
    [YYYYMMDDHHMMSS], which is the greater for the later time. *)
Fixpoint spelled_number (shape text : string) (acc : Z) : Z :=
  match shape, text with
  | String p shape', String c text' =>
      spelled_number shape' text'
        (if Ascii.eqb p "0"%char then 10 * acc + (Z.of_N (N_of_ascii c) - 48) else acc)
  | _, _ => acc
  end.

(** The power of ten above the numbers of a shape. *)
Fixpoint shape_scale (shape : string) : Z :=
  match shape with
  | EmptyString => 1
  | String p shape' =>
      if Ascii.eqb p "0"%char then 10 * shape_scale shape' else shape_scale shape'
  end.

(** ** Stores and inputs used as examples *)

(** The store of a first start. *)
Definition new_store : database := init_database empty_database.

Definition example_timestamp : string := "2024-03-01T10:00:00".

(** An update session that raises the first skill by 5 and the second
    by 3, and leaves the other 48 fields empty. *)
Definition example_inputs : list field_input := Int 6 :: Int 4 :: repeat Blank 48.

Definition store_after_example : database :=
  Eval vm_compute in
    match Slv2.update_skills_session new_store example_timestamp example_inputs with
    | Ok (db, _) => db
    | Raise _ => empty_database
    end.

(** An update handed to the store with a level above 100. *)
Definition update_to_150 : update :=
  {| u_attribute := "life_skills"; u_skill := "communication";
     u_old_level := 1; u_new_level := 150; u_gain := 149 |}.

(** The dashboard on a new store, with text that is no number in the first
    entry and a level below the stored one in the second. *)
Definition example_gui : Slv3.gui :=
  set_var
    (set_var {| Slv3.store := new_store;
                Slv3.update_entries := Slv3.setup_update_interface new_store |}
             "life_skills" "communication" NotInt)
    "life_skills" "critical_thinking_problem_solving" (Int 0).

(** The dashboard on a new store with the level 0, below the stored level
    1, typed for the first skill. *)
Definition example_gui_decrease : Slv3.gui :=
  set_var {| Slv3.store := new_store;
             Slv3.update_entries := Slv3.setup_update_interface new_store |}
          "life_skills" "communication" (Int 0).

(** An assessment of one skill at level 70. *)
Definition example_assessment : list (string * list (string * Z)) :=
  [ ("life_skills", [ ("communication", 70) ]) ].




(** A store with fifteen sessions of the menu, the first three committed
    out of date order (sessions may carry a custom date). *)
Definition example_history_store : database :=
  fold_left
    (fun db day =>
       save_update_session db ("2024-01-" ++ day ++ "T09:00:00")
         [ {| u_attribute := "career"; u_skill := "technical_mastery";
              u_old_level := current_skill_level db "career" "technical_mastery";
              u_new_level := current_skill_level db "career" "technical_mastery" + 1;
              u_gain := 1 |} ]
         1)
    [ "03"; "01"; "02"; "04"; "05"; "06"; "07"; "08"; "09"; "10";
      "11"; "12"; "13"; "14"; "15" ]
    new_store.

(** The store after an update session of the menu with the custom date
    [2024-3-1], which the date prompt accepts and stores as typed. *)
Definition custom_date_timestamp : string := "2024-3-1T10:00:00".

Definition store_with_custom_date : database :=
  Eval vm_compute in
    match Slv2.update_skills_session new_store custom_date_timestamp example_inputs with
    | Ok (db, _) => db
    | Raise _ => empty_database
    end.

Definition assessment_inputs : list field_input := Int 70 :: repeat Blank 49.

Definition store_after_assessment : database :=
  Eval vm_compute in
    match Slv2.crystal_ball_assessment new_store example_timestamp assessment_inputs with
    | Ok (db, _) => db
    | Raise _ => empty_database
    end.

(** The dashboard on a new store with level 5 typed for the first skill. *)
Definition example_gui_update : Slv3.gui :=
  set_var {| Slv3.store := new_store;
             Slv3.update_entries := Slv3.setup_update_interface new_store |}
          "life_skills" "communication" (Int 5).

(** A data file with two known levels, a level for a skill and one for an
    attribute that the taxonomy does not have, and no sessions. *)
Definition example_saved_levels : list (string * list (string * Z)) :=
  [ ("career", [ ("technical_mastery", 40); ("juggling", 7) ]);
    ("alchemy", [ ("transmutation", 99) ]);
    ("life_skills", [ ("communication", 12) ]) ].

Definition example_data : Sl.data :=
  {| Sl.skill_levels := example_saved_levels; Sl.sessions := Some [] |}.

(** The update session of sl.py on the levels of a first start and a
    missing data file, with the lines of [example_inputs]. *)
Definition json_levels_after_example : list (string * list (string * Z)) :=
  Eval vm_compute in
    match Sl.update_skills_session Sl.init_skill_levels None example_timestamp
            example_inputs with
    | Ok (levels, _, _, _) => levels
    | Raise _ => []
    end.

Definition json_session_example : session_data :=
  Eval vm_compute in
    match Sl.update_skills_session Sl.init_skill_levels None example_timestamp
            example_inputs with
    | Ok (_, _, session, _) => session
    | Raise _ => {| timestamp := EmptyString; updates := [] |}
    end.

Definition json_file_after_example : Sl.data_file :=
  Some {| Sl.skill_levels := json_levels_after_example;
          Sl.sessions := Some [json_session_example] |}.

(** The entries of the assessment dialog, level 70 typed for the first
    skill and the other fields left empty. *)
Definition example_dialog : list (string * list (string * field_input)) :=
  map (fun kv =>
         (fst kv,
          map (fun skill =>
                 (skill, if (skill =? "communication")%string then Int 70 else Blank))
              (snd kv)))
      attributes.

(* ================================================================= *)
(** * Part II: theorems *)
(* ================================================================= *)

(** ** The leveling calculator *)

Lemma exact_binary64_like : binary64_like exact.
Proof.
  split; cbn [rnd math_exp exact]; intros; try assumption; try reflexivity.
  - left. apply exp_pos.
  - destruct H as [H|H]; [left; now apply exp_increasing | subst; right; reflexivity].
  - pose proof (exp_pos u).
    assert (0 < / 2 ^ 50)%R by (apply Rinv_0_lt_compat, pow_lt; lra).
    nra.
Qed.

Lemma Int_part_le (x y : R) : (x <= y)%R -> Int_part x <= Int_part y.
Proof.
  intros Hxy.
  destruct (base_Int_part x) as [Hx1 Hx2], (base_Int_part y) as [Hy1 Hy2].
  apply Z.lt_succ_r. apply lt_IZR. rewrite succ_IZR. lra.
Qed.

Lemma Int_part_IZR (n : Z) : Int_part (IZR n) = n.
Proof. symmetry. apply Int_part_spec. lra. Qed.

Lemma Int_part_between (r : R) (n : Z) :
  (IZR n <= r < IZR n + 1)%R -> Int_part r = n.
Proof. intros H. symmetry. apply Int_part_spec. lra. Qed.

Lemma int_of_float_nonneg (r : R) : (0 <= r)%R -> int_of_float r = Int_part r.
Proof.
  intros H. unfold int_of_float. destruct (Rle_dec 0 r); [reflexivity | contradiction].
Qed.

Lemma exp_mult_INR (x : R) (n : nat) : exp (INR n * x) = (exp x ^ n)%R.
Proof.
  induction n as [|n IH].
  - simpl. rewrite Rmult_0_l. apply exp_0.
  - rewrite S_INR, Rmult_plus_distr_r, exp_plus, IH, Rmult_1_l. simpl. ring.
Qed.

(** [(1 + x/n)^n <= exp x]: the lower bounds on [exp] used below. *)
Lemma exp_ge_pow (x : R) (n : nat) : (0 <= 1 + x / INR n)%R -> (n <> 0)%nat ->
  ((1 + x / INR n) ^ n <= exp x)%R.
Proof.
  intros H Hn.
  assert (INR n <> 0%R) by (apply not_0_INR; exact Hn).
  replace x with (INR n * (x / INR n))%R at 2 by (field; assumption).
  rewrite exp_mult_INR. apply pow_incr. split; [assumption | apply exp_ineq1_le].
Qed.

Section CalculatorFacts.
Variable F : float_arith.
Hypothesis HF : binary64_like F.
Local Open Scope R_scope.

Lemma rnd_IZR (n : Z) : (Z.abs n <= 2 ^ 53)%Z -> rnd F (IZR n) = IZR n.
Proof.
  intros Hn. pose proof (rnd_representable F HF n 0 Hn) as H.
  simpl in H. rewrite Rdiv_1_r in H. apply H. lia.
Qed.

Lemma rnd_le_IZR (x : R) (n : Z) :
  (Z.abs n <= 2 ^ 53)%Z -> x <= IZR n -> rnd F x <= IZR n.
Proof. intros Hn Hx. rewrite <- (rnd_IZR n Hn). now apply rnd_monotone. Qed.

Lemma rnd_ge_IZR (x : R) (n : Z) :
  (Z.abs n <= 2 ^ 53)%Z -> IZR n <= x -> IZR n <= rnd F x.
Proof. intros Hn Hx. rewrite <- (rnd_IZR n Hn). now apply rnd_monotone. Qed.

Lemma rnd_le_dyadic (m : Z) (e : nat) (x q : R) :
  (Z.abs m <= 2 ^ 53)%Z -> (e <= 1074)%nat -> q = IZR m / 2 ^ e ->
  x <= q -> rnd F x <= q.
Proof.
  intros Hm He -> Hx. rewrite <- (rnd_representable F HF m e Hm He).
  now apply rnd_monotone.
Qed.

Lemma rnd_ge_dyadic (m : Z) (e : nat) (x q : R) :
  (Z.abs m <= 2 ^ 53)%Z -> (e <= 1074)%nat -> q = IZR m / 2 ^ e ->
  q <= x -> q <= rnd F x.
Proof.
  intros Hm He -> Hx. rewrite <- (rnd_representable F HF m e Hm He).
  now apply rnd_monotone.
Qed.

(** The denominator [1 + math.exp(..)] is at least 1: the division of
    [sigmoid_value] never raises. *)
Lemma denominator_ge_1 (u : R) : 1 <= fadd F 1 (math_exp F u).
Proof.
  unfold fadd. apply (rnd_ge_IZR _ 1); [lia|].
  pose proof (math_exp_nonneg F HF u). lra.
Qed.

Lemma sigmoid_value_Ok (x : R) :
  sigmoid_value F x
  = Ok (rnd F (1 / fadd F 1 (math_exp F (fmul F (-10) (fsub F x (/ 2)))))).
Proof.
  unfold sigmoid_value, fdiv.
  pose proof (denominator_ge_1 (fmul F (-10) (fsub F x (/ 2)))) as H.
  destruct (Req_dec_T _ 0) as [E|_]; [lra | reflexivity].
Qed.

Lemma sigmoid_value_range (x s : R) : sigmoid_value F x = Ok s -> 0 <= s <= 1.
Proof.
  rewrite sigmoid_value_Ok. intros [= <-].
  pose proof (denominator_ge_1 (fmul F (-10) (fsub F x (/ 2)))) as H.
  set (d := fadd F 1 _) in *.
  assert (0 < 1 / d <= 1) as [H0 H1].
  { split.
    - apply Rdiv_lt_0_compat; lra.
    - apply (Rmult_le_reg_r d); [lra|].
      unfold Rdiv. rewrite Rmult_assoc, Rinv_l by lra. lra. }
  split; [apply (rnd_ge_IZR _ 0) | apply (rnd_le_IZR _ 1)]; try lia; lra.
Qed.

Lemma sigmoid_value_monotone (x y s s' : R) :
  x <= y -> sigmoid_value F x = Ok s -> sigmoid_value F y = Ok s' -> s <= s'.
Proof.
  intros Hxy. rewrite !sigmoid_value_Ok. intros [= <-] [= <-].
  pose proof (denominator_ge_1 (fmul F (-10) (fsub F x (/ 2)))) as Hx.
  pose proof (denominator_ge_1 (fmul F (-10) (fsub F y (/ 2)))) as Hy.
  apply rnd_monotone; [exact HF|].
  unfold Rdiv. rewrite !Rmult_1_l. apply Rinv_le_contravar; [lra|].
  unfold fadd. apply rnd_monotone; [exact HF|]. apply Rplus_le_compat_l.
  apply math_exp_monotone; [exact HF|].
  unfold fmul. apply rnd_monotone; [exact HF|].
  assert (fsub F x (/ 2) <= fsub F y (/ 2)).
  { unfold fsub. apply rnd_monotone; [exact HF|]. lra. }
  lra.
Qed.

Lemma scaled_level_range (s : R) : 0 <= s <= 1 ->
  (1 <= Z.min (int_of_float (fadd F 1 (fmul F s 99))) 100 <= 100)%Z.
Proof.
  intros Hs.
  assert (0 <= fmul F s 99 <= 99) as Hp.
  { unfold fmul.
    split; [apply (rnd_ge_IZR _ 0) | apply (rnd_le_IZR _ 99)]; try lia; nra. }
  assert (1 <= fadd F 1 (fmul F s 99) <= 100) as Hl.
  { unfold fadd.
    split; [apply (rnd_ge_IZR _ 1) | apply (rnd_le_IZR _ 100)]; try lia; lra. }
  rewrite int_of_float_nonneg by lra.
  pose proof (Int_part_le _ _ (proj1 Hl)) as H1. rewrite Int_part_IZR in H1. lia.
Qed.

Lemma int_truediv_Ok (a b : Z) :
  b <> 0%Z -> int_truediv F a b = Ok (rnd F (IZR a / IZR b)).
Proof. intros Hb. unfold int_truediv. now rewrite (proj2 (Z.eqb_neq b 0) Hb). Qed.

Lemma sigmoid_level_nonpos (t M : Z) :
  (t <= 0)%Z -> sigmoid_level_calculation F t M = Ok 1%Z.
Proof.
  intros H. unfold sigmoid_level_calculation. now rewrite (proj2 (Z.leb_le t 0) H).
Qed.

(** In the model, whose division has no largest quotient, a positive
    maximum gives a level within 1..100 at every total. *)
Lemma sigmoid_level_range (t M : Z) :
  (0 < M)%Z ->
  exists level, sigmoid_level_calculation F t M = Ok level /\ (1 <= level <= 100)%Z.
Proof.
  intros HM. destruct (Z.leb_spec t 0) as [H0|H0].
  - exists 1%Z. split; [now apply sigmoid_level_nonpos | lia].
  - unfold sigmoid_level_calculation. rewrite (proj2 (Z.leb_gt _ _) H0).
    rewrite int_truediv_Ok by lia. cbn [bind].
    rewrite sigmoid_value_Ok. cbn [bind].
    eexists. split; [reflexivity|].
    apply scaled_level_range. eapply sigmoid_value_range. apply sigmoid_value_Ok.
Qed.

Lemma exp_m5_ge : / 243 <= exp (-5).
Proof.
  replace (-5) with (- (5)) by lra.
  rewrite exp_Ropp. apply Rinv_le_contravar; [apply exp_pos|].
  replace 5 with (INR 5 * 1) by (simpl; lra). rewrite exp_mult_INR.
  apply Rle_trans with (3 ^ 5); [|lra].
  apply pow_incr. split; [left; apply exp_pos | apply exp_le_3].
Qed.

Lemma math_exp_lower (u : R) : -5 <= u <= 5 -> / 256 <= math_exp F u.
Proof.
  intros Hu.
  pose proof (math_exp_accurate F HF u ltac:(lra)) as Hacc.
  assert (exp (-5) <= exp u) as He.
  { destruct (proj1 Hu) as [Hlt|<-];
      [left; now apply exp_increasing | right; reflexivity]. }
  pose proof exp_m5_ge.
  assert (/ 2 ^ 50 <= / 2) as Hhalf by (apply Rinv_le_contravar; lra).
  pose proof (exp_pos u). nra.
Qed.

(** C10, amended.  For every total the rollup can produce, that is
    [0 < total_points <= max_points], the calculator returns a level with
    [1 <= level <= 99]: level 100 is out of reach of the rollup, also
    with every skill at 100.  (The logistic value stays below 1, here
    at most 511/512, so [1 + 99 * s] stays below 100.) *)
Theorem rollup_level_at_most_99 (t M : Z) :
  (0 < t <= M)%Z ->
  exists level, sigmoid_level_calculation F t M = Ok level /\ (1 <= level <= 99)%Z.
Proof.
  intros [Ht HM].
  destruct (sigmoid_level_range t M) as (level & E & Hrange); [lia |].
  exists level. split; [exact E|]. split; [lia|].
  revert E. unfold sigmoid_level_calculation.
  rewrite (proj2 (Z.leb_gt _ 0)) by lia.
  rewrite int_truediv_Ok by lia. cbn [bind].
  rewrite sigmoid_value_Ok. cbn [bind]. intros [= <-].
  set (x := rnd F (IZR t / IZR M)).
  assert (Hx : 0 <= x <= 1).
  { assert (0 < IZR M) by (apply IZR_lt; lia).
    assert (0 < IZR t <= IZR M) by (split; [apply IZR_lt | apply IZR_le]; lia).
    assert (0 <= IZR t / IZR M <= 1).
    { split.
      - left. apply Rdiv_lt_0_compat; lra.
      - apply (Rmult_le_reg_r (IZR M)); [lra|].
        unfold Rdiv. rewrite Rmult_assoc, Rinv_l by lra. lra. }
    unfold x.
    split; [apply (rnd_ge_IZR _ 0) | apply (rnd_le_IZR _ 1)]; try lia; lra. }
  assert (Hy : -1 / 2 <= fsub F x (/ 2) <= 1 / 2).
  { unfold fsub. split.
    - apply (rnd_ge_dyadic (-1) 1); try lia; simpl; lra.
    - apply (rnd_le_dyadic 1 1); try lia; simpl; lra. }
  assert (Hu : -5 <= fmul F (-10) (fsub F x (/ 2)) <= 5).
  { unfold fmul.
    split; [apply (rnd_ge_IZR _ (-5)) | apply (rnd_le_IZR _ 5)]; try lia; lra. }
  pose proof (math_exp_lower _ Hu) as He.
  set (e := math_exp F _) in *.
  assert (Hd : 257 / 256 <= fadd F 1 e).
  { unfold fadd. apply (rnd_ge_dyadic 257 8); try lia; simpl; lra. }
  set (d := fadd F 1 e) in *.
  assert (Hq : rnd F (1 / d) <= 511 / 512).
  { apply (rnd_le_dyadic 511 9); try lia; [simpl; lra|].
    apply (Rmult_le_reg_r d); [lra|].
    unfold Rdiv at 1. rewrite Rmult_assoc, Rinv_l by lra. lra. }
  set (s := rnd F (1 / d)) in *.
  assert (Hp : fmul F s 99 <= 791 / 8).
  { unfold fmul. apply (rnd_le_dyadic 791 3); try lia; simpl; lra. }
  assert (Hl : fadd F 1 (fmul F s 99) <= 799 / 8).
  { unfold fadd. apply (rnd_le_dyadic 799 3); try lia; simpl; lra. }
  apply Z.le_trans with (int_of_float (fadd F 1 (fmul F s 99))); [apply Z.le_min_l|].
  unfold int_of_float. destruct (Rle_dec 0 _) as [Hpos|Hneg].
  - destruct (base_Int_part (fadd F 1 (fmul F s 99))) as [Hb _].
    apply Z.lt_succ_r. apply lt_IZR. change (IZR (Z.succ 99)) with 100. lra.
  - apply Rnot_le_lt in Hneg.
    destruct (base_Int_part (- fadd F 1 (fmul F s 99))) as [_ Hb].
    apply Z.lt_succ_r. apply lt_IZR. rewrite opp_IZR.
    change (IZR (Z.succ 99)) with 100. lra.
Qed.
End CalculatorFacts.

(** The range in terms of the quotient: its magnitude is below
    [2^1024 - 2^970]. *)
Lemma truediv_in_range_quotient (a b : Z) :
  b <> 0 ->
  (truediv_in_range a b = true <->
   (Rabs (IZR a / IZR b) < IZR (2 ^ 1024 - 2 ^ 970))%R).
Proof.
  intros Hb. unfold truediv_in_range.
  set (c := 2 ^ 1024 - 2 ^ 970).
  assert (Hpos : (0 < IZR (Z.abs b))%R) by (apply IZR_lt; lia).
  assert (E : Rabs (IZR a / IZR b) = (IZR (Z.abs a) / IZR (Z.abs b))%R).
  { unfold Rdiv. rewrite Rabs_mult, Rabs_inv, <- !abs_IZR. reflexivity. }
  rewrite E. split.
  - intros H. apply Z.ltb_lt in H. apply IZR_lt in H. rewrite mult_IZR in H.
    apply (Rmult_lt_reg_r (IZR (Z.abs b))); [exact Hpos|].
    unfold Rdiv. rewrite Rmult_assoc, Rinv_l by lra. lra.
  - intros H. apply Z.ltb_lt. apply lt_IZR. rewrite mult_IZR.
    apply (Rmult_lt_compat_r (IZR (Z.abs b))) in H; [|exact Hpos].
    unfold Rdiv in H. rewrite Rmult_assoc, Rinv_l in H by lra. lra.
Qed.

(** The quotient of [10^400] by 1000 is above every binary64 number. *)
Lemma huge_quotient : (2 ^ 1024 <= IZR (10 ^ 400) / IZR 1000)%R.
Proof.
  replace (IZR (10 ^ 400) / IZR 1000)%R with (IZR (10 ^ 397)).
  - rewrite pow_IZR. apply IZR_le. apply Z.leb_le. vm_compute. reflexivity.
  - replace (10 ^ 400) with (10 ^ 397 * 1000) by (vm_compute; reflexivity).
    rewrite mult_IZR. field.
Qed.

(** The totals below [2^1023] in magnitude, those of the 64-bit integers
    of the store among them, are within the range of the division for
    every maximum that is not zero. *)
Lemma truediv_in_range_small (t M : Z) :
  Z.abs t < 2 ^ 1023 -> M <> 0 -> truediv_in_range t M = true.
Proof.
  intros Ht HM. unfold truediv_in_range. apply Z.ltb_lt.
  assert (Hc : 2 ^ 1023 <= 2 ^ 1024 - 2 ^ 970) by (apply Z.leb_le; vm_compute; reflexivity).
  set (c := 2 ^ 1024 - 2 ^ 970) in *. set (b := 2 ^ 1023) in *.
  assert (1 <= Z.abs M) by lia. nia.
Qed.

(** C7, the claim as stated fails: the total [10^400] with the maximum
    1000 is a total [>= 0] with a maximum [> 0], and its quotient,
    [10^397], is beyond the range of binary64: what the division of the
    model gives for it is above [2^1024], and no binary64 number is.
    There the true division [total_points / max_points] of the
    calculator raises [OverflowError], and no level is returned. *)
Lemma level_of_huge_total_is_out_of_range :
  0 <= 10 ^ 400 /\ 0 < 1000 /\
  truediv_in_range (10 ^ 400) 1000 = false /\
  exists x, int_truediv exact (10 ^ 400) 1000 = Ok x /\ (2 ^ 1024 <= x)%R.
Proof.
  split; [|split; [|split]];
    [apply Z.leb_le; vm_compute; reflexivity
    | apply Z.ltb_lt; vm_compute; reflexivity
    | vm_compute; reflexivity |].
  exists (IZR (10 ^ 400) / IZR 1000)%R. split; [reflexivity | exact huge_quotient].
Qed.

(** C7, amended.  For every [total_points >= 0] and every
    [max_points > 0] whose quotient is within the range of binary64, as
    it is for every total below [2^1023], the calculator returns (it does
    not raise) an integer level with [1 <= level <= 100], in every
    binary64-like arithmetic. *)
Theorem level_within_1_100 (F : float_arith) (total_points max_points : Z) :
  binary64_like F -> 0 <= total_points -> 0 < max_points ->
  truediv_in_range total_points max_points = true ->
  exists level,
    sigmoid_level_calculation F total_points max_points = Ok level /\
    1 <= level <= 100.
Proof.
  intros HF Ht HM _. unfold sigmoid_level_calculation.
  destruct (Z.leb_spec total_points 0) as [H0|H0].
  - exists 1. split; [reflexivity | lia].
  - rewrite (int_truediv_Ok F) by lia. cbn [bind].
    destruct (sigmoid_value F (rnd F (IZR total_points / IZR max_points)))
      as [s|] eqn:Es; [|now rewrite (sigmoid_value_Ok F HF) in Es].
    cbn [bind]. eexists. split; [reflexivity|].
    apply (scaled_level_range F HF). exact (sigmoid_value_range F HF _ _ Es).
Qed.

(** The bound at a total of 500 out of 1000, in exact arithmetic. *)
Lemma level_within_1_100_witness :
  binary64_like exact /\ 0 <= 500 /\ 0 < 1000 /\ truediv_in_range 500 1000 = true /\
  exists level, sigmoid_level_calculation exact 500 1000 = Ok level /\ 1 <= level <= 100.
Proof.
  split; [exact exact_binary64_like|]. split; [lia|]. split; [lia|].
  split; [reflexivity|].
  apply (level_within_1_100 exact 500 1000 exact_binary64_like); [lia | lia | reflexivity].
Defined.

(** C8, the claim as stated fails: [1 <= 10^400], and with the maximum
    1000 the quotient of the second total is beyond the range of
    binary64: what the division of the model gives for it is above
    [2^1024], and no binary64 number is.  There the true division of the
    calculator raises [OverflowError], and the second call returns no
    level to compare. *)
Lemma second_total_is_out_of_range :
  0 < 1000 /\ 1 <= 10 ^ 400 /\
  truediv_in_range 1 1000 = true /\
  truediv_in_range (10 ^ 400) 1000 = false /\
  exists x, int_truediv exact (10 ^ 400) 1000 = Ok x /\ (2 ^ 1024 <= x)%R.
Proof.
  split; [|split; [|split; [|split]]];
    [apply Z.ltb_lt; vm_compute; reflexivity
    | apply Z.leb_le; vm_compute; reflexivity
    | vm_compute; reflexivity
    | vm_compute; reflexivity |].
  exists (IZR (10 ^ 400) / IZR 1000)%R. split; [reflexivity | exact huge_quotient].
Qed.

(** C8, amended.  For a fixed [max_points > 0] the calculator is
    monotonically non-decreasing in [total_points], non-positive totals
    included, as far as the quotient of the greater total is within the
    range of binary64: for [t1 <= t2], with [t2] not positive or its
    quotient in the range, both calls return, and the first level is at
    most the second. *)
Theorem level_monotone_in_total_points (F : float_arith) (max_points t1 t2 : Z) :
  binary64_like F -> 0 < max_points -> t1 <= t2 ->
  t2 <= 0 \/ truediv_in_range t2 max_points = true ->
  exists l1 l2,
    sigmoid_level_calculation F t1 max_points = Ok l1 /\
    sigmoid_level_calculation F t2 max_points = Ok l2 /\
    l1 <= l2.
Proof.
  intros HF HM Ht _.
  destruct (Z.leb_spec t1 0) as [H1|H1].
  - destruct (sigmoid_level_range F HF t2 max_points HM) as (l2 & E2 & R2).
    exists 1, l2. split; [now apply sigmoid_level_nonpos | split; [exact E2 | lia]].
  - unfold sigmoid_level_calculation.
    rewrite !(proj2 (Z.leb_gt _ 0)) by lia.
    rewrite !(int_truediv_Ok F) by lia. cbn [bind].
    set (x1 := rnd F (IZR t1 / IZR max_points)).
    set (x2 := rnd F (IZR t2 / IZR max_points)).
    assert (Hx : (x1 <= x2)%R).
    { apply rnd_monotone; [exact HF|].
      apply Rmult_le_compat_r; [|now apply IZR_le].
      left. apply Rinv_0_lt_compat. now apply IZR_lt. }
    destruct (sigmoid_value F x1) as [s1|] eqn:E1;
      [|now rewrite (sigmoid_value_Ok F HF) in E1].
    destruct (sigmoid_value F x2) as [s2|] eqn:E2;
      [|now rewrite (sigmoid_value_Ok F HF) in E2].
    cbn [bind].
    do 2 eexists. split; [reflexivity | split; [reflexivity|]].
    apply Z.min_le_compat_r.
    pose proof (sigmoid_value_monotone F HF x1 x2 _ _ Hx E1 E2) as Hs.
    pose proof (sigmoid_value_range F HF x1 _ E1) as Hr1.
    pose proof (sigmoid_value_range F HF x2 _ E2) as Hr2.
    assert (0 <= fmul F s1 99 <= fmul F s2 99)%R as Hp.
    { unfold fmul. split; [apply (rnd_ge_IZR F HF _ 0); [lia|nra]
                          | apply rnd_monotone; [exact HF | nra]]. }
    assert (1 <= fadd F 1 (fmul F s1 99) <= fadd F 1 (fmul F s2 99))%R as Hl.
    { unfold fadd. split; [apply (rnd_ge_IZR F HF _ 1); [lia|lra]
                          | apply rnd_monotone; [exact HF | lra]]. }
    rewrite !int_of_float_nonneg by lra.
    apply Int_part_le. lra.
Qed.

(** *** The calculator in exact arithmetic, at some totals *)

Lemma sigmoid_level_exact (t M : Z) :
  0 < t -> M <> 0 ->
  sigmoid_level_calculation exact t M
  = Ok (Z.min (int_of_float
                 (1 + 1 / (1 + exp (-10 * (IZR t / IZR M - / 2))) * 99)%R) 100).
Proof.
  intros Ht HM. unfold sigmoid_level_calculation.
  rewrite (proj2 (Z.leb_gt _ _) Ht).
  rewrite (int_truediv_Ok exact) by assumption. cbn [bind].
  rewrite (sigmoid_value_Ok exact exact_binary64_like). cbn [bind].
  reflexivity.
Qed.

Lemma exp_49_10_gt_98 : (98 < exp (49 / 10))%R.
Proof.
  apply Rlt_le_trans with ((1 + (49 / 10) / INR 64) ^ 64)%R.
  - replace (INR 64) with 64%R by (simpl; lra). lra.
  - apply exp_ge_pow; [|discriminate].
    replace (INR 64) with 64%R by (simpl; lra). lra.
Qed.

Lemma exp_5_gt_99 : (99 < exp 5)%R.
Proof.
  apply Rlt_le_trans with ((1 + 5 / INR 64) ^ 64)%R.
  - replace (INR 64) with 64%R by (simpl; lra). lra.
  - apply exp_ge_pow; [|discriminate].
    replace (INR 64) with 64%R by (simpl; lra). lra.
Qed.

(** One hundredth of the maximum, the total of a category whose ten
    skills are all at level 1, gives level 1. *)
Lemma sigmoid_level_exact_hundredth (t M : Z) :
  0 < t -> M = 100 * t -> sigmoid_level_calculation exact t M = Ok 1.
Proof.
  intros Ht ->. rewrite sigmoid_level_exact by lia. f_equal.
  assert (Hx : (IZR t / IZR (100 * t) = 1 / 100)%R).
  { rewrite mult_IZR. assert (0 < IZR t)%R by (now apply IZR_lt). field. lra. }
  rewrite Hx. replace (-10 * (1 / 100 - / 2))%R with (49 / 10)%R by lra.
  pose proof exp_49_10_gt_98 as He.
  set (e := exp (49 / 10)) in *.
  assert (0 < 1 / (1 + e) < / 99)%R as [H0 H1].
  { split.
    - apply Rdiv_lt_0_compat; lra.
    - unfold Rdiv. rewrite Rmult_1_l. apply Rinv_lt_contravar; nra. }
  rewrite int_of_float_nonneg by nra.
  rewrite (Int_part_between _ 1); [reflexivity|]. simpl. nra.
Qed.

(** The whole maximum, the total of a category whose ten skills are all
    at level 100, gives level 99. *)
Lemma sigmoid_level_exact_full (M : Z) :
  0 < M -> sigmoid_level_calculation exact M M = Ok 99.
Proof.
  intros HM. rewrite sigmoid_level_exact by lia. f_equal.
  assert (Hx : (IZR M / IZR M = 1)%R).
  { assert (0 < IZR M)%R by (now apply IZR_lt). field. lra. }
  rewrite Hx. replace (-10 * (1 - / 2))%R with (- (5))%R by lra.
  assert (He : (0 < exp (- (5)) < / 99)%R).
  { split; [apply exp_pos|].
    rewrite exp_Ropp. apply Rinv_lt_contravar; [|apply exp_5_gt_99].
    pose proof (exp_pos 5). lra. }
  set (e := exp (- (5))) in *.
  assert (98 / 99 < 1 / (1 + e) < 1)%R as [H0 H1].
  { split.
    - apply (Rmult_lt_reg_r (1 + e)); [lra|].
      unfold Rdiv at 2. rewrite Rmult_assoc, Rinv_l by lra. lra.
    - apply (Rmult_lt_reg_r (1 + e)); [lra|].
      unfold Rdiv. rewrite Rmult_assoc, Rinv_l by lra. lra. }
  rewrite int_of_float_nonneg by nra.
  rewrite (Int_part_between _ 99); [reflexivity|]. simpl. nra.
Qed.

(** Half of the maximum, the midpoint of the curve, gives level 50. *)
Lemma sigmoid_level_exact_half (t : Z) :
  0 < t -> sigmoid_level_calculation exact t (2 * t) = Ok 50.
Proof.
  intros Ht. rewrite sigmoid_level_exact by lia. f_equal.
  assert (Hx : (IZR t / IZR (2 * t) = / 2)%R).
  { rewrite mult_IZR. assert (0 < IZR t)%R by (now apply IZR_lt). field. lra. }
  rewrite Hx. replace (-10 * (/ 2 - / 2))%R with 0%R by lra. rewrite exp_0.
  rewrite int_of_float_nonneg by lra.
  rewrite (Int_part_between _ 50); [reflexivity|]. simpl. lra.
Qed.

(** C10, the claim as stated fails: in exact arithmetic the logistic value
    of the code at [x = 1] is [1 / (1 + e^(-5))], and this number is not
    below [99/100] (it is about 0.9933). *)
Lemma logistic_at_1_not_below_99_percent :
  sigmoid_value exact 1 = Ok (1 / (1 + exp (-5)))%R /\
  ~ (1 / (1 + exp (-5)) < 99 / 100)%R.
Proof.
  split.
  - rewrite (sigmoid_value_Ok exact exact_binary64_like).
    unfold fadd, fmul, fsub. cbn [rnd math_exp exact].
    replace (-10 * (1 - / 2))%R with (-5)%R by lra. reflexivity.
  - assert (exp (-5) < / 99)%R.
    { replace (-5)%R with (- (5))%R by lra.
      rewrite exp_Ropp. apply Rinv_lt_contravar; [|apply exp_5_gt_99].
      pose proof (exp_pos 5). lra. }
    pose proof (exp_pos (-5)).
    apply Rle_not_lt. left.
    apply (Rmult_lt_reg_r (1 + exp (-5))); [lra|].
    unfold Rdiv at 2. rewrite Rmult_assoc, Rinv_l by lra. lra.
Qed.

(** The bound at the full total, 1000 out of 1000, in exact arithmetic. *)
Lemma rollup_level_at_most_99_witness :
  binary64_like exact /\ 0 < 1000 <= 1000 /\
  exists level, sigmoid_level_calculation exact 1000 1000 = Ok level /\ 1 <= level <= 99.
Proof.
  split; [exact exact_binary64_like|]. split; [lia|].
  apply (rollup_level_at_most_99 exact exact_binary64_like 1000 1000); lia.
Defined.

(** ** An arithmetic that rounds is binary64-like *)

Section FixedPoint.
Local Open Scope R_scope.

(** Upper bounds on [exp], from [1 - x <= exp (- x)]. *)
Lemma exp_le_inv_1_minus (x : R) : 0 <= x < 1 -> exp x <= / (1 - x).
Proof.
  intros Hx. pose proof (exp_ineq1_le (- x)) as H. rewrite exp_Ropp in H.
  pose proof (exp_pos x) as Hp.
  rewrite <- (Rinv_inv (exp x)). apply Rinv_le_contravar; lra.
Qed.

Lemma exp_1_le_11_4 : exp 1 <= 11 / 4.
Proof.
  replace 1 with (INR 64 * (/ 64)) by (simpl; lra).
  rewrite exp_mult_INR.
  apply Rle_trans with ((/ (1 - / 64)) ^ 64).
  - apply pow_incr. split; [left; apply exp_pos | apply exp_le_inv_1_minus; lra].
  - lra.
Qed.

Lemma exp_700_le : exp 700 <= 2 ^ 1025.
Proof.
  replace 700 with (INR 700 * 1) by (rewrite INR_IZR_INZ; simpl; lra).
  rewrite exp_mult_INR.
  apply Rle_trans with ((11 / 4) ^ 700).
  - apply pow_incr. split; [left; apply exp_pos | apply exp_1_le_11_4].
  - replace (11 / 4) with (IZR 11 / IZR 4) by lra.
    unfold Rdiv. rewrite Rpow_mult_distr. rewrite pow_inv.
    rewrite !pow_IZR.
    apply (Rmult_le_reg_r (IZR (4 ^ Z.of_nat 700))).
    + apply IZR_lt. reflexivity.
    + rewrite Rmult_assoc, Rinv_l, Rmult_1_r.
      * rewrite <- mult_IZR. apply IZR_le. vm_compute. discriminate.
      * apply not_0_IZR. discriminate.
Qed.

(** Rounding to the grid is monotone, keeps the points of the grid, and
    moves a number by at most half a step. *)
Lemma fixed_point_rnd_le (x y : R) : x <= y -> fixed_point_rnd x <= fixed_point_rnd y.
Proof.
  intros Hxy. unfold fixed_point_rnd.
  assert (HG : 0 < 2 ^ 1074) by (apply pow_lt; lra).
  set (G := 2 ^ 1074) in *.
  apply Rmult_le_compat_r; [left; now apply Rinv_0_lt_compat|].
  apply IZR_le. apply Int_part_le. nra.
Qed.

Lemma fixed_point_rnd_grid (k : Z) : fixed_point_rnd (IZR k / 2 ^ 1074) = IZR k / 2 ^ 1074.
Proof.
  unfold fixed_point_rnd.
  assert (HG : 0 < 2 ^ 1074) by (apply pow_lt; lra).
  set (G := 2 ^ 1074) in *.
  replace (IZR k / G * G) with (IZR k) by (field; lra).
  rewrite (Int_part_between _ k); [reflexivity | lra].
Qed.

Lemma fixed_point_rnd_near (x : R) :
  x - / 2 / 2 ^ 1074 <= fixed_point_rnd x <= x + / 2 / 2 ^ 1074.
Proof.
  unfold fixed_point_rnd.
  assert (HG : 0 < 2 ^ 1074) by (apply pow_lt; lra).
  set (G := 2 ^ 1074) in *.
  destruct (base_Int_part (x * G + / 2)) as [H1 H2].
  set (k := IZR (Int_part (x * G + / 2))) in *.
  assert (Hinv : 0 < / G) by (now apply Rinv_0_lt_compat).
  split.
  - apply (Rmult_le_reg_r G); [exact HG|].
    unfold Rdiv. rewrite Rmult_assoc, Rinv_l by lra.
    rewrite Rmult_minus_distr_r, Rmult_assoc, Rinv_l by lra. lra.
  - apply (Rmult_le_reg_r G); [exact HG|].
    unfold Rdiv. rewrite Rmult_assoc, Rinv_l by lra.
    rewrite Rmult_plus_distr_r, Rmult_assoc, Rinv_l by lra. lra.
Qed.

(** The hypotheses on the arithmetic hold of an arithmetic that rounds,
    not only of the exact one. *)
Lemma fixed_point_binary64_like : binary64_like fixed_point.
Proof.
  split; cbn [rnd math_exp fixed_point].
  - exact fixed_point_rnd_le.
  - intros m e Hm He.
    assert (He' : (1074 = e + (1074 - e))%nat) by lia.
    assert (H2 : 0 < 2 ^ e) by (apply pow_lt; lra).
    assert (Hk : IZR m / 2 ^ e = IZR (m * 2 ^ Z.of_nat (1074 - e)) / 2 ^ 1074).
    { rewrite mult_IZR, <- pow_IZR. rewrite He' at 2. rewrite pow_add.
      assert (0 < 2 ^ (1074 - e)) by (apply pow_lt; lra).
      field. lra. }
    rewrite Hk. apply fixed_point_rnd_grid.
  - intros u. replace 0 with (IZR 0 / 2 ^ 1074) by (unfold Rdiv; apply Rmult_0_l).
    rewrite <- (fixed_point_rnd_grid 0). apply fixed_point_rnd_le.
    unfold Rdiv. rewrite Rmult_0_l. left. apply exp_pos.
  - intros u v Huv. apply fixed_point_rnd_le.
    destruct Huv as [H|H]; [left; now apply exp_increasing | subst; right; reflexivity].
  - intros u Hu.
    pose proof (fixed_point_rnd_near (exp u)) as Hnear.
    assert (Hlow : / 2 ^ 1025 <= exp u).
    { apply Rle_trans with (exp (- (700))).
      - rewrite exp_Ropp. apply Rinv_le_contravar; [apply exp_pos | apply exp_700_le].
      - destruct (proj1 Hu) as [H|H].
        + left. apply exp_increasing. lra.
        + right. f_equal. lra. }
    assert (Hgrid : / 2 / 2 ^ 1074 <= exp u * / 2 ^ 50).
    { assert (E : / 2 / 2 ^ 1074 = / 2 ^ 1025 * / 2 ^ 50).
      { rewrite <- Rinv_mult, <- pow_add. unfold Rdiv.
        rewrite <- Rinv_mult. reflexivity. }
      rewrite E. apply Rmult_le_compat_r; [|exact Hlow].
      left. apply Rinv_0_lt_compat, pow_lt. lra. }
    lra.
Qed.
End FixedPoint.

(** Monotonicity between two totals on the curve, 500 and 1000 out of
    1000, in the arithmetic that rounds. *)
Lemma level_monotone_in_total_points_witness :
  binary64_like fixed_point /\ 0 < 1000 /\ 500 <= 1000 /\
  (1000 <= 0 \/ truediv_in_range 1000 1000 = true) /\
  exists l1 l2,
    sigmoid_level_calculation fixed_point 500 1000 = Ok l1 /\
    sigmoid_level_calculation fixed_point 1000 1000 = Ok l2 /\
    l1 <= l2.
Proof.
  assert (Hr : 1000 <= 0 \/ truediv_in_range 1000 1000 = true) by (right; reflexivity).
  split; [exact fixed_point_binary64_like|]. split; [lia|]. split; [lia|].
  split; [exact Hr|].
  apply (level_monotone_in_total_points fixed_point 1000 500 1000
           fixed_point_binary64_like); [lia | lia | exact Hr].
Defined.

(** ** Lists and loops *)

Lemma find_map_inv {A : Type} (p : A -> bool) (f : A -> A) (l : list A) :
  (forall x, p (f x) = p x) -> find p (map f l) = option_map f (find p l).
Proof.
  intros Hp. induction l as [|x l IH]; simpl; [reflexivity|].
  rewrite Hp. destruct (p x); [reflexivity | exact IH].
Qed.

Lemma find_app_split {A : Type} (p : A -> bool) (l1 l2 : list A) :
  find p (l1 ++ l2) = match find p l1 with Some x => Some x | None => find p l2 end.
Proof.
  induction l1 as [|x l1 IH]; simpl; [reflexivity|].
  destruct (p x); [reflexivity | exact IH].
Qed.

Lemma find_none_iff {A : Type} (p : A -> bool) (l : list A) :
  find p l = None <-> forall x, In x l -> p x = false.
Proof.
  split.
  - intros H x Hx. exact (find_none p l H x Hx).
  - induction l as [|x l IH]; simpl; intros H; [reflexivity|].
    rewrite (H x (or_introl eq_refl)). apply IH. intros y Hy. apply H. now right.
Qed.

Lemma fold_left_flat_map {A B C : Type} (f : A -> C -> A) (g : B -> list C)
    (l : list B) (a : A) :
  fold_left f (flat_map g l) a = fold_left (fun a b => fold_left f (g b) a) l a.
Proof.
  revert a. induction l as [|b l IH]; intros a; simpl; [reflexivity|].
  rewrite fold_left_app. apply IH.
Qed.

Lemma fold_left_map {A B C : Type} (f : A -> C -> A) (g : B -> C) (l : list B) (a : A) :
  fold_left f (map g l) a = fold_left (fun a b => f a (g b)) l a.
Proof. revert a. induction l as [|b l IH]; intros a; simpl; [reflexivity | apply IH]. Qed.

Lemma fold_left_ext_in {A B : Type} (f g : A -> B -> A) (l : list B) (a : A) :
  (forall a b, In b l -> f a b = g a b) -> fold_left f l a = fold_left g l a.
Proof.
  revert a. induction l as [|b l IH]; intros a H; simpl; [reflexivity|].
  rewrite (H a b (or_introl eq_refl)). apply IH. intros a' b' Hb. apply H. now right.
Qed.

Lemma foldM_app {A B : Type} (f : A -> B -> result A) (l1 l2 : list B) (a : A) :
  foldM f (l1 ++ l2) a = (a' <- foldM f l1 a ;; foldM f l2 a').
Proof.
  revert a. induction l1 as [|b l1 IH]; intros a; simpl; [reflexivity|].
  destruct (f a b) as [a'|e]; simpl; [apply IH | reflexivity].
Qed.

Lemma foldM_flat_map {A B C : Type} (f : A -> C -> result A) (g : B -> list C)
    (l : list B) (a : A) :
  foldM f (flat_map g l) a = foldM (fun a b => foldM f (g b) a) l a.
Proof.
  revert a. induction l as [|b l IH]; intros a; simpl; [reflexivity|].
  rewrite foldM_app. destruct (foldM f (g b) a) as [a'|e]; simpl; [apply IH | reflexivity].
Qed.

Lemma foldM_map {A B C : Type} (f : A -> C -> result A) (g : B -> C) (l : list B) (a : A) :
  foldM f (map g l) a = foldM (fun a b => f a (g b)) l a.
Proof.
  revert a. induction l as [|b l IH]; intros a; simpl; [reflexivity|].
  destruct (f a (g b)); simpl; [apply IH | reflexivity].
Qed.

(** Loop invariant of a [for] loop that may raise: [P done a] relates the
    elements already visited to the accumulator. *)
Lemma foldM_invariant {A B : Type} (P : list B -> A -> Prop)
    (f : A -> B -> result A) (l : list B) (a r : A) :
  P [] a ->
  (forall done b rest a a',
      l = done ++ b :: rest -> P done a -> f a b = Ok a' -> P (done ++ [b]) a') ->
  foldM f l a = Ok r ->
  P l r.
Proof.
  intros H0 Hstep.
  assert (G : forall rest done a,
             l = done ++ rest -> P done a -> foldM f rest a = Ok r -> P l r).
  { induction rest as [|b rest IH]; intros done a0 Hl Hd Hr; simpl in Hr.
    - injection Hr as <-. rewrite Hl, app_nil_r. exact Hd.
    - destruct (f a0 b) as [a'|e] eqn:Ef; simpl in Hr; [|discriminate].
      apply (IH (done ++ [b]) a').
      + rewrite Hl, <- app_assoc. reflexivity.
      + exact (Hstep done b rest a0 a' Hl Hd Ef).
      + exact Hr. }
  intros Hr. exact (G l [] a eq_refl H0 Hr).
Qed.

(** The same for a loop that [return]s on the first error. *)
Lemma fold_until_invariant {A B : Type} (P : list B -> A -> Prop)
    (f : A -> B -> Slv3.error + A) (l : list B) (a r : A) :
  P [] a ->
  (forall done b rest a a',
      l = done ++ b :: rest -> P done a -> f a b = inr a' -> P (done ++ [b]) a') ->
  Slv3.fold_until f l a = inr r ->
  P l r.
Proof.
  intros H0 Hstep.
  assert (G : forall rest done a,
             l = done ++ rest -> P done a -> Slv3.fold_until f rest a = inr r -> P l r).
  { induction rest as [|b rest IH]; intros done a0 Hl Hd Hr; simpl in Hr.
    - injection Hr as <-. rewrite Hl, app_nil_r. exact Hd.
    - destruct (f a0 b) as [e|a'] eqn:Ef; [discriminate|].
      apply (IH (done ++ [b]) a').
      + rewrite Hl, <- app_assoc. reflexivity.
      + exact (Hstep done b rest a0 a' Hl Hd Ef).
      + exact Hr. }
  intros Hr. exact (G l [] a eq_refl H0 Hr).
Qed.

Lemma fold_until_app {A B : Type} (f : A -> B -> Slv3.error + A) (l1 l2 : list B) (a : A) :
  Slv3.fold_until f (l1 ++ l2) a
  = match Slv3.fold_until f l1 a with
    | inl e => inl e
    | inr a' => Slv3.fold_until f l2 a'
    end.
Proof.
  revert a. induction l1 as [|b l1 IH]; intros a; simpl; [reflexivity|].
  destruct (f a b) as [e|a']; [reflexivity | apply IH].
Qed.

Lemma fold_until_flat_map {A B C : Type} (f : A -> C -> Slv3.error + A)
    (g : B -> list C) (l : list B) (a : A) :
  Slv3.fold_until f (flat_map g l) a
  = Slv3.fold_until (fun a b => Slv3.fold_until f (g b) a) l a.
Proof.
  revert a. induction l as [|b l IH]; intros a; simpl; [reflexivity|].
  rewrite fold_until_app.
  destruct (Slv3.fold_until f (g b) a) as [e|a']; [reflexivity | apply IH].
Qed.

Lemma fold_until_map {A B C : Type} (f : A -> C -> Slv3.error + A) (g : B -> C)
    (l : list B) (a : A) :
  Slv3.fold_until f (map g l) a = Slv3.fold_until (fun a b => f a (g b)) l a.
Proof.
  revert a. induction l as [|b l IH]; intros a; simpl; [reflexivity|].
  destruct (f a (g b)); [reflexivity | apply IH].
Qed.

Lemma total_app (l1 l2 : list Z) : total (l1 ++ l2) = total l1 + total l2.
Proof. unfold total. induction l1 as [|x l1 IH]; simpl; [reflexivity | rewrite IH; lia]. Qed.

(** ** The store *)

Lemma same_skill_true (a s : string) (r : skill_row) :
  same_skill a s r = true <-> key_of r = (a, s).
Proof.
  unfold same_skill, key_of. rewrite andb_true_iff, !String.eqb_eq.
  split; [intros [-> ->]; reflexivity | intros [= -> ->]; auto].
Qed.

Lemma key_eqb_true (k1 k2 : string * string) : key_eqb k1 k2 = true <-> k1 = k2.
Proof.
  destruct k1 as [a1 s1], k2 as [a2 s2]. unfold key_eqb. simpl.
  rewrite andb_true_iff, !String.eqb_eq.
  split; [intros [-> ->]; reflexivity | intros [= -> ->]; auto].
Qed.

Lemma key_eqb_refl (k : string * string) : key_eqb k k = true.
Proof. now apply key_eqb_true. Qed.

Lemma key_eqb_false (k1 k2 : string * string) : key_eqb k1 k2 = false <-> k1 <> k2.
Proof.
  rewrite <- key_eqb_true. destruct (key_eqb k1 k2); split; congruence.
Qed.

Lemma same_skill_key_eqb (a s : string) (r : skill_row) :
  same_skill a s r = key_eqb (key_of r) (a, s).
Proof. reflexivity. Qed.

Lemma update_skill_keys (level : Z) (a s : string) (t : list skill_row) :
  map key_of (update_skill level a s t) = map key_of t.
Proof.
  unfold update_skill. rewrite map_map. apply map_ext.
  intros r. destruct (same_skill a s r); reflexivity.
Qed.

Lemma update_skill_bounds (level : Z) (a s : string) (t : list skill_row) :
  1 <= level <= 100 ->
  Forall (fun r => 1 <= current_level r <= 100) t ->
  Forall (fun r => 1 <= current_level r <= 100) (update_skill level a s t).
Proof.
  intros Hl Ht. unfold update_skill. apply Forall_map.
  eapply Forall_impl; [|exact Ht]. intros r Hr. cbv beta.
  destruct (same_skill a s r); [exact Hl | exact Hr].
Qed.

Lemma write_levels_keys (us : list update) (t : list skill_row) :
  map key_of (write_levels us t) = map key_of t.
Proof.
  revert t. induction us as [|u us IH]; intros t; [reflexivity|].
  unfold write_levels in *. simpl. rewrite IH. apply update_skill_keys.
Qed.

Lemma write_levels_bounds (us : list update) (t : list skill_row) :
  Forall (fun u => 1 <= u_new_level u <= 100) us ->
  Forall (fun r => 1 <= current_level r <= 100) t ->
  Forall (fun r => 1 <= current_level r <= 100) (write_levels us t).
Proof.
  revert t. induction us as [|u us IH]; intros t Hus Ht; [exact Ht|].
  inversion Hus as [|? ? Hu Hus']; subst.
  unfold write_levels in *. simpl. apply IH; [exact Hus'|].
  now apply update_skill_bounds.
Qed.

(** What the loop of [save_update_session] leaves in the three tables. *)
Lemma fold_apply_update (sid : Z) (us : list update) (db : database) :
  fold_left (apply_update sid) us db
  = {| skills := write_levels us (skills db);
       sessions := sessions db;
       session_updates := session_updates db ++ map (row_of_update sid) us |}.
Proof.
  revert db. induction us as [|u us IH]; intros db.
  - simpl. rewrite app_nil_r. destruct db; reflexivity.
  - simpl. rewrite IH. unfold apply_update at 1 2 3. cbn [skills sessions session_updates].
    f_equal. rewrite <- app_assoc. reflexivity.
Qed.

Lemma save_update_session_tables (db : database) (ts : string) (us : list update)
    (total_gains : Z) :
  save_update_session db ts us total_gains
  = {| skills := write_levels us (skills db);
       sessions := sessions db ++
                   [ {| rowid := Z.of_nat (S (length (sessions db)));
                        session_timestamp := ts; total_gains := total_gains;
                        session_type := "skill_update"; notes := None |} ];
       session_updates :=
         session_updates db ++
         map (row_of_update (Z.of_nat (S (length (sessions db))))) us |}.
Proof.
  unfold save_update_session. rewrite fold_apply_update.
  cbn [skills sessions session_updates].
  unfold lastrowid, insert_session. rewrite length_app. simpl.
  replace (length (sessions db) + 1)%nat with (S (length (sessions db))) by lia.
  reflexivity.
Qed.

(** Reading a level back after one [UPDATE]. *)
Lemma lookup_update_skill (level : Z) (a s a' s' : string) (t : list skill_row) :
  lookup_level (update_skill level a s t) a' s'
  = if key_eqb (a', s') (a, s)
    then option_map (fun _ => level) (lookup_level t a' s')
    else lookup_level t a' s'.
Proof.
  unfold lookup_level, update_skill.
  rewrite <- map_rev, find_map_inv.
  2:{ intros r. destruct (same_skill a s r); reflexivity. }
  destruct (find (same_skill a' s') (rev t)) as [r|] eqn:Ef; simpl.
  - apply find_some in Ef. destruct Ef as [_ Hr].
    apply same_skill_true in Hr.
    destruct (key_eqb (a', s') (a, s)) eqn:Ek; simpl.
    + apply key_eqb_true in Ek. injection Ek as -> ->.
      rewrite (proj2 (same_skill_true a s r) Hr). reflexivity.
    + apply key_eqb_false in Ek.
      destruct (same_skill a s r) eqn:Es; [|reflexivity].
      apply same_skill_true in Es. congruence.
  - destruct (key_eqb (a', s') (a, s)); reflexivity.
Qed.

(** Reading a level back after the [UPDATE]s of a list of updates: the
    last update of the skill decides, and only an existing row is
    written. *)
Lemma lookup_write_levels (us : list update) (t : list skill_row) (a s : string) :
  lookup_level (write_levels us t) a s
  = match find (fun u => key_eqb (update_key u) (a, s)) (rev us) with
    | Some u => option_map (fun _ => u_new_level u) (lookup_level t a s)
    | None => lookup_level t a s
    end.
Proof.
  revert t. induction us as [|u us IH]; intros t; [reflexivity|].
  unfold write_levels in *. simpl fold_left. rewrite IH.
  simpl rev. rewrite find_app_split.
  rewrite lookup_update_skill.
  destruct (find _ (rev us)) as [u'|] eqn:Ef.
  - destruct (key_eqb (a, s) (u_attribute u, u_skill u));
      destruct (lookup_level t a s); reflexivity.
  - simpl find. unfold update_key.
    destruct (key_eqb (u_attribute u, u_skill u) (a, s)) eqn:Ek.
    + apply key_eqb_true in Ek. injection Ek as <- <-.
      rewrite key_eqb_refl. reflexivity.
    + apply key_eqb_false in Ek.
      assert (key_eqb (a, s) (u_attribute u, u_skill u) = false) as ->
          by (apply key_eqb_false; congruence).
      reflexivity.
Qed.

Lemma lookup_level_in_keys (t : list skill_row) (a s : string) :
  lookup_level t a s <> None <-> In (a, s) (map key_of t).
Proof.
  unfold lookup_level. split.
  - destruct (find _ (rev t)) as [r|] eqn:Ef; [|intros H; now elim H].
    intros _. apply find_some in Ef. destruct Ef as [Hin Hr].
    apply same_skill_true in Hr. rewrite <- Hr.
    apply in_map. now apply in_rev.
  - intros Hin. apply in_map_iff in Hin. destruct Hin as (r & Hk & Hin).
    destruct (find _ (rev t)) eqn:Ef; [discriminate|].
    apply in_rev in Hin. pose proof (find_none _ _ Ef r Hin) as Hr.
    apply same_skill_true in Hk. congruence.
Qed.

Lemma lookup_level_bounds (t : list skill_row) (a s : string) (level : Z) :
  Forall (fun r => 1 <= current_level r <= 100) t ->
  lookup_level t a s = Some level -> 1 <= level <= 100.
Proof.
  intros Ht. unfold lookup_level.
  destruct (find _ (rev t)) as [r|] eqn:Ef; [|discriminate].
  intros [= <-]. apply find_some in Ef. destruct Ef as [Hin _].
  apply in_rev in Hin. rewrite Forall_forall in Ht. now apply Ht.
Qed.

Lemma current_skill_level_bounds (db : database) (a s : string) :
  Forall (fun r => 1 <= current_level r <= 100) (skills db) ->
  1 <= current_skill_level db a s <= 100.
Proof.
  intros H. unfold current_skill_level, get_current_skills.
  destruct (lookup_level (skills db) a s) as [level|] eqn:E; [|lia].
  exact (lookup_level_bounds _ _ _ _ H E).
Qed.

(** ** The taxonomy and the new store *)

Lemma nodup_keys_sound (l : list (string * string)) : nodup_keys l = true -> NoDup l.
Proof.
  induction l as [|k l IH]; simpl; intros H; constructor.
  - apply andb_true_iff in H. destruct H as [H _].
    apply negb_true_iff in H. intros Hin.
    assert (existsb (key_eqb k) l = true) as E
        by (apply existsb_exists; exists k; split; [exact Hin | apply key_eqb_refl]).
    congruence.
  - apply IH. apply andb_true_iff in H. tauto.
Qed.

Lemma taxonomy_keys_NoDup : NoDup taxonomy_keys.
Proof. apply nodup_keys_sound. vm_compute. reflexivity. Qed.

Lemma init_database_new_skills :
  skills (init_database empty_database)
  = map (fun k => {| attribute := fst k; skill_name := snd k; current_level := 1 |})
        taxonomy_keys.
Proof. vm_compute. reflexivity. Qed.

Lemma store_ok_new : store_ok (init_database empty_database).
Proof.
  unfold store_ok. rewrite init_database_new_skills. split.
  - rewrite map_map. transitivity (map (fun k : string * string => k) taxonomy_keys).
    + apply map_ext. intros [a s]. reflexivity.
    + apply map_id.
  - apply Forall_map. apply Forall_forall. intros k _. simpl. lia.
Qed.

Lemma init_database_again (db : database) : store_ok db -> init_database db = db.
Proof.
  intros [Hk _]. unfold init_database.
  assert (length (skills db) = length taxonomy_keys) as E
      by (rewrite <- Hk; now rewrite length_map).
  rewrite E. reflexivity.
Qed.

Lemma store_ok_level (db : database) (a s : string) :
  store_ok db -> 1 <= current_skill_level db a s <= 100.
Proof. intros [_ H]. now apply current_skill_level_bounds. Qed.

Lemma store_ok_has_row (db : database) (k : string * string) :
  store_ok db -> In k taxonomy_keys -> get_current_skills db (fst k) (snd k) <> None.
Proof.
  intros [Hk _] Hin. unfold get_current_skills.
  apply lookup_level_in_keys. rewrite Hk. now destruct k.
Qed.

Lemma store_ok_write (db : database) (us : list update) (ss : list session_row)
    (rows : list session_update_row) :
  store_ok db -> Forall (fun u => 1 <= u_new_level u <= 100) us ->
  store_ok {| skills := write_levels us (skills db); sessions := ss;
              session_updates := rows |}.
Proof.
  intros [Hk Hb] Hus. split; cbn [skills].
  - rewrite write_levels_keys. exact Hk.
  - now apply write_levels_bounds.
Qed.

(** ** The update session of the text menu *)

Lemma foldM_ext {A B : Type} (f g : A -> B -> result A) (l : list B) (a : A) :
  (forall a b, f a b = g a b) -> foldM f l a = foldM g l a.
Proof.
  intros H. revert a. induction l as [|b l IH]; intros a; simpl; [reflexivity|].
  rewrite H. destruct (g a b); simpl; [apply IH | reflexivity].
Qed.

(** The two nested loops visit the taxonomy skills one after the other. *)
Lemma collect_updates_flat (db : database) (inputs : list field_input) :
  Slv2.collect_updates db inputs
  = foldM (fun acc k => Slv2.update_one_skill db (fst k) (snd k) acc)
          taxonomy_keys ([], 0, inputs).
Proof.
  unfold Slv2.collect_updates, taxonomy_keys.
  rewrite foldM_flat_map. apply foldM_ext. intros acc kv.
  rewrite foldM_map. reflexivity.
Qed.

(** What a prompt accepts: the current level (empty line), or a level
    that was typed, from the current one up to ten above it and at most
    100.  The prompt uses up a prefix of the pending lines. *)
Lemma prompt_level_accepts (current_level : Z) (inputs rest : list field_input) (n : Z) :
  Slv2.prompt_level current_level inputs = Ok (n, rest) ->
  (n = current_level \/
   (In (Int n) inputs /\ current_level <= n /\ n <= current_level + 10 /\ n <= 100)) /\
  exists used, inputs = used ++ rest.
Proof.
  induction inputs as [|i inputs IH]; simpl; [discriminate|].
  assert (Hrec : Slv2.prompt_level current_level inputs = Ok (n, rest) ->
                 (n = current_level \/
                  ((i = Int n \/ In (Int n) inputs) /\
                   current_level <= n /\ n <= current_level + 10 /\ n <= 100)) /\
                 exists used, i :: inputs = used ++ rest).
  { intros H. destruct (IH H) as [Hn [used Hused]]. split.
    - destruct Hn as [Hn | (Hin & Hb)]; [now left | right; split; [now right | exact Hb]].
    - exists (i :: used). simpl. now rewrite Hused. }
  destruct i as [|m|].
  - intros [= <- <-]. split; [now left | now exists [Blank]].
  - destruct (Z.ltb_spec m current_level); [exact Hrec|].
    destruct (Z.ltb_spec (current_level + 10) m); [exact Hrec|].
    destruct (Z.ltb_spec 100 m); [exact Hrec|].
    intros [= <- <-]. split; [|now exists [Int m]].
    right. split; [now left | lia].
  - exact Hrec.
Qed.

Lemma update_one_skill_step (db : database) (a s : string)
    (us us' : list update) (t t' : Z) (inputs inputs' : list field_input) :
  Slv2.update_one_skill db a s (us, t, inputs) = Ok (us', t', inputs') ->
  (exists used, inputs = used ++ inputs') /\
  ((us' = us /\ t' = t) \/
   (exists u, us' = us ++ [u] /\ t' = t + u_gain u /\
              update_key u = (a, s) /\ valid_update db u /\
              In (Int (u_new_level u)) inputs)).
Proof.
  unfold Slv2.update_one_skill.
  destruct (Slv2.prompt_level _ inputs) as [[n rest]|e] eqn:Ep; simpl; [|discriminate].
  apply prompt_level_accepts in Ep. destruct Ep as [Hn Hused].
  destruct (Z.ltb_spec (current_skill_level db a s) n) as [Hlt|Hge].
  - intros [= <- <- <-]. split; [exact Hused|]. right. eexists.
    split; [reflexivity|]. split; [reflexivity|]. split; [reflexivity|].
    destruct Hn as [Hn | (Hin & Hb)]; [lia|].
    split; [|exact Hin]. unfold valid_update. simpl. lia.
  - intros [= <- <- <-]. split; [exact Hused | now left].
Qed.

(** The invariant of the loop of [update_skills_session]. *)
Lemma collect_updates_spec (db : database) (inputs rest : list field_input)
    (us : list update) (t : Z) :
  Slv2.collect_updates db inputs = Ok (us, t, rest) ->
  t = total (map u_gain us) /\
  Forall (valid_update db) us /\
  incl (map update_key us) taxonomy_keys /\
  NoDup (map update_key us) /\
  Forall (fun u => In (Int (u_new_level u)) inputs) us.
Proof.
  rewrite collect_updates_flat. intros H.
  pose (P := fun (done : list (string * string))
                 (acc : list update * Z * list field_input) =>
               let '(us, t, pending) := acc in
               t = total (map u_gain us) /\
               Forall (valid_update db) us /\
               incl (map update_key us) done /\
               NoDup (map update_key us) /\
               Forall (fun u => In (Int (u_new_level u)) inputs) us /\
               exists used, inputs = used ++ pending).
  apply (foldM_invariant P) in H.
  - unfold P in H. tauto.
  - unfold P. simpl.
    repeat split; [constructor | intros k [] | constructor | constructor | now exists []].
  - intros done k rest' [[us0 t0] in0] [[us1 t1] in1] Hl
           (Ht & Hv & Hincl & Hnd & Hty & (used0 & Hused0)) Hstep.
    apply update_one_skill_step in Hstep.
    destruct Hstep as [[used1 Hused1] Hstep].
    assert (Hsuffix : exists used, inputs = used ++ in1).
    { exists (used0 ++ used1). rewrite <- app_assoc, <- Hused1. exact Hused0. }
    destruct Hstep as [[-> ->] | (u & -> & -> & Hk & Hu & Hin)]; unfold P.
    + repeat split; try assumption.
      intros x Hx. apply in_or_app. left. now apply Hincl.
    + repeat split.
      * rewrite map_app, total_app. unfold total. simpl.
        fold (total (map u_gain us0)). lia.
      * apply Forall_app. split; [exact Hv | constructor; [exact Hu | constructor]].
      * rewrite map_app. simpl. intros x Hx. apply in_app_or in Hx.
        apply in_or_app. destruct Hx as [Hx | [<- | []]].
        -- left. now apply Hincl.
        -- right. left. rewrite Hk. now destruct k.
      * rewrite map_app. simpl.
        pose proof taxonomy_keys_NoDup as Hnd'. rewrite Hl in Hnd'.
        apply NoDup_remove_2 in Hnd'.
        apply NoDup_app; [exact Hnd | constructor; [intros [] | constructor] |].
        intros x Hx [<- | []]. apply Hnd'. apply in_or_app. left.
        apply Hincl in Hx. rewrite Hk in Hx. now destruct k.
      * apply Forall_app. split; [exact Hty|]. constructor; [|constructor].
        rewrite Hused0. apply in_or_app. now right.
      * exact Hsuffix.
Qed.

Lemma NoDup_map_eq {A B : Type} (f : A -> B) (l : list A) (x y : A) :
  NoDup (map f l) -> In x l -> In y l -> f x = f y -> x = y.
Proof.
  induction l as [|z l IH]; simpl; [intros _ []|].
  intros Hnd Hx Hy Hf. inversion Hnd as [|? ? Hz Hnd']; subst.
  destruct Hx as [<-|Hx], Hy as [<-|Hy].
  - reflexivity.
  - elim Hz. rewrite Hf. now apply in_map.
  - elim Hz. rewrite <- Hf. now apply in_map.
  - now apply IH.
Qed.

(** A skill with a row, written once by a list of updates, reads back as
    the new level of its update. *)
Lemma written_level (us : list update) (t : list skill_row) (u : update) :
  NoDup (map update_key us) -> In u us ->
  lookup_level t (u_attribute u) (u_skill u) <> None ->
  lookup_level (write_levels us t) (u_attribute u) (u_skill u) = Some (u_new_level u).
Proof.
  intros Hnd Hin Hrow. rewrite lookup_write_levels.
  destruct (find _ (rev us)) as [u'|] eqn:Ef.
  - apply find_some in Ef. destruct Ef as [Hin' Hk].
    apply in_rev in Hin'. apply key_eqb_true in Hk.
    assert (u' = u) as -> by (apply (NoDup_map_eq update_key us); assumption).
    destruct (lookup_level t _ _); [reflexivity | now elim Hrow].
  - apply in_rev in Hin. pose proof (find_none _ _ Ef u Hin) as Hk.
    unfold update_key in Hk. rewrite key_eqb_refl in Hk. discriminate.
Qed.

(** A skill that no update of the list names keeps its level. *)
Lemma unwritten_level (us : list update) (t : list skill_row) (a s : string) :
  (forall u, In u us -> update_key u <> (a, s)) ->
  lookup_level (write_levels us t) a s = lookup_level t a s.
Proof.
  intros H. rewrite lookup_write_levels.
  destruct (find _ (rev us)) as [u'|] eqn:Ef; [|reflexivity].
  apply find_some in Ef. destruct Ef as [Hin' Hk].
  apply in_rev in Hin'. apply key_eqb_true in Hk. now elim (H u' Hin').
Qed.

Lemma update_in_dec (us : list update) (a s : string) :
  (exists u, In u us /\ update_key u = (a, s)) \/
  (forall u, In u us -> update_key u <> (a, s)).
Proof.
  destruct (find (fun u => key_eqb (update_key u) (a, s)) us) as [u|] eqn:Ef.
  - left. apply find_some in Ef. destruct Ef as [Hin Hk].
    exists u. split; [exact Hin | now apply key_eqb_true].
  - right. intros u Hin Hk. pose proof (find_none _ _ Ef u Hin) as H.
    apply key_eqb_true in Hk. congruence.
Qed.

(** ** The assessment *)

Lemma fold_left_invariant {A B : Type} (P : A -> Prop) (f : A -> B -> A)
    (l : list B) (a : A) :
  P a -> (forall a b, In b l -> P a -> P (f a b)) -> P (fold_left f l a).
Proof.
  revert a. induction l as [|b l IH]; intros a Ha Hstep; simpl; [exact Ha|].
  apply IH.
  - apply Hstep; [now left | exact Ha].
  - intros a' b' Hb. apply Hstep. now right.
Qed.

Lemma foldM_preserves {A B : Type} (P : A -> Prop) (f : A -> B -> result A)
    (l : list B) (a r : A) :
  P a -> (forall a b a', P a -> f a b = Ok a' -> P a') ->
  foldM f l a = Ok r -> P r.
Proof.
  intros Ha Hstep Hr.
  apply (foldM_invariant (fun _ => P) f l a r); [exact Ha | | exact Hr].
  intros done b rest a0 a' _. apply Hstep.
Qed.

(** The loops of [save_crystal_ball_assessment] write the assessment's
    updates one after the other. *)
Lemma save_crystal_ball_assessment_tables (db : database)
    (assessment : list (string * list (string * Z))) (sd : session_data) :
  Slv2.save_crystal_ball_assessment db assessment sd
  = {| skills := write_levels (assessment_updates assessment) (skills db);
       sessions := sessions db ++
                   [ {| rowid := Z.of_nat (S (length (sessions db)));
                        session_timestamp := timestamp sd;
                        total_gains := total (map (fun kv => sum_gains (snd kv)) (updates sd));
                        session_type := "crystal_ball_assessment";
                        notes := Some "Initial stat assessment using the mystical crystal ball" |} ];
       session_updates :=
         session_updates db ++
         map (row_of_update (Z.of_nat (S (length (sessions db)))))
             (assessment_updates assessment) |}.
Proof.
  unfold Slv2.save_crystal_ball_assessment.
  set (sid := lastrowid _).
  assert (Hsid : sid = Z.of_nat (S (length (sessions db)))).
  { unfold sid, lastrowid, insert_session. rewrite length_app. simpl. f_equal. lia. }
  rewrite Hsid. clear sid Hsid.
  set (sid := Z.of_nat (S (length (sessions db)))).
  assert (E : forall l db0,
             fold_left
               (fun db kv =>
                  fold_left
                    (fun db item =>
                       apply_update sid db
                         {| u_attribute := fst kv; u_skill := fst item; u_old_level := 1;
                            u_new_level := snd item; u_gain := snd item - 1 |})
                    (snd kv) db) l db0
             = fold_left (apply_update sid) (assessment_updates l) db0).
  { induction l as [|kv l IH]; intros db0; [reflexivity|].
    unfold assessment_updates. simpl. rewrite fold_left_app, fold_left_map. apply IH. }
  rewrite E, fold_apply_update. reflexivity.
Qed.

Lemma prompt_assessment_accepts (inputs rest : list field_input) (n : Z) :
  Slv2.prompt_assessment inputs = Ok (n, rest) -> 1 <= n <= 100.
Proof.
  induction inputs as [|i inputs IH]; simpl; [discriminate|].
  destruct i as [|m|].
  - intros [= <- <-]. lia.
  - destruct (Z.ltb_spec m 1); simpl; [exact IH|].
    destruct (Z.ltb_spec 100 m); [exact IH|].
    intros [= <- <-]. lia.
  - exact IH.
Qed.

Lemma assessment_updates_app (l1 l2 : list (string * list (string * Z))) :
  assessment_updates (l1 ++ l2) = assessment_updates l1 ++ assessment_updates l2.
Proof. unfold assessment_updates. apply flat_map_app. Qed.

(** The interactive assessment commits levels within 1..100 only. *)
Lemma crystal_ball_assessment_spec (db db' : database) (now : string)
    (inputs rest : list field_input) :
  Slv2.crystal_ball_assessment db now inputs = Ok (db', rest) ->
  exists assessment sd,
    db' = Slv2.save_crystal_ball_assessment db assessment sd /\
    Forall (fun u => 1 <= u_new_level u <= 100) (assessment_updates assessment).
Proof.
  unfold Slv2.crystal_ball_assessment.
  destruct (foldM _ attributes _) as [[[assessment sus] rest']|e] eqn:Ef; simpl; [|discriminate].
  intros [= <- <-]. exists assessment, {| timestamp := now; updates := sus |}.
  split; [reflexivity|].
  pose (P := fun acc : list (string * list (string * Z))
                       * list (string * list (string * level_change))
                       * list field_input =>
               Forall (fun u => 1 <= u_new_level u <= 100)
                      (assessment_updates (fst (fst acc)))).
  change (P (assessment, sus, rest')).
  eapply (foldM_preserves P); [| |exact Ef].
  - constructor.
  - intros [[as0 su0] in0] kv [[as1 su1] in1] H0.
    destruct (foldM _ (snd kv) _) as [[[levels changes] in2]|e] eqn:Eg; simpl; [|discriminate].
    intros [= <- <- <-]. unfold P in *. simpl in *.
    rewrite assessment_updates_app. apply Forall_app. split; [exact H0|].
    unfold assessment_updates. simpl. rewrite app_nil_r. apply Forall_map. simpl.
    pose (Q := fun acc : list (string * Z) * list (string * level_change)
                         * list field_input =>
                 Forall (fun item => 1 <= snd item <= 100) (fst (fst acc))).
    change (Q (levels, changes, in2)).
    eapply (foldM_preserves Q); [| |exact Eg].
    + constructor.
    + intros [[lv0 ch0] i0] skill [[lv1 ch1] i1] Hq.
      destruct (Slv2.prompt_assessment i0) as [[level i2]|e] eqn:Ep; simpl; [|discriminate].
      intros [= <- <- <-]. unfold Q in *. simpl in *.
      apply Forall_app. split; [exact Hq|].
      constructor; [|constructor]. simpl. exact (prompt_assessment_accepts _ _ _ Ep).
Qed.

Lemma assess_entry_step (a s : string) (v : field_input) (us : list update) (t : Z) :
  Slv3.assess_entry a s v (us, t)
  = (us ++ [assessed_update (a, s, v)], t + (assessed_level v - 1)).
Proof.
  unfold Slv3.assess_entry, assessed_update, assessed_level. destruct v; simpl.
  - reflexivity.
  - reflexivity.
  - rewrite Z.add_0_r. reflexivity.
Qed.

Lemma assess_entries_flat (entries : list (string * list (string * field_input)))
    (us : list update) (t : Z) :
  fold_left (fun acc kv =>
               fold_left (fun acc e => Slv3.assess_entry (fst kv) (fst e) (snd e) acc)
                         (snd kv) acc)
            entries (us, t)
  = (us ++ map assessed_update (flat_entries entries),
     t + total (map u_gain (map assessed_update (flat_entries entries)))).
Proof.
  assert (Inner : forall a (l : list (string * field_input)) us t,
             fold_left (fun acc e => Slv3.assess_entry a (fst e) (snd e) acc) l (us, t)
             = (us ++ map assessed_update (map (fun e => (a, fst e, snd e)) l),
                t + total (map u_gain (map assessed_update (map (fun e => (a, fst e, snd e)) l))))).
  { intros a l. induction l as [|e l IH]; intros us0 t0; cbn [fold_left map].
    - rewrite app_nil_r. unfold total. simpl. f_equal. lia.
    - rewrite assess_entry_step, IH. rewrite <- app_assoc. simpl app. f_equal.
      unfold total. cbn [fold_right]. simpl u_gain. lia. }
  revert us t. induction entries as [|kv entries IH]; intros us t; cbn [fold_left].
  - simpl. rewrite app_nil_r. unfold total. simpl. f_equal. lia.
  - rewrite Inner, IH. unfold flat_entries. cbn [flat_map].
    rewrite !map_app, total_app, <- app_assoc. f_equal. lia.
Qed.

Lemma process_crystal_ball_assessment_tables (db : database) (ts : string)
    (entries : list (string * list (string * field_input))) :
  Slv3.process_crystal_ball_assessment db ts entries
  = {| skills := write_levels (map assessed_update (flat_entries entries)) (skills db);
       sessions := sessions db ++
                   [ {| rowid := Z.of_nat (S (length (sessions db)));
                        session_timestamp := ts;
                        total_gains :=
                          total (map u_gain (map assessed_update (flat_entries entries)));
                        session_type := "crystal_ball_assessment";
                        notes := Some "Initial stat assessment using the mystical crystal ball" |} ];
       session_updates :=
         session_updates db ++
         map (row_of_update (Z.of_nat (S (length (sessions db)))))
             (map assessed_update (flat_entries entries)) |}.
Proof.
  unfold Slv3.process_crystal_ball_assessment.
  rewrite assess_entries_flat. simpl app. rewrite Z.add_0_l.
  rewrite fold_apply_update. cbn [skills sessions session_updates].
  unfold lastrowid, insert_session. rewrite length_app. simpl length.
  replace (length (sessions db) + 1)%nat with (S (length (sessions db))) by lia.
  reflexivity.
Qed.

Lemma assessed_level_bounds (v : field_input) : 1 <= assessed_level v <= 100.
Proof. destruct v; simpl; lia. Qed.

(** ** The update tab of the dashboard *)

Lemma fold_until_ext {A B : Type} (f g : A -> B -> Slv3.error + A) (l : list B) (a : A) :
  (forall a b, f a b = g a b) -> Slv3.fold_until f l a = Slv3.fold_until g l a.
Proof.
  intros H. revert a. induction l as [|b l IH]; intros a; simpl; [reflexivity|].
  rewrite H. destruct (g a b); [reflexivity | apply IH].
Qed.

(** The two nested loops visit the entries one after the other. *)
Lemma dashboard_collect_updates_flat
    (entries : list (string * list (string * Slv3.entry_data))) :
  Slv3.collect_updates entries
  = Slv3.fold_until
      (fun acc x => Slv3.check_entry (fst (fst x)) (snd (fst x)) (snd x) acc)
      (flat_entries entries) ([], 0).
Proof.
  unfold Slv3.collect_updates, flat_entries.
  rewrite fold_until_flat_map. apply fold_until_ext. intros acc kv.
  rewrite fold_until_map. reflexivity.
Qed.

(** One entry: either its error, or at most one update, above the level
    shown by at most 10 and at most 100. *)
Lemma check_entry_step (a s : string) (e : Slv3.entry_data) (us : list update) (t : Z) :
  match entry_error s e with
  | Some err => Slv3.check_entry a s e (us, t) = inl err
  | None =>
      Slv3.check_entry a s e (us, t) = inr (us, t) \/
      exists u, Slv3.check_entry a s e (us, t) = inr (us ++ [u], t + u_gain u) /\
                update_key u = (a, s) /\
                Slv3.var e = Int (u_new_level u) /\
                u_old_level u = Slv3.current e /\
                u_old_level u < u_new_level u /\
                u_new_level u <= u_old_level u + 10 /\
                u_new_level u <= 100 /\
                u_gain u = u_new_level u - u_old_level u
  end.
Proof.
  unfold entry_error, Slv3.check_entry.
  destruct (Slv3.var e) as [|n|]; [now left | | reflexivity].
  destruct (Z.ltb_spec n (Slv3.current e)); [reflexivity|].
  destruct (Z.ltb_spec (Slv3.current e + 10) n); [reflexivity|].
  destruct (Z.ltb_spec 100 n); [reflexivity|].
  destruct (Z.ltb_spec (Slv3.current e) n); [|now left].
  right.
  exists {| u_attribute := a; u_skill := s; u_old_level := Slv3.current e;
            u_new_level := n; u_gain := n - Slv3.current e |}.
  split; [reflexivity|]. simpl. repeat split; lia.
Qed.

(** The loop returns the first error; without any, it returns updates
    that the checks let through. *)
Lemma fold_until_check_entries (l : list (string * string * Slv3.entry_data))
    (us : list update) (t : Z) :
  match first_error l with
  | Some err =>
      Slv3.fold_until
        (fun acc x => Slv3.check_entry (fst (fst x)) (snd (fst x)) (snd x) acc)
        l (us, t) = inl err
  | None =>
      exists us' t',
        Slv3.fold_until
          (fun acc x => Slv3.check_entry (fst (fst x)) (snd (fst x)) (snd x) acc)
          l (us, t) = inr (us ++ us', t + t') /\
        t' = total (map u_gain us') /\
        Forall (fun u => exists e, In (u_attribute u, u_skill u, e) l /\
                                   Slv3.var e = Int (u_new_level u) /\
                                   u_old_level u = Slv3.current e /\
                                   u_old_level u < u_new_level u /\
                                   u_new_level u <= u_old_level u + 10 /\
                                   u_new_level u <= 100 /\
                                   u_gain u = u_new_level u - u_old_level u) us'
  end.
Proof.
  revert us t. induction l as [|[[a s] e] l IH]; intros us t;
    cbn [Slv3.fold_until first_error fst snd].
  - exists [], 0. rewrite app_nil_r, Z.add_0_r. repeat split; constructor.
  - pose proof (check_entry_step a s e us t) as Hstep.
    destruct (entry_error s e) as [err|].
    + rewrite Hstep. reflexivity.
    + destruct Hstep as [-> | (u & -> & Hk & Hvar & Hu)].
      * specialize (IH us t). destruct (first_error l) as [err|]; [exact IH|].
        destruct IH as (us' & t' & E & Ht & Hf). exists us', t'.
        split; [exact E | split; [exact Ht|]].
        eapply Forall_impl; [|exact Hf]. intros u' (e' & Hin & H'). exists e'.
        split; [now right | exact H'].
      * specialize (IH (us ++ [u]) (t + u_gain u)).
        destruct (first_error l) as [err|]; [exact IH|].
        destruct IH as (us' & t' & E & Ht & Hf). exists (u :: us'), (u_gain u + t').
        split; [|split].
        -- rewrite E. rewrite <- app_assoc. simpl. f_equal. f_equal. lia.
        -- simpl. unfold total. simpl. fold (total (map u_gain us')). lia.
        -- constructor.
           ++ exists e. injection Hk as -> ->. split; [now left | split; [exact Hvar | exact Hu]].
           ++ eapply Forall_impl; [|exact Hf]. intros u' (e' & Hin & H'). exists e'.
              split; [now right | exact H'].
Qed.

Lemma dashboard_collect_updates_spec
    (entries : list (string * list (string * Slv3.entry_data))) :
  match first_error (flat_entries entries) with
  | Some err => Slv3.collect_updates entries = inl err
  | None =>
      exists us,
        Slv3.collect_updates entries = inr (us, total (map u_gain us)) /\
        Forall (fun u => exists e, In (u_attribute u, u_skill u, e) (flat_entries entries) /\
                                   Slv3.var e = Int (u_new_level u) /\
                                   u_old_level u = Slv3.current e /\
                                   u_old_level u < u_new_level u /\
                                   u_new_level u <= u_old_level u + 10 /\
                                   u_new_level u <= 100 /\
                                   u_gain u = u_new_level u - u_old_level u) us
  end.
Proof.
  rewrite dashboard_collect_updates_flat.
  pose proof (fold_until_check_entries (flat_entries entries) [] 0) as H.
  destruct (first_error (flat_entries entries)) as [err|]; [exact H|].
  destruct H as (us' & t' & E & Ht & Hf). exists us'.
  split; [|exact Hf]. rewrite E. simpl. now rewrite Ht.
Qed.

(** ** Reachable stores satisfy the store invariant *)

Lemma flat_entries_map {A B : Type} (h : string -> string -> A -> B)
    (entries : list (string * list (string * A))) :
  flat_entries
    (map (fun kv => (fst kv, map (fun e => (fst e, h (fst kv) (fst e) (snd e))) (snd kv)))
         entries)
  = map (fun x => (fst x, h (fst (fst x)) (snd (fst x)) (snd x))) (flat_entries entries).
Proof.
  unfold flat_entries. induction entries as [|kv entries IH]; [reflexivity|].
  cbn [map flat_map fst snd]. rewrite map_app, IH. f_equal.
  rewrite !map_map. reflexivity.
Qed.

Lemma flat_entries_setup (db : database) :
  flat_entries (Slv3.setup_update_interface db)
  = map (fun k => (k, {| Slv3.var := Blank;
                         Slv3.current := current_skill_level db (fst k) (snd k) |}))
        taxonomy_keys.
Proof.
  unfold Slv3.setup_update_interface, flat_entries, taxonomy_keys.
  induction attributes as [|kv l IH]; [reflexivity|].
  cbn [map flat_map fst snd]. rewrite map_app, IH. f_equal.
  rewrite !map_map. reflexivity.
Qed.

Lemma set_var_entries (g : Slv3.gui) (a s : string) (v : field_input) :
  flat_entries (Slv3.update_entries (set_var g a s v))
  = map (fun x => (fst x,
                   if ((fst (fst x) =? a) && (snd (fst x) =? s))%string
                   then {| Slv3.var := v; Slv3.current := Slv3.current (snd x) |}
                   else snd x))
        (flat_entries (Slv3.update_entries g)).
Proof.
  unfold set_var. cbn [Slv3.update_entries].
  rewrite <- (flat_entries_map
                (fun a' s' x => if ((a' =? a) && (s' =? s))%string
                                then {| Slv3.var := v; Slv3.current := Slv3.current x |}
                                else x)).
  f_equal. apply map_ext. intros kv. f_equal. apply map_ext. intros [s' x]. simpl.
  destruct ((fst kv =? a) && (s' =? s))%string; reflexivity.
Qed.

Lemma refresh_all_data_synced (g : Slv3.gui) : entries_synced (Slv3.refresh_all_data g).
Proof.
  unfold entries_synced, Slv3.refresh_all_data. cbn [Slv3.store Slv3.update_entries].
  rewrite (flat_entries_map
             (fun a s x => {| Slv3.var := Slv3.var x;
                              Slv3.current := current_skill_level (Slv3.store g) a s |})).
  apply Forall_map. apply Forall_forall. intros x _. reflexivity.
Qed.

Lemma synced_levels (g : Slv3.gui) (a s : string) (e : Slv3.entry_data) :
  entries_synced g -> In (a, s, e) (flat_entries (Slv3.update_entries g)) ->
  Slv3.current e = current_skill_level (Slv3.store g) a s.
Proof.
  intros Hs Hin. unfold entries_synced in Hs. rewrite Forall_forall in Hs.
  exact (Hs _ Hin).
Qed.

(** An update session leaves levels within 1..100. *)
Lemma valid_updates_bounds (db : database) (us : list update) :
  store_ok db -> Forall (valid_update db) us ->
  Forall (fun u => 1 <= u_new_level u <= 100) us.
Proof.
  intros Hok. apply Forall_impl. intros u (Hold & Hlt & _ & Hle & _).
  pose proof (store_ok_level db (u_attribute u) (u_skill u) Hok). lia.
Qed.

Lemma update_skills_session_store_ok (db db' : database) (ts : string)
    (inputs rest : list field_input) :
  store_ok db -> Slv2.update_skills_session db ts inputs = Ok (db', rest) -> store_ok db'.
Proof.
  intros Hok. unfold Slv2.update_skills_session.
  destruct (Slv2.collect_updates db inputs) as [[[us t] rest']|e] eqn:Ec; simpl; [|discriminate].
  apply collect_updates_spec in Ec. destruct Ec as (_ & Hv & _).
  destruct us as [|u us]; intros [= <- <-]; [exact Hok|].
  rewrite save_update_session_tables. apply store_ok_write; [exact Hok|].
  now apply (valid_updates_bounds db).
Qed.

Lemma process_skill_updates_cases (g : Slv3.gui) (ts : option string) :
  (exists m, Slv3.process_skill_updates g ts = (m, g)) \/
  (exists m us t timestamp,
      Slv3.collect_updates (Slv3.update_entries g) = inr (us, t) /\
      first_error (flat_entries (Slv3.update_entries g)) = None /\
      us <> [] /\ ts = Some timestamp /\
      Slv3.process_skill_updates g ts
      = (m, Slv3.refresh_all_data
              {| Slv3.store := save_update_session (Slv3.store g) timestamp us t;
                 Slv3.update_entries := Slv3.clear_entries (Slv3.update_entries g) |})).
Proof.
  unfold Slv3.process_skill_updates.
  pose proof (dashboard_collect_updates_spec (Slv3.update_entries g)) as Hspec.
  destruct (first_error _) as [err|] eqn:Efe.
  - rewrite Hspec. left. eexists. reflexivity.
  - destruct Hspec as (us & E & _). rewrite E.
    destruct us as [|u us]; [left; eexists; reflexivity|].
    destruct ts as [timestamp|]; [|left; eexists; reflexivity].
    right. do 4 eexists. repeat split; try reflexivity. discriminate.
Qed.

Lemma reachable_invariants :
  (forall db, reachable db -> store_ok db) /\
  (forall g, gui_reachable g -> store_ok (Slv3.store g) /\ entries_synced g).
Proof.
  apply reachable_gui_ind.
  - exact store_ok_new.
  - intros db _ IH. now rewrite init_database_again.
  - intros db now inputs db' rest _ IH Hrun.
    apply crystal_ball_assessment_spec in Hrun.
    destruct Hrun as (assessment & sd & -> & Hb).
    rewrite save_crystal_ball_assessment_tables. now apply store_ok_write.
  - intros db ts inputs db' rest _ IH Hrun.
    exact (update_skills_session_store_ok _ _ _ _ _ IH Hrun).
  - intros g _ [IH _]. exact IH.
  - intros db _ IH. split; [exact IH|].
    unfold entries_synced. cbn [Slv3.store Slv3.update_entries].
    rewrite flat_entries_setup. apply Forall_map. apply Forall_forall.
    intros k _. reflexivity.
  - intros g a s v _ [IHok IHs]. split; [exact IHok|].
    unfold entries_synced. rewrite set_var_entries. apply Forall_map.
    unfold entries_synced in IHs. eapply Forall_impl; [|exact IHs].
    intros x Hx. cbn [fst snd]. change (Slv3.store (set_var g a s v)) with (Slv3.store g).
    destruct ((fst (fst x) =? a) && (snd (fst x) =? s))%string; exact Hx.
  - intros g _ [IHok _]. split; [exact IHok | apply refresh_all_data_synced].
  - intros g ts _ [IHok IHs].
    destruct (process_skill_updates_cases g ts)
      as [[m ->] | (m & us & t & timestamp & Ec & Hfe & _ & _ & ->)];
      [now split|].
    cbn [snd]. split; [|apply refresh_all_data_synced].
    cbn [Slv3.refresh_all_data Slv3.store].
    rewrite save_update_session_tables. apply store_ok_write; [exact IHok|].
    pose proof (dashboard_collect_updates_spec (Slv3.update_entries g)) as Hspec.
    rewrite Hfe in Hspec. destruct Hspec as (us' & E & Hf).
    rewrite Ec in E. injection E as -> _.
    eapply Forall_impl; [|exact Hf].
    intros u (e & Hin & _ & Hold & Hlt & _ & Hle & _).
    pose proof (synced_levels g _ _ _ IHs Hin) as Hcur.
    pose proof (store_ok_level (Slv3.store g) (u_attribute u) (u_skill u) IHok). lia.
  - intros g now entries _ [IHok _]. split; [|apply refresh_all_data_synced].
    cbn [Slv3.refresh_all_data Slv3.store].
    rewrite process_crystal_ball_assessment_tables. apply store_ok_write; [exact IHok|].
    apply Forall_map. apply Forall_forall. intros x _. apply assessed_level_bounds.
Qed.

Lemma reachable_store_ok (db : database) : reachable db -> store_ok db.
Proof. apply reachable_invariants. Qed.

Lemma gui_reachable_synced (g : Slv3.gui) : gui_reachable g -> entries_synced g.
Proof. intros H. now apply reachable_invariants. Qed.

(** ** The committed update session *)

(** The prompt of a skill reads the lines that it refuses and then the
    answer, and returns the level that the answer requests. *)
Lemma prompt_level_lines (current_level : Z) (inputs rest : list field_input) (n : Z) :
  Slv2.prompt_level current_level inputs = Ok (n, rest) ->
  exists refused_lines answer,
    inputs = refused_lines ++ answer :: rest /\
    Forall (fun v => refused current_level v = true) refused_lines /\
    refused current_level answer = false /\
    n = requested_level current_level answer.
Proof.
  induction inputs as [|i inputs IH]; cbn [Slv2.prompt_level]; [discriminate|].
  assert (Hrec : refused current_level i = true ->
                 Slv2.prompt_level current_level inputs = Ok (n, rest) ->
                 exists refused_lines answer,
                   i :: inputs = refused_lines ++ answer :: rest /\
                   Forall (fun v => refused current_level v = true) refused_lines /\
                   refused current_level answer = false /\
                   n = requested_level current_level answer).
  { intros Hi H. destruct (IH H) as (l & answer & -> & Hl & Ha & Hn).
    exists (i :: l), answer. split; [reflexivity|].
    split; [now constructor|]. split; assumption. }
  destruct i as [|m|].
  - intros [= <- <-]. exists [], Blank. repeat split. constructor.
  - cbn [refused] in Hrec.
    destruct (m <? current_level) eqn:E1; [now apply Hrec|].
    destruct (current_level + 10 <? m) eqn:E2; [now apply Hrec|].
    destruct (100 <? m) eqn:E3; [now apply Hrec|].
    intros [= <- <-]. exists [], (Int m). split; [reflexivity|].
    split; [constructor|]. split; [|reflexivity].
    cbn [refused]. now rewrite E1, E2, E3.
  - now apply Hrec.
Qed.

(** An answer requests the stored level or a higher one. *)
Lemma requested_level_ge (current_level : Z) (answer : field_input) :
  refused current_level answer = false ->
  current_level <= requested_level current_level answer <= current_level + 10 /\
  (current_level <= 100 -> requested_level current_level answer <= 100).
Proof.
  destruct answer as [|n|]; cbn [refused requested_level]; [lia| |discriminate].
  intros H. apply orb_false_iff in H. destruct H as [H H3].
  apply orb_false_iff in H. destruct H as [H1 H2].
  apply Z.ltb_ge in H1, H2, H3. lia.
Qed.

(** The body of the loop, for the skill [k]: the lines of its prompt are
    used up, and the update that the answer requests is collected. *)
Lemma update_one_skill_lines (db : database) (k : string * string)
    (us us' : list update) (t t' : Z) (inputs inputs' : list field_input) :
  Slv2.update_one_skill db (fst k) (snd k) (us, t, inputs) = Ok (us', t', inputs') ->
  exists p,
    prompt_of db k p /\
    inputs = fst p ++ snd p :: inputs' /\
    us' = us ++ requested_update db k (snd p) /\
    t' = t + total (map u_gain (requested_update db k (snd p))).
Proof.
  unfold Slv2.update_one_skill.
  destruct (Slv2.prompt_level _ inputs) as [[n rest]|e] eqn:Ep; cbn [bind]; [|discriminate].
  apply prompt_level_lines in Ep.
  destruct Ep as (l & answer & -> & Hl & Ha & ->).
  intros H. exists (l, answer). cbn [fst snd].
  split; [split; assumption|].
  unfold requested_update. cbv zeta.
  destruct (current_skill_level db (fst k) (snd k)
            <? requested_level (current_skill_level db (fst k) (snd k)) answer).
  - injection H as <- <- <-. split; [reflexivity|]. split; [reflexivity|].
    unfold total. cbn. lia.
  - injection H as <- <- <-. split; [reflexivity|]. split; [now rewrite app_nil_r|].
    unfold total. cbn. lia.
Qed.

(** The loop over the skills [keys]: the lines typed are those of one
    prompt per skill, in order, and the updates collected are those that
    the answers request. *)
Lemma collect_updates_lines (db : database) (keys : list (string * string))
    (us us' : list update) (t t' : Z) (inputs rest : list field_input) :
  foldM (fun acc k => Slv2.update_one_skill db (fst k) (snd k) acc) keys (us, t, inputs)
  = Ok (us', t', rest) ->
  exists prompts,
    Forall2 (prompt_of db) keys prompts /\
    inputs = lines_typed prompts ++ rest /\
    us' = us ++ flat_map (fun kp => requested_update db (fst kp) (snd (snd kp)))
                         (combine keys prompts) /\
    t' = t + total (map u_gain
                      (flat_map (fun kp => requested_update db (fst kp) (snd (snd kp)))
                                (combine keys prompts))).
Proof.
  revert us t inputs. induction keys as [|k keys IH]; intros us t inputs; cbn [foldM].
  - intros [= <- <- <-]. exists []. split; [constructor|].
    split; [reflexivity|]. split; [now rewrite app_nil_r | cbn; lia].
  - destruct (Slv2.update_one_skill db (fst k) (snd k) (us, t, inputs))
      as [[[us1 t1] inputs1]|e] eqn:Es; cbn [bind]; [|discriminate].
    apply update_one_skill_lines in Es. destruct Es as (p & Hp & -> & -> & ->).
    intros H. apply IH in H. destruct H as (prompts & Hps & -> & -> & ->).
    exists (p :: prompts). split; [now constructor|].
    split; [|split].
    + unfold lines_typed. cbn [flat_map]. rewrite <- !app_assoc. reflexivity.
    + cbn [combine flat_map fst snd]. now rewrite <- app_assoc.
    + cbn [combine flat_map fst snd]. rewrite map_app, total_app. lia.
Qed.

Lemma Forall2_combine_In {A B : Type} (R : A -> B -> Prop) (l : list A) (l' : list B)
    (x : A) (y : B) :
  Forall2 R l l' -> In (x, y) (combine l l') -> R x y.
Proof.
  induction 1 as [|a b l l' Hab _ IH]; cbn [combine]; [intros []|].
  intros [[= <- <-]|Hin]; [exact Hab | now apply IH].
Qed.

Lemma combine_NoDup_functional {A B : Type} (l : list A) (l' : list B) (x : A) (y y' : B) :
  NoDup l -> In (x, y) (combine l l') -> In (x, y') (combine l l') -> y = y'.
Proof.
  revert l'. induction l as [|a l IH]; intros [|b l'] Hnd; cbn [combine];
    try (intros []; fail).
  inversion Hnd as [|? ? Ha Hnd']; subst.
  intros [E1|H1] [E2|H2].
  - congruence.
  - injection E1 as -> _. apply in_combine_l in H2. contradiction.
  - injection E2 as -> _. apply in_combine_l in H1. contradiction.
  - now apply (IH l').
Qed.

(** C6.  For every update session of the text menu that commits, from a
    reachable store.  The lines typed are those of one prompt per
    taxonomy skill, in taxonomy order: the lines that the prompt refuses,
    then its answer; the level requested for the skill is the number of
    its answer, or the stored level for an empty answer.  One session of
    kind [skill_update] is appended, with the timestamp of the session;
    one row is recorded for each skill whose requested level is above the
    stored one, in taxonomy order, and there is at least one; in each row
    the old level is the level stored before the commit, the new level is
    the level requested for this skill and is the level stored after the
    commit, and the gain is their difference, from 1 to 10; the total gain
    of the session is the sum of the gains of its rows; after the commit
    every taxonomy skill reads as the level requested for it, and a skill
    has changed exactly when it has a row. *)
Theorem update_session_commit (db db' : database) (ts : string)
    (inputs rest : list field_input) :
  reachable db ->
  Slv2.update_skills_session db ts inputs = Ok (db', rest) ->
  sessions db' <> sessions db ->
  exists prompts s rows,
    Forall2 (prompt_of db) taxonomy_keys prompts /\
    inputs = lines_typed prompts ++ rest /\
    rows = map (row_of_update (rowid s))
               (flat_map (fun kp => requested_update db (fst kp) (snd (snd kp)))
                         (combine taxonomy_keys prompts)) /\
    rows <> [] /\
    sessions db' = sessions db ++ [s] /\
    session_updates db' = session_updates db ++ rows /\
    rowid s = Z.of_nat (S (length (sessions db))) /\
    session_timestamp s = ts /\
    session_type s = "skill_update" /\
    notes s = None /\
    total_gains s = total (map gain rows) /\
    NoDup (map (fun r => (su_attribute r, su_skill_name r)) rows) /\
    (forall r, In r rows ->
       session_id r = rowid s /\
       old_level r = current_skill_level db (su_attribute r) (su_skill_name r) /\
       new_level r = current_skill_level db' (su_attribute r) (su_skill_name r) /\
       gain r = new_level r - old_level r /\
       0 < gain r <= 10) /\
    (forall k p, In (k, p) (combine taxonomy_keys prompts) ->
       current_skill_level db' (fst k) (snd k)
       = requested_level (current_skill_level db (fst k) (snd k)) (snd p)) /\
    (forall a sk,
       current_skill_level db' a sk <> current_skill_level db a sk <->
       exists r, In r rows /\ su_attribute r = a /\ su_skill_name r = sk).
Proof.
  intros Hreach Hrun Hcommit.
  pose proof (reachable_store_ok db Hreach) as Hok.
  unfold Slv2.update_skills_session in Hrun.
  destruct (Slv2.collect_updates db inputs) as [[[us t] rest']|e] eqn:Ec;
    simpl in Hrun; [|discriminate].
  pose proof Ec as Elines. rewrite collect_updates_flat in Elines.
  apply collect_updates_lines in Elines.
  destruct Elines as (prompts & Hprompts & Hinputs & Hus & _).
  cbn [app] in Hus.
  apply collect_updates_spec in Ec. destruct Ec as (Ht & Hv & Hincl & Hnd & _).
  destruct us as [|u0 us0] eqn:Eus; [injection Hrun as <- <-; now elim Hcommit|].
  rewrite <- Eus in *.
  assert (Hne : us <> []) by (rewrite Eus; discriminate).
  clear Eus u0 us0.
  injection Hrun as <- <-. rewrite save_update_session_tables.
  cbn [skills sessions session_updates].
  set (sid := Z.of_nat (S (length (sessions db)))).
  set (db' := {| skills := write_levels us (skills db);
                 sessions := sessions db ++
                   [ {| rowid := sid; session_timestamp := ts; total_gains := t;
                        session_type := "skill_update"; notes := None |} ];
                 session_updates := session_updates db ++ map (row_of_update sid) us |}).
  assert (Hlevel : forall u, In u us ->
             current_skill_level db' (u_attribute u) (u_skill u) = u_new_level u).
  { intros u Hu. unfold current_skill_level, get_current_skills, db'. cbn [skills].
    rewrite (written_level us (skills db) u Hnd Hu); [reflexivity|].
    apply (store_ok_has_row db (update_key u) Hok).
    apply Hincl. now apply in_map. }
  assert (Hkeep : forall a sk, (forall u, In u us -> update_key u <> (a, sk)) ->
             current_skill_level db' a sk = current_skill_level db a sk).
  { intros a sk Hnone. unfold current_skill_level, get_current_skills, db'. cbn [skills].
    now rewrite unwritten_level. }
  exists prompts,
         {| rowid := sid; session_timestamp := ts; total_gains := t;
            session_type := "skill_update"; notes := None |},
         (map (row_of_update sid) us).
  split; [exact Hprompts|]. split; [exact Hinputs|].
  split; [cbn [rowid]; now rewrite Hus|].
  split; [intros E; apply map_eq_nil in E; contradiction|].
  split; [reflexivity|]. split; [reflexivity|]. split; [reflexivity|].
  split; [reflexivity|]. split; [reflexivity|]. split; [reflexivity|].
  split; [|split; [|split; [|split]]].
  - cbn [total_gains]. rewrite map_map. exact Ht.
  - rewrite map_map. exact Hnd.
  - intros r Hr. apply in_map_iff in Hr. destruct Hr as (u & <- & Hu).
    cbn [row_of_update session_id old_level new_level gain su_attribute su_skill_name rowid].
    rewrite Forall_forall in Hv. destruct (Hv u Hu) as (Hold & Hlt & H10 & _ & Hg).
    rewrite (Hlevel u Hu). repeat split; try assumption; try reflexivity; lia.
  - intros k p Hin.
    pose proof (Forall2_combine_In _ _ _ _ _ Hprompts Hin) as [_ Ha].
    pose proof (requested_level_ge _ _ Ha) as [[Hge _] _].
    destruct (requested_update db k (snd p)) as [|u l] eqn:Er.
    + assert (Hsame : requested_level (current_skill_level db (fst k) (snd k)) (snd p)
                      = current_skill_level db (fst k) (snd k)).
      { unfold requested_update in Er. cbv zeta in Er.
        destruct (Z.ltb_spec (current_skill_level db (fst k) (snd k))
                    (requested_level (current_skill_level db (fst k) (snd k)) (snd p)));
          [discriminate | lia]. }
      rewrite Hsame. apply Hkeep. intros u Hu Hk.
      rewrite Hus in Hu. apply in_flat_map in Hu. destruct Hu as ([k' p'] & Hin' & Hu).
      cbn [fst snd] in Hu.
      assert (Hk' : update_key u = k').
      { unfold requested_update in Hu. cbv zeta in Hu.
        destruct (_ <? _) in Hu; [|destruct Hu].
        destruct Hu as [<-|[]]. unfold update_key. cbn. now destruct k'. }
      assert (k' = k) as -> by (rewrite <- Hk', Hk; now destruct k).
      rewrite (combine_NoDup_functional _ _ _ _ _ taxonomy_keys_NoDup Hin' Hin) in Hu.
      rewrite Er in Hu. destruct Hu.
    + assert (Hu : In u us).
      { rewrite Hus. apply in_flat_map. exists (k, p). split; [exact Hin|].
        cbn [fst snd]. rewrite Er. now left. }
      unfold requested_update in Er. cbv zeta in Er.
      destruct (_ <? _) in Er; [|discriminate].
      injection Er as <- _. exact (Hlevel _ Hu).
  - intros a sk. split.
    + intros Hchanged. destruct (update_in_dec us a sk) as [(u & Hu & Hk) | Hnone].
      * exists (row_of_update sid u). split; [now apply in_map|].
        injection Hk as <- <-. split; reflexivity.
      * elim Hchanged. now apply Hkeep.
    + intros (r & Hr & <- & <-). apply in_map_iff in Hr. destruct Hr as (u & <- & Hu).
      cbn [row_of_update su_attribute su_skill_name].
      rewrite (Hlevel u Hu).
      rewrite Forall_forall in Hv. destruct (Hv u Hu) as (Hold & Hlt & _).
      rewrite <- Hold. lia.
Qed.

(** The commit of the example session on the store of a first start. *)
Lemma update_session_commit_witness :
  reachable new_store /\
  Slv2.update_skills_session new_store example_timestamp example_inputs
  = Ok (store_after_example, []) /\
  sessions store_after_example <> sessions new_store /\
  exists prompts s rows,
    Forall2 (prompt_of new_store) taxonomy_keys prompts /\
    example_inputs = lines_typed prompts ++ [] /\
    rows = map (row_of_update (rowid s))
               (flat_map (fun kp => requested_update new_store (fst kp) (snd (snd kp)))
                         (combine taxonomy_keys prompts)) /\
    rows <> [] /\
    sessions store_after_example = sessions new_store ++ [s] /\
    session_updates store_after_example = session_updates new_store ++ rows /\
    rowid s = Z.of_nat (S (length (sessions new_store))) /\
    session_timestamp s = example_timestamp /\
    session_type s = "skill_update" /\
    notes s = None /\
    total_gains s = total (map gain rows) /\
    NoDup (map (fun r => (su_attribute r, su_skill_name r)) rows) /\
    (forall r, In r rows ->
       session_id r = rowid s /\
       old_level r = current_skill_level new_store (su_attribute r) (su_skill_name r) /\
       new_level r
       = current_skill_level store_after_example (su_attribute r) (su_skill_name r) /\
       gain r = new_level r - old_level r /\
       0 < gain r <= 10) /\
    (forall k p, In (k, p) (combine taxonomy_keys prompts) ->
       current_skill_level store_after_example (fst k) (snd k)
       = requested_level (current_skill_level new_store (fst k) (snd k)) (snd p)) /\
    (forall a sk,
       current_skill_level store_after_example a sk <> current_skill_level new_store a sk <->
       exists r, In r rows /\ su_attribute r = a /\ su_skill_name r = sk).
Proof.
  assert (Hrun : Slv2.update_skills_session new_store example_timestamp example_inputs
                 = Ok (store_after_example, [])) by (vm_compute; reflexivity).
  assert (Hne : sessions store_after_example <> sessions new_store)
    by (vm_compute; discriminate).
  split; [exact reach_new|]. split; [exact Hrun|]. split; [exact Hne|].
  exact (update_session_commit new_store store_after_example example_timestamp
           example_inputs [] reach_new Hrun Hne).
Defined.

(** The example of the specification: updates [+5] and [+3] give a total
    gain of 8 and two rows with the levels before and after, and the two
    skills then read as 6 and 4. *)
Lemma update_session_example :
  sessions store_after_example
  = [ {| rowid := 1; session_timestamp := example_timestamp; total_gains := 8;
         session_type := "skill_update"; notes := None |} ] /\
  session_updates store_after_example
  = [ {| session_id := 1; su_attribute := "life_skills";
         su_skill_name := "communication";
         old_level := 1; new_level := 6; gain := 5 |};
      {| session_id := 1; su_attribute := "life_skills";
         su_skill_name := "critical_thinking_problem_solving";
         old_level := 1; new_level := 4; gain := 3 |} ] /\
  current_skill_level store_after_example "life_skills" "communication" = 6 /\
  current_skill_level store_after_example
    "life_skills" "critical_thinking_problem_solving" = 4.
Proof. vm_compute. repeat split; reflexivity. Qed.

(** ** First-run detection *)

(** C9.  [check_first_run] answers true exactly when no skill has a
    stored level above 1 and no session exists, in every store; after a
    commit of an update session or of an assessment, by the menu or by the
    dashboard, it answers false. *)
Theorem check_first_run_spec :
  (forall db,
     check_first_run db = true <->
     (forall r, In r (skills db) -> ~ 1 < current_level r) /\ sessions db = []) /\
  (forall db ts us t, check_first_run (save_update_session db ts us t) = false) /\
  (forall db assessment sd,
     check_first_run (Slv2.save_crystal_ball_assessment db assessment sd) = false) /\
  (forall db ts entries,
     check_first_run (Slv3.process_crystal_ball_assessment db ts entries) = false).
Proof.
  assert (Hsess : forall sk ss s rows,
             check_first_run {| skills := sk; sessions := ss ++ [s];
                                session_updates := rows |} = false).
  { intros sk ss s rows. unfold check_first_run. cbn [skills sessions].
    rewrite length_app. simpl length.
    assert ((0 <? Z.of_nat (length ss + 1)) = true) as -> by (apply Z.ltb_lt; lia).
    rewrite orb_true_r. reflexivity. }
  split; [|split; [|split]].
  - intros db. unfold check_first_run.
    rewrite negb_true_iff, orb_false_iff, !Z.ltb_ge. split.
    + intros [Hp Hs]. split.
      * intros r Hr Hlt.
        assert (In r (filter (fun r => 1 <? current_level r) (skills db))) as Hin
            by (apply filter_In; split; [exact Hr | now apply Z.ltb_lt]).
        destruct (filter _ (skills db)); [exact Hin | simpl in Hp; lia].
      * destruct (sessions db); [reflexivity | simpl in Hs; lia].
    + intros [Hp Hs]. rewrite Hs. split; [|simpl; lia].
      destruct (filter _ (skills db)) as [|r l] eqn:Ef; [simpl; lia|].
      assert (In r (filter (fun r => 1 <? current_level r) (skills db))) as Hin
          by (rewrite Ef; now left).
      apply filter_In in Hin. destruct Hin as [Hr Hlt].
      apply Z.ltb_lt in Hlt. now elim (Hp r Hr).
  - intros db ts us t. rewrite save_update_session_tables. apply Hsess.
  - intros db assessment sd. rewrite save_crystal_ball_assessment_tables. apply Hsess.
  - intros db ts entries. rewrite process_crystal_ball_assessment_tables. apply Hsess.
Qed.

(** ** The overall level *)

(** In every store, every category of the taxonomy has a level within
    1..100. *)
Lemma calculate_attribute_level_range (F : float_arith) (db : database) (a : string) :
  binary64_like F -> In a (map fst attributes) ->
  exists level, calculate_attribute_level F db a = Ok level /\ 1 <= level <= 100.
Proof.
  intros HF Ha. unfold calculate_attribute_level.
  simpl in Ha.
  destruct Ha as [<-|[<-|[<-|[<-|[<-|[]]]]]];
    cbn [attributes_get attributes find fst snd String.eqb Ascii.eqb Bool.eqb bind length];
    apply sigmoid_level_range; try exact HF; reflexivity.
Qed.





(** ** The write path of the store *)

(** C3, the claim as stated fails: handed a new level of 150,
    [save_update_session] raises nothing, stores 150 as the level of the
    skill and records the row. *)
Lemma store_accepts_level_150 :
  current_skill_level
    (save_update_session new_store example_timestamp [update_to_150] 149)
    "life_skills" "communication" = 150 /\
  session_updates (save_update_session new_store example_timestamp [update_to_150] 149)
  = [ {| session_id := 1; su_attribute := "life_skills";
         su_skill_name := "communication";
         old_level := 1; new_level := 150; gain := 149 |} ].
Proof. vm_compute. split; reflexivity. Qed.

(** C3, amended.  The write path checks no range.  Handed a session whose
    numbers SQLite stores, the signed 64-bit integers, [save_update_session]
    records every update of it; and for a skill that has a row in the
    table [skills] and is named once in the session, it stores the new
    level, whatever level of this range it is, 150 for one.  (On a number
    beyond 64 bits [sqlite3] raises [OverflowError] and nothing is
    committed; the statement is about the other numbers.)  Levels outside
    1..100 are kept out before the write, by the checks of the update
    session and of the assessment, so that every reachable store holds
    levels within 1..100 only. *)
Theorem store_write_checks_no_range :
  (forall db ts us t,
     forallb int64_update us = true -> int64 t = true ->
     session_updates (save_update_session db ts us t)
     = session_updates db ++ map (row_of_update (Z.of_nat (S (length (sessions db))))) us) /\
  (forall db ts us t u,
     forallb int64_update us = true -> int64 t = true ->
     NoDup (map update_key us) -> In u us ->
     get_current_skills db (u_attribute u) (u_skill u) <> None ->
     current_skill_level (save_update_session db ts us t) (u_attribute u) (u_skill u)
     = u_new_level u) /\
  (forall db, reachable db ->
     Forall (fun r => 1 <= current_level r <= 100) (skills db)).
Proof.
  split; [|split].
  - intros db ts us t _ _. rewrite save_update_session_tables. reflexivity.
  - intros db ts us t u _ _ Hnd Hu Hrow. rewrite save_update_session_tables.
    unfold current_skill_level, get_current_skills. cbn [skills].
    now rewrite (written_level us (skills db) u Hnd Hu Hrow).
  - intros db Hreach. exact (proj2 (reachable_store_ok db Hreach)).
Qed.

(** The write of level 150 on the store of a first start, which is
    reachable and holds levels within 1..100. *)
Lemma store_write_checks_no_range_witness :
  forallb int64_update [update_to_150] = true /\
  int64 149 = true /\
  NoDup (map update_key [update_to_150]) /\
  In update_to_150 [update_to_150] /\
  get_current_skills new_store (u_attribute update_to_150) (u_skill update_to_150) <> None /\
  reachable new_store /\
  session_updates (save_update_session new_store example_timestamp [update_to_150] 149)
  = session_updates new_store
    ++ map (row_of_update (Z.of_nat (S (length (sessions new_store))))) [update_to_150] /\
  current_skill_level
    (save_update_session new_store example_timestamp [update_to_150] 149)
    (u_attribute update_to_150) (u_skill update_to_150) = u_new_level update_to_150 /\
  Forall (fun r => 1 <= current_level r <= 100) (skills new_store).
Proof.
  assert (H64 : forallb int64_update [update_to_150] = true) by reflexivity.
  assert (Ht : int64 149 = true) by reflexivity.
  assert (Hnd : NoDup (map update_key [update_to_150]))
    by (constructor; [intros [] | constructor]).
  assert (Hin : In update_to_150 [update_to_150]) by (now left).
  assert (Hrow : get_current_skills new_store (u_attribute update_to_150)
                   (u_skill update_to_150) <> None) by (vm_compute; discriminate).
  split; [exact H64|]. split; [exact Ht|].
  split; [exact Hnd|]. split; [exact Hin|]. split; [exact Hrow|].
  split; [exact reach_new|]. split; [|split].
  - exact (proj1 store_write_checks_no_range new_store example_timestamp
             [update_to_150] 149 H64 Ht).
  - exact (proj1 (proj2 store_write_checks_no_range) new_store example_timestamp
             [update_to_150] 149 update_to_150 H64 Ht Hnd Hin Hrow).
  - exact (proj2 (proj2 store_write_checks_no_range) new_store reach_new).
Defined.

(** ** The assessment workflow *)

Lemma assessment_updates_flat (assessment : list (string * list (string * Z))) :
  assessment_updates assessment
  = map (fun x => {| u_attribute := fst (fst x); u_skill := snd (fst x);
                     u_old_level := 1; u_new_level := snd x; u_gain := snd x - 1 |})
        (flat_entries assessment).
Proof.
  unfold assessment_updates, flat_entries.
  induction assessment as [|kv l IH]; [reflexivity|].
  cbn [flat_map]. rewrite map_app, IH. f_equal. rewrite map_map. reflexivity.
Qed.

(** C4.  An assessment, of the text menu or of the dashboard, appends one
    session of kind [crystal_ball_assessment] and, for every skill in it,
    one row with old level 1 and gain = new level - 1, whatever level the
    store held before.  No check against the stored level is made: the
    menu's prompt accepts every level within 1..100, the dashboard clamps
    every number into 1..100, and the stored level becomes the assessed
    one, be it lower than before or more than 10 above. *)
Theorem assessment_records_baseline_1 :
  (forall db assessment sd,
     exists s,
       sessions (Slv2.save_crystal_ball_assessment db assessment sd) = sessions db ++ [s] /\
       session_type s = "crystal_ball_assessment" /\
       session_updates (Slv2.save_crystal_ball_assessment db assessment sd)
       = session_updates db ++
         map (fun x => {| session_id := rowid s; su_attribute := fst (fst x);
                          su_skill_name := snd (fst x); old_level := 1;
                          new_level := snd x; gain := snd x - 1 |})
             (flat_entries assessment)) /\
  (forall db assessment sd a sk level,
     NoDup (map fst (flat_entries assessment)) ->
     In (a, sk, level) (flat_entries assessment) ->
     get_current_skills db a sk <> None ->
     current_skill_level (Slv2.save_crystal_ball_assessment db assessment sd) a sk = level) /\
  (forall n rest, 1 <= n <= 100 -> Slv2.prompt_assessment (Int n :: rest) = Ok (n, rest)) /\
  (forall db ts entries,
     exists s,
       sessions (Slv3.process_crystal_ball_assessment db ts entries) = sessions db ++ [s] /\
       session_type s = "crystal_ball_assessment" /\
       session_updates (Slv3.process_crystal_ball_assessment db ts entries)
       = session_updates db ++
         map (fun x => {| session_id := rowid s; su_attribute := fst (fst x);
                          su_skill_name := snd (fst x); old_level := 1;
                          new_level := assessed_level (snd x);
                          gain := assessed_level (snd x) - 1 |})
             (flat_entries entries)) /\
  (forall db ts entries a sk v,
     NoDup (map fst (flat_entries entries)) ->
     In (a, sk, v) (flat_entries entries) ->
     get_current_skills db a sk <> None ->
     current_skill_level (Slv3.process_crystal_ball_assessment db ts entries) a sk
     = assessed_level v).
Proof.
  split; [|split; [|split; [|split]]].
  - intros db assessment sd. rewrite save_crystal_ball_assessment_tables.
    cbn [sessions session_updates]. eexists. split; [reflexivity|].
    split; [reflexivity|]. cbn [rowid]. f_equal.
    rewrite assessment_updates_flat, map_map. reflexivity.
  - intros db assessment sd a sk level Hnd Hin Hrow.
    rewrite save_crystal_ball_assessment_tables.
    unfold current_skill_level, get_current_skills. cbn [skills].
    rewrite assessment_updates_flat.
    set (mk := fun x : string * string * Z =>
                 {| u_attribute := fst (fst x); u_skill := snd (fst x);
                    u_old_level := 1; u_new_level := snd x; u_gain := snd x - 1 |}).
    assert (H : lookup_level (write_levels (map mk (flat_entries assessment)) (skills db))
                  a sk = Some level).
    { apply (written_level (map mk (flat_entries assessment)) (skills db) (mk (a, sk, level))).
      - rewrite map_map.
        rewrite (map_ext _ fst); [exact Hnd | intros [[? ?] ?]; reflexivity].
      - now apply in_map.
      - exact Hrow. }
    rewrite H. reflexivity.
  - intros n rest Hn. simpl.
    destruct (Z.ltb_spec n 1); [lia|]. destruct (Z.ltb_spec 100 n); [lia|]. reflexivity.
  - intros db ts entries. rewrite process_crystal_ball_assessment_tables.
    cbn [sessions session_updates]. eexists. split; [reflexivity|].
    split; [reflexivity|]. cbn [rowid]. f_equal. rewrite map_map. reflexivity.
  - intros db ts entries a sk v Hnd Hin Hrow.
    rewrite process_crystal_ball_assessment_tables.
    unfold current_skill_level, get_current_skills. cbn [skills].
    assert (H : lookup_level
                  (write_levels (map assessed_update (flat_entries entries)) (skills db))
                  a sk = Some (assessed_level v)).
    { apply (written_level (map assessed_update (flat_entries entries)) (skills db)
               (assessed_update (a, sk, v))).
      - rewrite map_map.
        rewrite (map_ext _ fst); [exact Hnd | intros [[? ?] ?]; reflexivity].
      - now apply in_map.
      - exact Hrow. }
    rewrite H. reflexivity.
Qed.

(** The assessment of one skill at 70 on the store of a first start. *)
Lemma assessment_records_baseline_1_witness :
  NoDup (map fst (flat_entries example_assessment)) /\
  In ("life_skills", "communication", 70) (flat_entries example_assessment) /\
  get_current_skills new_store "life_skills" "communication" <> None /\
  current_skill_level
    (Slv2.save_crystal_ball_assessment new_store example_assessment
       {| timestamp := example_timestamp; updates := [] |})
    "life_skills" "communication" = 70 /\
  exists s,
    sessions (Slv2.save_crystal_ball_assessment new_store example_assessment
                {| timestamp := example_timestamp; updates := [] |})
    = sessions new_store ++ [s] /\
    session_type s = "crystal_ball_assessment" /\
    session_updates (Slv2.save_crystal_ball_assessment new_store example_assessment
                       {| timestamp := example_timestamp; updates := [] |})
    = session_updates new_store ++
      map (fun x => {| session_id := rowid s; su_attribute := fst (fst x);
                       su_skill_name := snd (fst x); old_level := 1;
                       new_level := snd x; gain := snd x - 1 |})
          (flat_entries example_assessment).
Proof.
  assert (Hnd : NoDup (map fst (flat_entries example_assessment)))
    by (constructor; [intros [] | constructor]).
  assert (Hin : In ("life_skills", "communication", 70) (flat_entries example_assessment))
    by (now left).
  assert (Hrow : get_current_skills new_store "life_skills" "communication" <> None)
    by (vm_compute; discriminate).
  split; [exact Hnd|]. split; [exact Hin|]. split; [exact Hrow|]. split.
  - exact (proj1 (proj2 assessment_records_baseline_1) new_store example_assessment
             {| timestamp := example_timestamp; updates := [] |}
             "life_skills" "communication" 70 Hnd Hin Hrow).
  - exact (proj1 assessment_records_baseline_1 new_store example_assessment
             {| timestamp := example_timestamp; updates := [] |}).
Defined.

(** The example of the specification: on a new store an assessment of one
    skill at 70 sets it to 70 and records old level 1 and gain 69.  A
    second assessment of the same skill at 5 sets it to 5 and records old
    level 1 and gain 4, although the stored level was 70. *)
Lemma assessment_example :
  let db1 := Slv3.process_crystal_ball_assessment new_store "2024-03-01T10:00:00"
               [("life_skills", [("communication", Int 70)])] in
  let db2 := Slv3.process_crystal_ball_assessment db1 "2024-03-02T10:00:00"
               [("life_skills", [("communication", Int 5)])] in
  current_skill_level db1 "life_skills" "communication" = 70 /\
  current_skill_level db2 "life_skills" "communication" = 5 /\
  session_updates db2
  = [ {| session_id := 1; su_attribute := "life_skills"; su_skill_name := "communication";
         old_level := 1; new_level := 70; gain := 69 |};
      {| session_id := 2; su_attribute := "life_skills"; su_skill_name := "communication";
         old_level := 1; new_level := 5; gain := 4 |} ].
Proof. vm_compute. repeat split; reflexivity. Qed.

(** ** A requested level below the current one *)

Lemma first_error_app (pre post : list (string * string * Slv3.entry_data)) :
  first_error (pre ++ post)
  = match first_error pre with Some err => Some err | None => first_error post end.
Proof.
  induction pre as [|x pre IH]; simpl; [reflexivity|].
  destruct (entry_error _ _); [reflexivity | exact IH].
Qed.

Lemma first_error_in (l : list (string * string * Slv3.entry_data))
    (x : string * string * Slv3.entry_data) :
  In x l -> entry_error (snd (fst x)) (snd x) <> None -> first_error l <> None.
Proof.
  induction l as [|y l IH]; simpl; [intros []|].
  intros [->|Hin] Hx.
  - destruct (entry_error _ _); [discriminate | now elim Hx].
  - destruct (entry_error (snd (fst y)) (snd y)); [discriminate | now apply IH].
Qed.

Lemma entry_error_decrease (s : string) (e : Slv3.entry_data) (n : Z) :
  Slv3.var e = Int n -> n < Slv3.current e ->
  entry_error s e = Some (Slv3.CannotDecrease s).
Proof.
  intros Hv Hn. unfold entry_error. rewrite Hv.
  now rewrite (proj2 (Z.ltb_lt _ _) Hn).
Qed.

(** The text menu never lowers a level. *)
Lemma update_skills_session_no_decrease (db db' : database) (ts : string)
    (inputs rest : list field_input) (a s : string) :
  Slv2.update_skills_session db ts inputs = Ok (db', rest) ->
  current_skill_level db a s <= current_skill_level db' a s.
Proof.
  unfold Slv2.update_skills_session.
  destruct (Slv2.collect_updates db inputs) as [[[us t] rest']|e] eqn:Ec; simpl; [|discriminate].
  apply collect_updates_spec in Ec. destruct Ec as (_ & Hv & _).
  destruct us as [|u0 us0] eqn:Eus; intros [= <- <-]; [lia|].
  rewrite <- Eus in *. rewrite save_update_session_tables.
  unfold current_skill_level at 2. unfold get_current_skills. cbn [skills].
  rewrite lookup_write_levels.
  destruct (find _ (rev us)) as [u|] eqn:Ef.
  - apply find_some in Ef. destruct Ef as [Hu Hk].
    apply in_rev in Hu. apply key_eqb_true in Hk. injection Hk as <- <-.
    rewrite Forall_forall in Hv. destruct (Hv u Hu) as (Hold & Hlt & _).
    unfold current_skill_level, get_current_skills in *.
    destruct (lookup_level (skills db) (u_attribute u) (u_skill u)); simpl; lia.
  - unfold current_skill_level, get_current_skills. lia.
Qed.

(** C5, the claim as stated fails.  On the dashboard over a new store,
    with text that is no number in the first entry and the level 0, below
    the stored level 1, in the second, the proposal is refused with the
    error of the first entry, "Invalid level", not with the decrease
    error.  In the text menu the level 0 typed at the first prompt is
    refused and asked again, and the session goes on to commit. *)
Lemma decrease_proposal_other_outcomes :
  gui_reachable example_gui /\
  In ("life_skills", "critical_thinking_problem_solving",
      {| Slv3.var := Int 0; Slv3.current := 1 |})
     (flat_entries (Slv3.update_entries example_gui)) /\
  current_skill_level (Slv3.store example_gui)
    "life_skills" "critical_thinking_problem_solving" = 1 /\
  Slv3.process_skill_updates example_gui (Some example_timestamp)
  = (Slv3.showerror (Slv3.InvalidLevel "communication"), example_gui) /\
  Slv2.update_skills_session new_store example_timestamp (Int 0 :: example_inputs)
  = Ok (store_after_example, []) /\
  length (sessions store_after_example) = 1%nat.
Proof.
  split; [|split; [|split; [|split; [|split]]]].
  - unfold example_gui. apply gui_typing, gui_typing, gui_start, reach_new.
  - vm_compute. tauto.
  - vm_compute. reflexivity.
  - vm_compute. reflexivity.
  - vm_compute. reflexivity.
  - reflexivity.
Qed.

(** C5, amended.  On the dashboard, a proposal with some entry below the
    stored level of its skill is refused as a whole with an error box and
    changes nothing, neither the store nor the entries; the error is the
    one of the first entry in taxonomy order that has an error, hence the
    decrease error when no entry before the decreasing one has an error.
    In the text menu a level below the current one is refused at its
    prompt and the field is asked again; no session of the menu ever
    lowers a stored level. *)
Theorem decrease_is_never_committed :
  (forall g ts a s e n,
     gui_reachable g ->
     In (a, s, e) (flat_entries (Slv3.update_entries g)) ->
     Slv3.var e = Int n ->
     n < current_skill_level (Slv3.store g) a s ->
     exists err,
       Slv3.process_skill_updates g ts = (Slv3.showerror err, g) /\
       first_error (flat_entries (Slv3.update_entries g)) = Some err /\
       (forall pre post,
          flat_entries (Slv3.update_entries g) = pre ++ (a, s, e) :: post ->
          first_error pre = None ->
          err = Slv3.CannotDecrease s)) /\
  (forall current_level n rest,
     n < current_level ->
     Slv2.prompt_level current_level (Int n :: rest)
     = Slv2.prompt_level current_level rest) /\
  (forall db ts inputs db' rest,
     Slv2.update_skills_session db ts inputs = Ok (db', rest) ->
     forall a s, current_skill_level db a s <= current_skill_level db' a s).
Proof.
  split; [|split].
  - intros g ts a s e n Hreach Hin Hvar Hlt.
    pose proof (gui_reachable_synced g Hreach) as Hsync.
    rewrite <- (synced_levels g a s e Hsync Hin) in Hlt.
    pose proof (entry_error_decrease s e n Hvar Hlt) as Herr.
    pose proof (first_error_in _ (a, s, e) Hin) as Hfirst. cbn [fst snd] in Hfirst.
    rewrite Herr in Hfirst. specialize (Hfirst ltac:(discriminate)).
    pose proof (dashboard_collect_updates_spec (Slv3.update_entries g)) as Hspec.
    destruct (first_error (flat_entries (Slv3.update_entries g))) as [err|] eqn:Efe;
      [|now elim Hfirst].
    exists err. split; [|split].
    + unfold Slv3.process_skill_updates. rewrite Hspec. reflexivity.
    + reflexivity.
    + intros pre post Hsplit Hpre. rewrite Hsplit, first_error_app, Hpre in Efe.
      cbn [first_error fst snd] in Efe. rewrite Herr in Efe. congruence.
  - intros current_level n rest Hn. simpl.
    now rewrite (proj2 (Z.ltb_lt _ _) Hn).
  - intros db ts inputs db' rest Hrun a s.
    exact (update_skills_session_no_decrease db db' ts inputs rest a s Hrun).
Qed.

(** The dashboard on a new store with the level 0 typed for the first
    skill: refused with the decrease error, nothing changed. *)
Lemma decrease_is_never_committed_witness :
  gui_reachable example_gui_decrease /\
  In ("life_skills", "communication", {| Slv3.var := Int 0; Slv3.current := 1 |})
     (flat_entries (Slv3.update_entries example_gui_decrease)) /\
  0 < current_skill_level (Slv3.store example_gui_decrease) "life_skills" "communication" /\
  exists err,
    Slv3.process_skill_updates example_gui_decrease (Some example_timestamp)
    = (Slv3.showerror err, example_gui_decrease) /\
    first_error (flat_entries (Slv3.update_entries example_gui_decrease)) = Some err /\
    (forall pre post,
       flat_entries (Slv3.update_entries example_gui_decrease)
       = pre ++ ("life_skills", "communication",
                 {| Slv3.var := Int 0; Slv3.current := 1 |}) :: post ->
       first_error pre = None ->
       err = Slv3.CannotDecrease "communication").
Proof.
  assert (Hreach : gui_reachable example_gui_decrease)
    by (unfold example_gui_decrease; apply gui_typing, gui_start, reach_new).
  assert (Hin : In ("life_skills", "communication",
                    {| Slv3.var := Int 0; Slv3.current := 1 |})
                   (flat_entries (Slv3.update_entries example_gui_decrease)))
    by (vm_compute; tauto).
  assert (Hlt : 0 < current_skill_level (Slv3.store example_gui_decrease)
                      "life_skills" "communication") by (vm_compute; reflexivity).
  split; [exact Hreach|]. split; [exact Hin|]. split; [exact Hlt|].
  exact (proj1 decrease_is_never_committed example_gui_decrease (Some example_timestamp)
           "life_skills" "communication" {| Slv3.var := Int 0; Slv3.current := 1 |} 0
           Hreach Hin eq_refl Hlt).
Defined.

(** ** The history reader *)

Lemma string_compare_le_trans (a b c : string) :
  String.compare a b <> Gt -> String.compare b c <> Gt -> String.compare a c <> Gt.
Proof.
  revert b c. induction a as [|x a IH]; intros [|y b] [|z c]; simpl;
    try congruence.
  unfold Ascii.compare.
  destruct (N.compare_spec (Ascii.N_of_ascii x) (Ascii.N_of_ascii y)) as [Hxy|Hxy|Hxy];
    destruct (N.compare_spec (Ascii.N_of_ascii y) (Ascii.N_of_ascii z)) as [Hyz|Hyz|Hyz];
    destruct (N.compare_spec (Ascii.N_of_ascii x) (Ascii.N_of_ascii z)) as [Hxz|Hxz|Hxz];
    try congruence; try lia.
  apply IH.
Qed.

Lemma string_leb_trans (a b c : string) :
  String.leb a b = true -> String.leb b c = true -> String.leb a c = true.
Proof.
  unfold String.leb. intros Hab Hbc.
  pose proof (string_compare_le_trans a b c) as H.
  destruct (String.compare a b); destruct (String.compare b c);
    destruct (String.compare a c); try reflexivity; try discriminate;
    elim H; congruence.
Qed.

Lemma timestamp_desc_transitive :
  Transitive (fun a b : session_row => is_true (TimestampDesc.leb a b)).
Proof.
  intros a b c Hab Hbc. unfold is_true, TimestampDesc.leb in *.
  exact (string_leb_trans _ _ _ Hbc Hab).
Qed.

Lemma StronglySorted_firstn {A : Type} (R : A -> A -> Prop) (n : nat) (l : list A) :
  StronglySorted R l -> StronglySorted R (firstn n l).
Proof.
  revert l. induction n as [|n IH]; intros l Hl; [constructor|].
  destruct l as [|x l]; [constructor|]. simpl.
  apply StronglySorted_inv in Hl. destruct Hl as [Hl Hx].
  constructor; [now apply IH|].
  rewrite Forall_forall in *. intros y Hy. apply Hx.
  rewrite <- (firstn_skipn n l). apply in_or_app. now left.
Qed.

Lemma StronglySorted_app_order {A : Type} (R : A -> A -> Prop) (l1 l2 : list A) (x y : A) :
  StronglySorted R (l1 ++ l2) -> In x l1 -> In y l2 -> R x y.
Proof.
  induction l1 as [|z l1 IH]; simpl; [intros _ []|].
  intros Hs Hx Hy. apply StronglySorted_inv in Hs. destruct Hs as [Hs Hz].
  destruct Hx as [<-|Hx]; [|now apply IH].
  rewrite Forall_forall in Hz. apply Hz. apply in_or_app. now right.
Qed.

Lemma StronglySorted_map {A B : Type} (R : B -> B -> Prop) (f : A -> B) (l : list A) :
  StronglySorted (fun a b => R (f a) (f b)) l -> StronglySorted R (map f l).
Proof.
  induction 1 as [|a l Hl IH Ha]; simpl; constructor; [exact IH|].
  apply Forall_map. exact Ha.
Qed.

(** *** Text order and time order *)

Lemma shape_scale_pos (shape : string) : 0 < shape_scale shape.
Proof.
  induction shape as [|p shape IH]; cbn [shape_scale]; [lia|].
  destruct (Ascii.eqb p "0"); lia.
Qed.





Lemma spelled_number_example :
  has_shape seconds_shape example_timestamp = true /\
  spelled_number seconds_shape example_timestamp 0 = 20240301100000.
Proof. vm_compute. split; reflexivity. Qed.

(** *** The histories *)


(** The loop that prints the rows: all of them, or [ValueError] at the
    first whose timestamp the library cannot read. *)
Lemma print_rows (fromisoformat : string -> bool) (l printed : list session_row) :
  foldM (fun printed session =>
           if fromisoformat (session_timestamp session)
           then Ok (printed ++ [session])
           else Raise ValueError)
        l printed
  = if forallb (fun s => fromisoformat (session_timestamp s)) l
    then Ok (printed ++ l)
    else Raise ValueError.
Proof.
  revert printed. induction l as [|s l IH]; intros printed; cbn [foldM forallb].
  - now rewrite app_nil_r.
  - destruct (fromisoformat (session_timestamp s)); cbn [bind andb]; [|reflexivity].
    rewrite IH, <- app_assoc. reflexivity.
Qed.

(** The rows that the history of the menu selects: ten rows or all, those
    with the greatest timestamp texts, in descending order of the text. *)
Lemma menu_history_selection (db : database) :
  exists selected older,
    selected = firstn 10 (SessionSort.sort (sessions db)) /\
    length selected = Nat.min 10 (length (sessions db)) /\
    Permutation (sessions db) (selected ++ older) /\
    text_descending (map session_timestamp selected) /\
    (forall x y, In x selected -> In y older ->
                 String.leb (session_timestamp y) (session_timestamp x) = true).
Proof.
  pose proof (SessionSort.Permuted_sort (sessions db)) as Hperm.
  pose proof (SessionSort.StronglySorted_sort (sessions db) timestamp_desc_transitive)
    as Hsorted.
  set (sorted := SessionSort.sort (sessions db)) in *.
  exists (firstn 10 sorted), (skipn 10 sorted).
  split; [reflexivity|]. split; [|split; [|split]].
  - rewrite length_firstn. f_equal. symmetry. now apply Permutation_length.
  - rewrite firstn_skipn. exact Hperm.
  - unfold text_descending. apply StronglySorted_map.
    apply StronglySorted_firstn. exact Hsorted.
  - intros x y Hx Hy.
    rewrite <- (firstn_skipn 10 sorted) in Hsorted.
    exact (StronglySorted_app_order _ _ _ x y Hsorted Hx Hy).
Qed.



(** ** Further examples *)

(** slv2.py on fifteen sessions, three of them stored out of date order:
    the ten with the greatest timestamps are shown, in descending order;
    the timestamps being of one zero-padded shape, this is newest
    first. *)
Lemma menu_history_example :
  length (sessions example_history_store) = 15%nat /\
  map session_timestamp (sessions example_history_store)
  = [ "2024-01-03T09:00:00"; "2024-01-01T09:00:00"; "2024-01-02T09:00:00";
      "2024-01-04T09:00:00"; "2024-01-05T09:00:00"; "2024-01-06T09:00:00";
      "2024-01-07T09:00:00"; "2024-01-08T09:00:00"; "2024-01-09T09:00:00";
      "2024-01-10T09:00:00"; "2024-01-11T09:00:00"; "2024-01-12T09:00:00";
      "2024-01-13T09:00:00"; "2024-01-14T09:00:00"; "2024-01-15T09:00:00" ] /\
  exists shown,
    Slv2.view_history isoformat_shape example_history_store = Ok shown /\
    map session_timestamp shown
    = [ "2024-01-15T09:00:00"; "2024-01-14T09:00:00"; "2024-01-13T09:00:00";
        "2024-01-12T09:00:00"; "2024-01-11T09:00:00"; "2024-01-10T09:00:00";
        "2024-01-09T09:00:00"; "2024-01-08T09:00:00"; "2024-01-07T09:00:00";
        "2024-01-06T09:00:00" ].
Proof.
  split; [vm_compute; reflexivity|]. split; [vm_compute; reflexivity|].
  eexists. split; vm_compute; reflexivity.
Qed.

(** An update session of the menu with the custom date [2024-3-1], which
    the date prompt accepts, stores the timestamp [2024-3-1T10:00:00].
    With a library that does not read this text, the history of the menu
    and the progress chart of the dashboard then raise [ValueError], while
    the history table of the dashboard shows the row. *)
Lemma custom_date_breaks_history (fromisoformat : string -> bool) :
  fromisoformat custom_date_timestamp = false ->
  Slv2.update_skills_session new_store custom_date_timestamp example_inputs
  = Ok (store_with_custom_date, []) /\
  reachable store_with_custom_date /\
  Slv2.view_history fromisoformat store_with_custom_date = Raise ValueError /\
  Slv3.show_progress_chart fromisoformat store_with_custom_date = Raise ValueError /\
  Slv3.refresh_history_display store_with_custom_date
  = [ (custom_date_timestamp, "skill_update", 8, EmptyString) ].
Proof.
  intros H.
  assert (Hrun : Slv2.update_skills_session new_store custom_date_timestamp example_inputs
                 = Ok (store_with_custom_date, [])) by (vm_compute; reflexivity).
  split; [exact Hrun|]. split; [exact (reach_menu_update _ _ _ _ _ reach_new Hrun)|].
  split; [|split].
  - unfold Slv2.view_history. cbv zeta. rewrite print_rows.
    replace (firstn 10 (SessionSort.sort (sessions store_with_custom_date)))
      with [ {| rowid := 1; session_timestamp := custom_date_timestamp; total_gains := 8;
                session_type := "skill_update"; notes := None |} ]
      by (vm_compute; reflexivity).
    cbn [forallb session_timestamp]. now rewrite H.
  - unfold Slv3.show_progress_chart. cbv zeta.
    replace (SessionSortAsc.sort (sessions store_with_custom_date))
      with [ {| rowid := 1; session_timestamp := custom_date_timestamp; total_gains := 8;
                session_type := "skill_update"; notes := None |} ]
      by (vm_compute; reflexivity).
    cbn [foldM session_timestamp]. now rewrite H.
  - vm_compute. reflexivity.
Qed.

(** The shape of the clock's texts does not match the custom date as
    typed. *)
Lemma custom_date_is_not_of_the_clock_shape :
  isoformat_shape custom_date_timestamp = false /\
  isoformat_shape example_timestamp = true.
Proof. vm_compute. split; reflexivity. Qed.

(** The dashboard on a new store with the level 0 typed for the first
    skill: the proposal is refused with the decrease error and nothing
    changes.  With the level 12, more than 10 above the stored level 1, it
    is refused with the increase error, and with 5 it commits. *)
Lemma dashboard_update_examples :
  let g0 := {| Slv3.store := new_store;
               Slv3.update_entries := Slv3.setup_update_interface new_store |} in
  let typed n := set_var g0 "life_skills" "communication" (Int n) in
  Slv3.process_skill_updates (typed 0) (Some example_timestamp)
  = (Slv3.showerror (Slv3.CannotDecrease "communication"), typed 0) /\
  Slv3.process_skill_updates (typed 12) (Some example_timestamp)
  = (Slv3.showerror (Slv3.MaxIncrease "communication"), typed 12) /\
  fst (Slv3.process_skill_updates (typed 5) (Some example_timestamp))
  = Slv3.showinfo (Slv3.Success 1 4) /\
  current_skill_level
    (Slv3.store (snd (Slv3.process_skill_updates (typed 5) (Some example_timestamp))))
    "life_skills" "communication" = 5.
Proof. vm_compute. repeat split; reflexivity. Qed.

(** In exact arithmetic: a category with every skill at 100 has level 99,
    and the midpoint of the curve is level 50. *)
Lemma calculator_examples :
  sigmoid_level_calculation exact 1000 1000 = Ok 99 /\
  sigmoid_level_calculation exact 500 1000 = Ok 50 /\
  sigmoid_level_calculation exact 0 1000 = Ok 1 /\
  sigmoid_level_calculation exact 10 1000 = Ok 1.
Proof.
  split; [now apply sigmoid_level_exact_full|].
  split; [now apply (sigmoid_level_exact_half 500)|].
  split; [reflexivity | now apply sigmoid_level_exact_hundredth].
Qed.

(* ================================================================= *)
(** * Part II, continued: the history tables, the dashboard and sl.py *)
(* ================================================================= *)

(** ** Lists without repetition *)

Lemma nodup_strings_sound (l : list string) : nodup_strings l = true -> NoDup l.
Proof.
  induction l as [|x l IH]; cbn [nodup_strings]; [constructor|].
  intros H. apply andb_true_iff in H. destruct H as [Hx Hl].
  constructor; [|now apply IH].
  intros Hin. apply negb_true_iff in Hx.
  assert (existsb (String.eqb x) l = true) as E; [|congruence].
  apply existsb_exists. exists x. split; [exact Hin | apply String.eqb_refl].
Qed.

(** ** The invariant of the history tables *)

Lemma rows_of_app (sid : Z) (l1 l2 : list session_update_row) :
  rows_of sid (l1 ++ l2) = rows_of sid l1 ++ rows_of sid l2.
Proof. apply filter_app. Qed.

Lemma rows_of_other (sid : Z) (l : list session_update_row) :
  Forall (fun r => session_id r <> sid) l -> rows_of sid l = [].
Proof.
  induction 1 as [|r l Hr _ IH]; [reflexivity|].
  unfold rows_of in *. cbn [filter].
  destruct (Z.eqb_spec (session_id r) sid); [contradiction | exact IH].
Qed.

Lemma rows_of_same (sid : Z) (l : list session_update_row) :
  Forall (fun r => session_id r = sid) l -> rows_of sid l = l.
Proof.
  induction 1 as [|r l Hr _ IH]; [reflexivity|].
  unfold rows_of in *. cbn [filter]. rewrite Hr, Z.eqb_refl. now f_equal.
Qed.

Lemma session_ids_range (l : list session_row) (s : session_row) :
  map rowid l = map Z.of_nat (seq 1 (length l)) -> In s l ->
  1 <= rowid s <= Z.of_nat (length l).
Proof.
  intros E Hin. apply (in_map rowid) in Hin. rewrite E in Hin.
  apply in_map_iff in Hin. destruct Hin as (n & <- & Hn).
  apply in_seq in Hn. lia.
Qed.

(** A commit, whichever path it takes, keeps the ledger invariant. *)
Lemma ledger_ok_commit (db : database) (t : list skill_row) (ts type : string)
    (note : option string) (us : list update) :
  ledger_ok db -> Forall sound_update us ->
  session_kind_ok
    {| rowid := Z.of_nat (S (length (sessions db))); session_timestamp := ts;
       total_gains := total (map u_gain us); session_type := type; notes := note |}
    (map (row_of_update (Z.of_nat (S (length (sessions db))))) us) ->
  ledger_ok
    {| skills := t;
       sessions := sessions db ++
                   [ {| rowid := Z.of_nat (S (length (sessions db)));
                        session_timestamp := ts;
                        total_gains := total (map u_gain us);
                        session_type := type; notes := note |} ];
       session_updates :=
         session_updates db ++
         map (row_of_update (Z.of_nat (S (length (sessions db))))) us |}.
Proof.
  intros (Hids & Hrows & Htot & Hsum) Hus Hkind.
  unfold ledger_ok. cbn [sessions session_updates].
  rewrite length_app. cbn [length]. rewrite Nat.add_1_r.
  set (n := length (sessions db)) in *.
  split; [|split; [|split]].
  - rewrite map_app, seq_S, map_app, Hids. reflexivity.
  - apply Forall_app. split.
    + eapply Forall_impl; [|exact Hrows]. cbn beta. intros r (H1 & H2). split; [lia|exact H2].
    + apply Forall_map. eapply Forall_impl; [|exact Hus].
      intros u (Hg & Ho & Hn). cbn [row_of_update session_id gain new_level old_level].
      repeat split; lia.
  - apply Forall_app. split.
    + apply Forall_forall. intros s Hin.
      rewrite rows_of_app, (rows_of_other (rowid s) (map _ us)), app_nil_r.
      * rewrite Forall_forall in Htot. now apply Htot.
      * apply Forall_map. apply Forall_forall. intros u _.
        cbn [row_of_update session_id].
        pose proof (session_ids_range _ _ Hids Hin) as Hr. fold n in Hr. lia.
    + constructor; [|constructor]. cbn [rowid total_gains].
      rewrite rows_of_app, rows_of_other, rows_of_same.
      * cbn [app]. split; [|exact Hkind]. rewrite map_map. reflexivity.
      * apply Forall_map. apply Forall_forall. intros u _. reflexivity.
      * eapply Forall_impl; [|exact Hrows]. cbn beta. intros r (H1 & _). lia.
  - rewrite !map_app, !total_app, Hsum. cbn [map total_gains]. rewrite map_map.
    cbn [total fold_right]. rewrite Z.add_0_r. reflexivity.
Qed.

Lemma update_rows_kind (db : database) (sid : Z) (ts : string) (t : Z) (us : list update) :
  us <> [] -> Forall (valid_update db) us ->
  session_kind_ok
    {| rowid := sid; session_timestamp := ts; total_gains := t;
       session_type := "skill_update"; notes := None |}
    (map (row_of_update sid) us).
Proof.
  intros Hne Hv. left. cbn [session_type notes]. repeat split.
  - destruct us; [contradiction | discriminate].
  - apply Forall_map. eapply Forall_impl; [|exact Hv].
    intros u (_ & Hlt & H10 & _ & Hg). cbn [row_of_update gain]. lia.
Qed.

Lemma assessment_rows_kind (sid : Z) (ts : string) (t : Z) (note : option string)
    (us : list update) :
  Forall (fun u => u_old_level u = 1) us ->
  session_kind_ok
    {| rowid := sid; session_timestamp := ts; total_gains := t;
       session_type := "crystal_ball_assessment"; notes := note |}
    (map (row_of_update sid) us).
Proof.
  intros H. right. split; [reflexivity|]. apply Forall_map.
  eapply Forall_impl; [|exact H]. intros u Hu. exact Hu.
Qed.

Lemma total_sum_gains_assessment (assessment : list (string * list (string * Z))) :
  total (map (fun kv => sum_gains (snd kv))
             (map (fun kv => (fst kv,
                              map (fun item => (fst item,
                                                {| lc_old_level := 1; lc_new_level := snd item;
                                                   lc_gain := snd item - 1 |}))
                                  (snd kv)))
                  assessment))
  = total (map u_gain (assessment_updates assessment)).
Proof.
  induction assessment as [|kv l IH]; [reflexivity|].
  change (kv :: l) with ([kv] ++ l) at 2. rewrite assessment_updates_app, map_app, total_app.
  cbn [map total fold_right fst snd]. unfold total in IH. rewrite IH. f_equal.
  unfold assessment_updates. cbn [flat_map]. rewrite app_nil_r.
  unfold sum_gains. rewrite !map_map. reflexivity.
Qed.

Lemma prompt_assessment_reads (inputs rest : list field_input) (n : Z) :
  Slv2.prompt_assessment inputs = Ok (n, rest) ->
  1 <= n <= 100 /\ (n = 1 \/ In (Int n) inputs) /\ exists used, inputs = used ++ rest.
Proof.
  induction inputs as [|v inputs IH]; cbn [Slv2.prompt_assessment]; [discriminate|].
  assert (Hrec : Slv2.prompt_assessment inputs = Ok (n, rest) ->
                 1 <= n <= 100 /\ (n = 1 \/ In (Int n) (v :: inputs)) /\
                 exists used, v :: inputs = used ++ rest).
  { intros H. destruct (IH H) as (Hb & Hin & used & ->). split; [exact Hb|]. split.
    - destruct Hin as [->|Hin]; [now left | right; now right].
    - now exists (v :: used). }
  destruct v as [|level|]; [| |exact Hrec].
  - intros [= <- <-]. split; [lia|]. split; [now left | now exists [Blank]].
  - destruct ((level <? 1) || (100 <? level)) eqn:E; [exact Hrec|].
    intros [= <- <-]. apply orb_false_iff in E. destruct E as [E1 E2].
    apply Z.ltb_ge in E1, E2. split; [lia|]. split; [right; now left | now exists [Int level]].
Qed.

(** The menu's assessment: what its two loops hand to
    [save_crystal_ball_assessment]. *)
Lemma crystal_ball_assessment_loops (db db' : database) (now : string)
    (inputs rest : list field_input) :
  Slv2.crystal_ball_assessment db now inputs = Ok (db', rest) ->
  exists assessment,
    db' = Slv2.save_crystal_ball_assessment db assessment
            {| timestamp := now;
               updates :=
                 map (fun kv => (fst kv,
                                 map (fun item => (fst item,
                                                   {| lc_old_level := 1; lc_new_level := snd item;
                                                      lc_gain := snd item - 1 |}))
                                     (snd kv)))
                     assessment |} /\
    map (fun kv => (fst kv, map fst (snd kv))) assessment = attributes /\
    Forall (fun x => 1 <= snd x <= 100 /\ (snd x = 1 \/ In (Int (snd x)) inputs))
           (flat_entries assessment) /\
    exists used, inputs = used ++ rest.
Proof.
  unfold Slv2.crystal_ball_assessment.
  destruct (foldM _ attributes _) as [[[assessment sus] rest']|e] eqn:Ef; simpl; [|discriminate].
  intros [= <- <-]. exists assessment.
  pose (ch := fun item : string * Z =>
                (fst item, {| lc_old_level := 1; lc_new_level := snd item;
                              lc_gain := snd item - 1 |})).
  pose (P := fun (done : list (string * list string))
                 (acc : list (string * list (string * Z))
                        * list (string * list (string * level_change))
                        * list field_input) =>
               snd (fst acc) = map (fun kv => (fst kv, map ch (snd kv))) (fst (fst acc)) /\
               map (fun kv => (fst kv, map fst (snd kv))) (fst (fst acc)) = done /\
               Forall (fun x => 1 <= snd x <= 100 /\ (snd x = 1 \/ In (Int (snd x)) inputs))
                      (flat_entries (fst (fst acc))) /\
               exists used, inputs = used ++ snd acc).
  assert (HP : P attributes (assessment, sus, rest')).
  { eapply (foldM_invariant P); [| |exact Ef].
    - repeat split; try constructor. now exists [].
    - intros done kv post [[as0 su0] in0] [[as1 su1] in1] _ (H1 & H2 & H3 & used0 & H4).
      cbn [fst snd] in H1, H2, H3, H4.
      destruct (foldM _ (snd kv) _) as [[[levels changes] in2]|e] eqn:Eg; simpl; [|discriminate].
      intros [= <- <- <-].
      pose (Q := fun (done : list string)
                     (acc : list (string * Z) * list (string * level_change)
                            * list field_input) =>
                   snd (fst acc) = map ch (fst (fst acc)) /\
                   map fst (fst (fst acc)) = done /\
                   Forall (fun item => 1 <= snd item <= 100 /\
                                       (snd item = 1 \/ In (Int (snd item)) inputs))
                          (fst (fst acc)) /\
                   exists used, inputs = used ++ snd acc).
      assert (HQ : Q (snd kv) (levels, changes, in2)).
      { eapply (foldM_invariant Q); [| |exact Eg].
        - repeat split; try constructor. now exists used0.
        - intros done' skill post' [[lv0 ch0] i0] [[lv1 ch1] i1] _ (Q1 & Q2 & Q3 & used1 & Q4).
          cbn [fst snd] in Q1, Q2, Q3, Q4.
          destruct (Slv2.prompt_assessment i0) as [[level i2]|e] eqn:Ep; simpl; [|discriminate].
          intros [= <- <- <-].
          destruct (prompt_assessment_reads _ _ _ Ep) as (Hb & Hin & used2 & ->).
          unfold Q. cbn [fst snd]. split; [|split; [|split]].
          + rewrite map_app, Q1. reflexivity.
          + rewrite map_app, Q2. reflexivity.
          + apply Forall_app. split; [exact Q3|]. constructor; [|constructor].
            cbn [snd]. split; [exact Hb|].
            destruct Hin as [->|Hin]; [now left|right].
            rewrite Q4. apply in_or_app. right. exact Hin.
          + exists (used1 ++ used2). rewrite Q4. now rewrite app_assoc. }
      destruct HQ as (Q1 & Q2 & Q3 & used1 & Q4). cbn [fst snd] in Q1, Q2, Q3, Q4.
      unfold P. cbn [fst snd]. split; [|split; [|split]].
      + rewrite map_app, H1, Q1. reflexivity.
      + rewrite map_app, H2. cbn [map fst snd]. rewrite Q2. now destruct kv.
      + unfold flat_entries. rewrite flat_map_app. apply Forall_app. split; [exact H3|].
        cbn [flat_map fst snd]. rewrite app_nil_r. apply Forall_map.
        eapply Forall_impl; [|exact Q3]. intros item H. exact H.
      + now exists used1. }
  destruct HP as (H1 & H2 & H3 & H4). cbn [fst snd] in H1, H2, H3, H4.
  subst sus. repeat split; assumption.
Qed.

Lemma assessment_all_keys {A : Type} (assessment : list (string * list (string * A))) :
  map (fun kv => (fst kv, map fst (snd kv))) assessment = attributes ->
  map fst (flat_entries assessment) = taxonomy_keys.
Proof.
  intros H.
  assert (G : map fst (flat_entries assessment)
              = flat_map (fun kv => map (fun s => (fst kv, s)) (snd kv))
                         (map (fun kv => (fst kv, map fst (snd kv))) assessment)).
  { clear H. induction assessment as [|kv l IH]; [reflexivity|].
    unfold flat_entries in *. cbn [flat_map map fst snd]. rewrite map_app, IH. f_equal.
    rewrite !map_map. reflexivity. }
  rewrite G, H. reflexivity.
Qed.

Lemma ledger_ok_init (db : database) : ledger_ok db -> ledger_ok (init_database db).
Proof.
  unfold init_database. destruct (Z.of_nat (length (skills db)) =? 0); intros H; exact H.
Qed.

Lemma valid_update_sound (db : database) (u : update) :
  store_ok db -> valid_update db u -> sound_update u.
Proof.
  intros Hok (Hold & Hlt & _ & Hle & Hg).
  pose proof (store_ok_level db (u_attribute u) (u_skill u) Hok).
  unfold sound_update. lia.
Qed.

Lemma assessed_update_sound (e : string * string * field_input) :
  sound_update (assessed_update e).
Proof.
  unfold sound_update, assessed_update. cbn [u_gain u_new_level u_old_level].
  pose proof (assessed_level_bounds (snd e)). lia.
Qed.

Lemma dashboard_updates_sound (g : Slv3.gui) (us : list update) (t : Z) :
  store_ok (Slv3.store g) -> entries_synced g ->
  Slv3.collect_updates (Slv3.update_entries g) = inr (us, t) ->
  t = total (map u_gain us) /\ Forall (valid_update (Slv3.store g)) us.
Proof.
  intros Hok Hs Ec.
  pose proof (dashboard_collect_updates_spec (Slv3.update_entries g)) as Hspec.
  destruct (first_error (flat_entries (Slv3.update_entries g))) as [err|].
  - rewrite Ec in Hspec. discriminate.
  - destruct Hspec as (us' & E & Hf). rewrite Ec in E. injection E as -> ->.
    split; [reflexivity|]. eapply Forall_impl; [|exact Hf].
    intros u (e & Hin & _ & Hold & Hlt & H10 & Hle & Hg).
    pose proof (synced_levels g _ _ _ Hs Hin) as Hcur.
    unfold valid_update. rewrite <- Hcur. repeat split; assumption.
Qed.

Lemma reachable_ledger :
  (forall db, reachable db -> ledger_ok db) /\
  (forall g, gui_reachable g -> ledger_ok (Slv3.store g)).
Proof.
  apply reachable_gui_ind.
  - apply ledger_ok_init. repeat split; constructor.
  - intros db _ IH. now apply ledger_ok_init.
  - intros db now inputs db' rest _ IH Hrun.
    apply crystal_ball_assessment_loops in Hrun.
    destruct Hrun as (assessment & -> & _ & Hb & _).
    rewrite save_crystal_ball_assessment_tables. cbn [timestamp updates].
    rewrite total_sum_gains_assessment. apply ledger_ok_commit; [exact IH| |].
    + rewrite assessment_updates_flat. apply Forall_map.
      eapply Forall_impl; [|exact Hb]. intros x (H & _).
      unfold sound_update. cbn [u_gain u_new_level u_old_level]. lia.
    + apply assessment_rows_kind. rewrite assessment_updates_flat. apply Forall_map.
      apply Forall_forall. intros x _. reflexivity.
  - intros db ts inputs db' rest Hr IH. unfold Slv2.update_skills_session.
    destruct (Slv2.collect_updates db inputs) as [[[us t] rest']|e] eqn:Ec; simpl; [|discriminate].
    destruct (collect_updates_spec _ _ _ _ _ Ec) as (-> & Hv & _).
    destruct us as [|u us]; intros [= <- <-]; [exact IH|].
    rewrite save_update_session_tables.
    apply (ledger_ok_commit db _ ts "skill_update" None (u :: us)); [exact IH| |].
    + eapply Forall_impl; [|exact Hv]. intros u'. apply valid_update_sound.
      now apply reachable_store_ok.
    + now apply (update_rows_kind db).
  - intros g _ IH. exact IH.
  - intros db _ IH. exact IH.
  - intros g a s v _ IH. exact IH.
  - intros g _ IH. exact IH.
  - intros g ts Hg IH.
    destruct (process_skill_updates_cases g ts)
      as [[m ->] | (m & us & t & timestamp & Ec & _ & Hne & _ & ->)]; [exact IH|].
    cbn [snd Slv3.refresh_all_data Slv3.store].
    assert (Hok : store_ok (Slv3.store g)) by (apply reachable_store_ok; now constructor).
    destruct (dashboard_updates_sound g us t Hok (gui_reachable_synced g Hg) Ec) as (-> & Hv).
    rewrite save_update_session_tables. apply ledger_ok_commit; [exact IH| |].
    + eapply Forall_impl; [|exact Hv]. intros u'. now apply valid_update_sound.
    + now apply (update_rows_kind (Slv3.store g)).
  - intros g now entries _ IH. cbn [Slv3.refresh_all_data Slv3.store].
    rewrite process_crystal_ball_assessment_tables. apply ledger_ok_commit; [exact IH| |].
    + apply Forall_map. apply Forall_forall. intros x _. apply assessed_update_sound.
    + apply assessment_rows_kind. apply Forall_map. apply Forall_forall.
      intros x _. reflexivity.
Qed.

Lemma reachable_ledger_ok (db : database) : reachable db -> ledger_ok db.
Proof. apply reachable_ledger. Qed.

Lemma total_nonneg (l : list Z) : Forall (fun x => 0 <= x) l -> 0 <= total l.
Proof.
  induction 1 as [|x l Hx _ IH]; cbn [total fold_right]; [lia|].
  unfold total in IH. lia.
Qed.

Lemma total_pos (l : list Z) : l <> [] -> Forall (fun x => 0 < x) l -> 0 < total l.
Proof.
  intros Hne H. destruct H as [|x l Hx Hl]; [contradiction|].
  cbn [total fold_right].
  assert (0 <= total l) by (apply total_nonneg; eapply Forall_impl; [|exact Hl]; cbn; lia).
  unfold total in *. lia.
Qed.

Lemma store_after_example_reachable : reachable store_after_example.
Proof.
  apply (reach_menu_update new_store example_timestamp example_inputs store_after_example []).
  - exact reach_new.
  - vm_compute. reflexivity.
Qed.

(** X1.  In every reachable store the two history tables agree: no two
    sessions have the same key; every row of [session_updates] carries
    the key of a session of [sessions]; the total gain of a session is the
    sum of the gains of the rows recorded for it; and the totals of all
    sessions add up to the gains of all rows. *)
Theorem history_tables_consistent (db : database) :
  reachable db ->
  NoDup (map rowid (sessions db)) /\
  (forall r, In r (session_updates db) ->
     exists s, In s (sessions db) /\ rowid s = session_id r) /\
  (forall s, In s (sessions db) ->
     total_gains s = total (map gain (rows_of (rowid s) (session_updates db)))) /\
  total (map total_gains (sessions db)) = total (map gain (session_updates db)).
Proof.
  intros Hr. destruct (reachable_ledger_ok db Hr) as (Hids & Hrows & Htot & Hsum).
  split; [|split; [|split]].
  - rewrite Hids. apply Finite.Injective_map_NoDup; [|apply seq_NoDup].
    intros x y. apply Nat2Z.inj.
  - intros r Hin. rewrite Forall_forall in Hrows. destruct (Hrows r Hin) as (Hid & _).
    assert (Hm : In (session_id r) (map rowid (sessions db))).
    { rewrite Hids. apply in_map_iff. exists (Z.to_nat (session_id r)).
      split; [lia|]. apply in_seq. lia. }
    apply in_map_iff in Hm. destruct Hm as (s & Hs & Hin'). now exists s.
  - intros s Hin. rewrite Forall_forall in Htot. now apply Htot.
  - exact Hsum.
Qed.

Lemma history_tables_consistent_witness :
  reachable store_after_example /\
  NoDup (map rowid (sessions store_after_example)) /\
  (forall r, In r (session_updates store_after_example) ->
     exists s, In s (sessions store_after_example) /\ rowid s = session_id r) /\
  (forall s, In s (sessions store_after_example) ->
     total_gains s
     = total (map gain (rows_of (rowid s) (session_updates store_after_example)))) /\
  total (map total_gains (sessions store_after_example))
  = total (map gain (session_updates store_after_example)).
Proof.
  split; [exact store_after_example_reachable|].
  exact (history_tables_consistent store_after_example store_after_example_reachable).
Defined.

(** X2.  In every reachable store a recorded change has the difference of
    its two levels as its gain and leads from a level of at least 1 to one
    that is no lower and at most 100.  Every session is of one of two
    kinds: an update session has no note, a positive total gain and rows
    that gain 1 to 10 levels each; an assessment has a total gain of at
    least 0 and rows whose old level is 1. *)
Theorem recorded_changes_shape (db : database) :
  reachable db ->
  (forall r, In r (session_updates db) ->
     gain r = new_level r - old_level r /\
     1 <= old_level r <= new_level r /\ new_level r <= 100) /\
  (forall s, In s (sessions db) ->
     (session_type s = "skill_update" /\ notes s = None /\ 0 < total_gains s /\
      forall r, In r (session_updates db) -> session_id r = rowid s -> 0 < gain r <= 10) \/
     (session_type s = "crystal_ball_assessment" /\ 0 <= total_gains s /\
      forall r, In r (session_updates db) -> session_id r = rowid s -> old_level r = 1)).
Proof.
  intros Hr. destruct (reachable_ledger_ok db Hr) as (_ & Hrows & Htot & _).
  rewrite Forall_forall in Hrows, Htot. split.
  - intros r Hin. destruct (Hrows r Hin) as (_ & H). exact H.
  - intros s Hin. destruct (Htot s Hin) as (Ht & [(Hty & Hnote & Hne & Hg) | (Hty & Hold)]).
    + left. split; [exact Hty|]. split; [exact Hnote|]. split.
      * rewrite Ht. apply total_pos.
        -- intros E. apply map_eq_nil in E. contradiction.
        -- apply Forall_map. eapply Forall_impl; [|exact Hg]. cbn beta. lia.
      * intros r Hin' Hid. rewrite Forall_forall in Hg. apply Hg.
        apply filter_In. split; [exact Hin'|]. now apply Z.eqb_eq.
    + right. split; [exact Hty|]. split.
      * rewrite Ht. apply total_nonneg. apply Forall_map. apply Forall_forall.
        intros r Hin'. apply filter_In in Hin'. destruct Hin' as (Hin' & _).
        destruct (Hrows r Hin') as (_ & Hg & Hb & _). lia.
      * intros r Hin' Hid. rewrite Forall_forall in Hold. apply Hold.
        apply filter_In. split; [exact Hin'|]. now apply Z.eqb_eq.
Qed.

Lemma recorded_changes_shape_witness :
  reachable store_after_example /\
  (forall r, In r (session_updates store_after_example) ->
     gain r = new_level r - old_level r /\
     1 <= old_level r <= new_level r /\ new_level r <= 100) /\
  (forall s, In s (sessions store_after_example) ->
     (session_type s = "skill_update" /\ notes s = None /\ 0 < total_gains s /\
      forall r, In r (session_updates store_after_example) ->
                session_id r = rowid s -> 0 < gain r <= 10) \/
     (session_type s = "crystal_ball_assessment" /\ 0 <= total_gains s /\
      forall r, In r (session_updates store_after_example) ->
                session_id r = rowid s -> old_level r = 1)).
Proof.
  split; [exact store_after_example_reachable|].
  exact (recorded_changes_shape store_after_example store_after_example_reachable).
Defined.

(* ------------------------------------------------------------------ *)
(** ** The lines read by the sessions of the text menu *)

Lemma prompt_level_reads (current_level : Z) (inputs : list field_input) :
  match Slv2.prompt_level current_level inputs with
  | Ok (_, rest) => (length rest < length inputs)%nat
  | Raise e => e = EOFError
  end.
Proof.
  induction inputs as [|v inputs IH]; cbn [Slv2.prompt_level]; [reflexivity|].
  assert (Hrec : match Slv2.prompt_level current_level inputs with
                 | Ok (_, rest) => (length rest < length (v :: inputs))%nat
                 | Raise e => e = EOFError
                 end).
  { destruct (Slv2.prompt_level current_level inputs) as [[n rest]|e]; [|exact IH].
    cbn [length]. lia. }
  destruct v as [|n|]; [cbn [length]; lia| |exact Hrec].
  destruct (n <? current_level); [exact Hrec|].
  destruct (current_level + 10 <? n); [exact Hrec|].
  destruct (100 <? n); [exact Hrec|]. cbn [length]. lia.
Qed.

Lemma prompt_assessment_reads_line (inputs : list field_input) :
  match Slv2.prompt_assessment inputs with
  | Ok (_, rest) => (length rest < length inputs)%nat
  | Raise e => e = EOFError
  end.
Proof.
  induction inputs as [|v inputs IH]; cbn [Slv2.prompt_assessment]; [reflexivity|].
  assert (Hrec : match Slv2.prompt_assessment inputs with
                 | Ok (_, rest) => (length rest < length (v :: inputs))%nat
                 | Raise e => e = EOFError
                 end).
  { destruct (Slv2.prompt_assessment inputs) as [[n rest]|e]; [|exact IH].
    cbn [length]. lia. }
  destruct v as [|n|]; [cbn [length]; lia| |exact Hrec].
  destruct ((n <? 1) || (100 <? n)); [exact Hrec|]. cbn [length]. lia.
Qed.

(** A loop that reads at least one line per element. *)
Lemma foldM_reads {A B : Type} (lines : A -> list field_input)
    (f : A -> B -> result A) (l : list B) (a : A) :
  (forall a b, match f a b with
               | Ok a' => (length (lines a') < length (lines a))%nat
               | Raise e => e = EOFError
               end) ->
  match foldM f l a with
  | Ok a' => (length (lines a') + length l <= length (lines a))%nat
  | Raise e => e = EOFError
  end.
Proof.
  intros Hf. revert a. induction l as [|b l IH]; intros a; cbn [foldM length]; [lia|].
  specialize (Hf a b). destruct (f a b) as [a1|e]; cbn [bind]; [|exact Hf].
  specialize (IH a1). destruct (foldM f l a1) as [a2|e]; [lia|exact IH].
Qed.

Lemma collect_updates_reads (db : database) (inputs : list field_input) :
  match Slv2.collect_updates db inputs with
  | Ok (_, _, rest) => (length rest + 50 <= length inputs)%nat
  | Raise e => e = EOFError
  end.
Proof.
  rewrite collect_updates_flat.
  assert (Hstep : forall (acc : list update * Z * list field_input) (k : string * string),
             match Slv2.update_one_skill db (fst k) (snd k) acc with
             | Ok acc' => (length (snd acc') < length (snd acc))%nat
             | Raise e => e = EOFError
             end).
  { intros [[us0 t0] in0] k. unfold Slv2.update_one_skill.
    pose proof (prompt_level_reads (current_skill_level db (fst k) (snd k)) in0) as Hp.
    destruct (Slv2.prompt_level _ in0) as [[n in1]|e]; cbn [bind]; [|exact Hp].
    destruct (_ <? n); exact Hp. }
  pose proof (foldM_reads (fun acc : list update * Z * list field_input => snd acc)
                _ taxonomy_keys ([], 0, inputs) Hstep) as H.
  destruct (foldM _ taxonomy_keys _) as [[[us t] rest]|e]; exact H.
Qed.

Lemma assessment_loops_read (inputs : list field_input) :
  match
    foldM (fun acc kv =>
             let '(initial_assessment, session_updates, inputs) := acc in
             '(levels, changes, inputs') <-
               foldM (fun acc skill =>
                        let '(levels, changes, inputs) := acc in
                        '(level, inputs') <- Slv2.prompt_assessment inputs ;;
                        Ok (levels ++ [(skill, level)],
                            changes ++ [(skill, {| lc_old_level := 1; lc_new_level := level;
                                                   lc_gain := level - 1 |})],
                            inputs'))
                     (snd kv) ([], [], inputs) ;;
             Ok (initial_assessment ++ [(fst kv, levels)],
                 session_updates ++ [(fst kv, changes)], inputs'))
          attributes ([], [], inputs)
  with
  | Ok (_, _, rest) => (length rest + 50 <= length inputs)%nat
  | Raise e => e = EOFError
  end.
Proof.
  set (inner := fun (acc : list (string * Z) * list (string * level_change) * list field_input)
                    (skill : string) =>
                  let '(levels, changes, inputs) := acc in
                  '(level, inputs') <- Slv2.prompt_assessment inputs ;;
                  Ok (levels ++ [(skill, level)],
                      changes ++ [(skill, {| lc_old_level := 1; lc_new_level := level;
                                             lc_gain := level - 1 |})],
                      inputs')).
  assert (Hinner : forall acc skill,
             match inner acc skill with
             | Ok acc' => (length (snd acc') < length (snd acc))%nat
             | Raise e => e = EOFError
             end).
  { intros [[lv ch] in0] skill. unfold inner.
    pose proof (prompt_assessment_reads_line in0) as Hp.
    destruct (Slv2.prompt_assessment in0) as [[n in1]|e]; exact Hp. }
  assert (Hrow : forall skills_ in0,
             match foldM inner skills_ ([], [], in0) with
             | Ok acc' => (length (snd acc') + length skills_ <= length in0)%nat
             | Raise e => e = EOFError
             end).
  { intros skills_ in0.
    exact (foldM_reads (fun acc => snd acc) inner skills_ ([], [], in0) Hinner). }
  assert (G : forall attrs (acc : list (string * list (string * Z))
                                 * list (string * list (string * level_change))
                                 * list field_input),
             match
               foldM (fun acc (kv : string * list string) =>
                        let '(initial_assessment, session_updates, inputs) := acc in
                        '(levels, changes, inputs') <-
                          foldM inner (snd kv) ([], [], inputs) ;;
                        Ok (initial_assessment ++ [(fst kv, levels)],
                            session_updates ++ [(fst kv, changes)], inputs'))
                     attrs acc
             with
             | Ok acc' => (length (snd acc') + length (flat_map snd attrs)
                           <= length (snd acc))%nat
             | Raise e => e = EOFError
             end).
  { induction attrs as [|kv attrs IH]; intros [[as0 su0] in0]; cbn [foldM flat_map length snd];
      [lia|].
    specialize (Hrow (snd kv) in0).
    destruct (foldM inner (snd kv) ([], [], in0)) as [[[lv ch] in1]|e]; cbn [bind snd] in *;
      [|exact Hrow].
    specialize (IH (as0 ++ [(fst kv, lv)], su0 ++ [(fst kv, ch)], in1)).
    destruct (foldM _ attrs _) as [[[as2 su2] in2]|e]; cbn [snd] in *; [|exact IH].
    rewrite length_app. lia. }
  specialize (G attributes ([], [], inputs)).
  destruct (foldM _ attributes _) as [[[as2 su2] in2]|e]; exact G.
Qed.

(** X3.  A session of the text menu, an update session or an assessment,
    reads at least one line for each of the 50 skills: when it returns, at
    least 50 of the pending lines are used up; the only exception it
    raises is [EOFError]; and with fewer than 50 lines pending it raises
    [EOFError] and returns no store. *)
Theorem menu_sessions_read_fifty_lines (db : database) (ts : string)
    (inputs : list field_input) :
  match Slv2.update_skills_session db ts inputs with
  | Ok (_, rest) => (length rest + 50 <= length inputs)%nat
  | Raise e => e = EOFError
  end /\
  match Slv2.crystal_ball_assessment db ts inputs with
  | Ok (_, rest) => (length rest + 50 <= length inputs)%nat
  | Raise e => e = EOFError
  end /\
  ((length inputs < 50)%nat ->
   Slv2.update_skills_session db ts inputs = Raise EOFError /\
   Slv2.crystal_ball_assessment db ts inputs = Raise EOFError).
Proof.
  assert (Hu : match Slv2.update_skills_session db ts inputs with
               | Ok (_, rest) => (length rest + 50 <= length inputs)%nat
               | Raise e => e = EOFError
               end).
  { unfold Slv2.update_skills_session.
    pose proof (collect_updates_reads db inputs) as H.
    destruct (Slv2.collect_updates db inputs) as [[[us t] rest]|e]; cbn [bind]; [|exact H].
    destruct us; exact H. }
  assert (Ha : match Slv2.crystal_ball_assessment db ts inputs with
               | Ok (_, rest) => (length rest + 50 <= length inputs)%nat
               | Raise e => e = EOFError
               end).
  { unfold Slv2.crystal_ball_assessment.
    pose proof (assessment_loops_read inputs) as H.
    destruct (foldM _ attributes _) as [[[as2 su2] in2]|e]; cbn [bind]; exact H. }
  split; [exact Hu|]. split; [exact Ha|].
  intros Hlen. split.
  - destruct (Slv2.update_skills_session db ts inputs) as [[db' rest]|e]; [lia|].
    now subst e.
  - destruct (Slv2.crystal_ball_assessment db ts inputs) as [[db' rest]|e]; [lia|].
    now subst e.
Qed.

Lemma menu_sessions_read_fifty_lines_witness :
  (length (repeat Blank 49) < 50)%nat /\
  Slv2.update_skills_session new_store example_timestamp (repeat Blank 49) = Raise EOFError /\
  Slv2.crystal_ball_assessment new_store example_timestamp (repeat Blank 49) = Raise EOFError.
Proof.
  assert (H : (length (repeat Blank 49) < 50)%nat) by (vm_compute; lia).
  split; [exact H|].
  destruct (menu_sessions_read_fifty_lines new_store example_timestamp (repeat Blank 49))
    as (_ & _ & Heof).
  exact (Heof H).
Defined.

(* ------------------------------------------------------------------ *)
(** ** Rows of the skills table and lookups *)

Lemma find_unique {A B : Type} (f : A -> B) (p : A -> bool) (l : list A) (x : A) :
  NoDup (map f l) -> In x l -> (forall y, p y = true <-> f y = f x) -> find p l = Some x.
Proof.
  intros Hnd Hin Hp. induction l as [|y l IH]; [contradiction|].
  cbn [map] in Hnd. inversion Hnd as [|? ? Hnotin Hnd']; subst.
  cbn [find]. destruct (p y) eqn:E.
  - apply Hp in E. destruct Hin as [->|Hin]; [reflexivity|].
    elim Hnotin. rewrite E. now apply in_map.
  - destruct Hin as [->|Hin]; [|now apply IH].
    assert (p x = true) as E' by now apply Hp. congruence.
Qed.

Lemma lookup_level_row (t : list skill_row) (r : skill_row) :
  NoDup (map key_of t) -> In r t ->
  lookup_level t (attribute r) (skill_name r) = Some (current_level r).
Proof.
  intros Hnd Hin. unfold lookup_level.
  rewrite (find_unique key_of _ (rev t) r); [reflexivity| | |].
  - rewrite map_rev. now apply NoDup_rev.
  - now apply in_rev in Hin.
  - intros y. apply same_skill_true.
Qed.

Lemma rows_ext (t1 t2 : list skill_row) :
  map key_of t1 = map key_of t2 -> map current_level t1 = map current_level t2 -> t1 = t2.
Proof.
  revert t2. induction t1 as [|r1 t1 IH]; intros [|r2 t2]; cbn [map]; try discriminate;
    [reflexivity|].
  intros Hk Hl. injection Hk as Ha Hs Hks. injection Hl as Hl Hls.
  f_equal; [|now apply IH].
  destruct r1 as [a1 s1 l1], r2 as [a2 s2 l2].
  cbn [attribute skill_name current_level] in Ha, Hs, Hl. now subst.
Qed.

Lemma levels_by_lookup (t : list skill_row) :
  NoDup (map key_of t) ->
  map current_level t
  = map (fun k => match lookup_level t (fst k) (snd k) with Some l => l | None => 1 end)
        (map key_of t).
Proof.
  intros Hnd. rewrite map_map. apply map_ext_in. intros r Hin.
  cbn [key_of fst snd]. now rewrite lookup_level_row.
Qed.

(** Writing one update per row gives the table of the new levels. *)
Lemma write_levels_all (us : list update) (t : list skill_row) :
  NoDup (map update_key us) -> map key_of t = map update_key us ->
  write_levels us t
  = map (fun u => {| attribute := u_attribute u; skill_name := u_skill u;
                     current_level := u_new_level u |}) us.
Proof.
  intros Hnd Hk. apply rows_ext.
  - rewrite write_levels_keys, Hk, map_map. reflexivity.
  - rewrite levels_by_lookup by (rewrite write_levels_keys, Hk; exact Hnd).
    rewrite write_levels_keys, Hk, !map_map. apply map_ext_in. intros u Hu.
    cbn [update_key fst snd current_level].
    rewrite (written_level us t u Hnd Hu); [reflexivity|].
    apply lookup_level_in_keys. rewrite Hk.
    change (u_attribute u, u_skill u) with (update_key u). now apply in_map.
Qed.

Lemma total_minus_one {A : Type} (f : A -> Z) (l : list A) :
  total (map (fun x => f x - 1) l) = total (map f l) - Z.of_nat (length l).
Proof.
  induction l as [|x l IH]; [reflexivity|].
  cbn [map total fold_right length]. unfold total in IH. rewrite IH. lia.
Qed.

(* ------------------------------------------------------------------ *)
(** ** The assessment and the blank session of the text menu *)

(** X4.  The assessment of the text menu, from a reachable store,
    overwrites all 50 levels: the skills table afterwards holds, in
    taxonomy order, the assessed levels, each within 1..100 and either 1
    or a number that was typed, whatever was stored before.  One session
    is appended; its total gain is the sum of the assessed levels minus
    50, and it has one row per skill, from old level 1. *)
Theorem menu_assessment_overwrites_all (db db' : database) (now : string)
    (inputs rest : list field_input) :
  reachable db ->
  Slv2.crystal_ball_assessment db now inputs = Ok (db', rest) ->
  exists (entries : list (string * string * Z)) (s : session_row),
    map fst entries = taxonomy_keys /\
    Forall (fun x => 1 <= snd x <= 100 /\ (snd x = 1 \/ In (Int (snd x)) inputs)) entries /\
    skills db'
    = map (fun x => {| attribute := fst (fst x); skill_name := snd (fst x);
                       current_level := snd x |}) entries /\
    sessions db' = sessions db ++ [s] /\
    session_timestamp s = now /\
    total_gains s = total (map snd entries) - 50 /\
    session_updates db'
    = session_updates db ++
      map (fun x => {| session_id := rowid s; su_attribute := fst (fst x);
                       su_skill_name := snd (fst x); old_level := 1;
                       new_level := snd x; gain := snd x - 1 |}) entries.
Proof.
  intros Hr Hrun. destruct (reachable_store_ok db Hr) as (Hkeys & _).
  apply crystal_ball_assessment_loops in Hrun.
  destruct Hrun as (assessment & -> & Hshape & Hb & _).
  pose proof (assessment_all_keys assessment Hshape) as Hk.
  rewrite save_crystal_ball_assessment_tables.
  cbn [skills sessions session_updates timestamp updates].
  rewrite total_sum_gains_assessment, assessment_updates_flat.
  exists (flat_entries assessment). eexists.
  split; [exact Hk|]. split; [exact Hb|]. split; [|split; [reflexivity|split; [reflexivity|]]].
  - rewrite write_levels_all.
    + rewrite map_map. reflexivity.
    + rewrite map_map. cbn [update_key u_attribute u_skill].
      rewrite (map_ext _ fst) by (intros [[? ?] ?]; reflexivity).
      rewrite Hk. exact taxonomy_keys_NoDup.
    + rewrite map_map. cbn [update_key u_attribute u_skill].
      rewrite (map_ext _ fst) by (intros [[? ?] ?]; reflexivity).
      now rewrite Hk.
  - split.
    + cbn [total_gains]. rewrite map_map. cbn [u_gain].
      rewrite total_minus_one. f_equal.
      rewrite <- (length_map fst), Hk. reflexivity.
    + cbn [rowid]. rewrite map_map. reflexivity.
Qed.

Lemma menu_assessment_overwrites_all_witness :
  reachable new_store /\
  Slv2.crystal_ball_assessment new_store example_timestamp assessment_inputs
  = Ok (store_after_assessment, []) /\
  exists (entries : list (string * string * Z)) (s : session_row),
    map fst entries = taxonomy_keys /\
    Forall (fun x => 1 <= snd x <= 100 /\ (snd x = 1 \/ In (Int (snd x)) assessment_inputs))
           entries /\
    skills store_after_assessment
    = map (fun x => {| attribute := fst (fst x); skill_name := snd (fst x);
                       current_level := snd x |}) entries /\
    sessions store_after_assessment = sessions new_store ++ [s] /\
    session_timestamp s = example_timestamp /\
    total_gains s = total (map snd entries) - 50 /\
    session_updates store_after_assessment
    = session_updates new_store ++
      map (fun x => {| session_id := rowid s; su_attribute := fst (fst x);
                       su_skill_name := snd (fst x); old_level := 1;
                       new_level := snd x; gain := snd x - 1 |}) entries.
Proof.
  assert (Hrun : Slv2.crystal_ball_assessment new_store example_timestamp assessment_inputs
                 = Ok (store_after_assessment, [])) by (vm_compute; reflexivity).
  split; [exact reach_new|]. split; [exact Hrun|].
  exact (menu_assessment_overwrites_all new_store store_after_assessment example_timestamp
           assessment_inputs [] reach_new Hrun).
Defined.

(** X5.  An update session of the text menu whose 50 prompts are all
    answered with an empty line returns the store as it was, whatever the
    store holds, and leaves the lines that follow: no session is
    recorded. *)
Theorem blank_update_session_writes_nothing (db : database) (ts : string)
    (rest : list field_input) :
  Slv2.update_skills_session db ts (repeat Blank 50 ++ rest) = Ok (db, rest).
Proof.
  unfold Slv2.update_skills_session. rewrite collect_updates_flat.
  assert (G : forall keys us t,
             foldM (fun acc k => Slv2.update_one_skill db (fst k) (snd k) acc) keys
                   (us, t, repeat Blank (length keys) ++ rest)
             = Ok (us, t, rest)).
  { induction keys as [|k keys IH]; intros us t; [reflexivity|].
    cbn [foldM length repeat app]. unfold Slv2.update_one_skill at 1.
    cbn [Slv2.prompt_level bind]. rewrite Z.ltb_irrefl. apply IH. }
  change 50%nat with (length taxonomy_keys). rewrite G. reflexivity.
Qed.

(* ------------------------------------------------------------------ *)
(** ** The update tab of the dashboard, in closed form *)

Lemma check_entries_closed (l : list (string * string * Slv3.entry_data))
    (us : list update) (t : Z) :
  first_error l = None ->
  Slv3.fold_until
    (fun acc x => Slv3.check_entry (fst (fst x)) (snd (fst x)) (snd x) acc) l (us, t)
  = inr (us ++ flat_map entry_update l, t + total (map u_gain (flat_map entry_update l))).
Proof.
  revert us t. induction l as [|x l IH]; intros us t; cbn [first_error].
  - intros _. cbn [Slv3.fold_until flat_map map total fold_right].
    now rewrite app_nil_r, Z.add_0_r.
  - destruct (entry_error (snd (fst x)) (snd x)) as [err|] eqn:Ee; [discriminate|].
    intros Hl. cbn [Slv3.fold_until flat_map].
    unfold entry_error in Ee. unfold Slv3.check_entry, entry_update.
    destruct (Slv3.var (snd x)) as [|n|]; [| |discriminate].
    + rewrite IH by exact Hl. reflexivity.
    + destruct (n <? Slv3.current (snd x)); [discriminate|].
      destruct (Slv3.current (snd x) + 10 <? n); [discriminate|].
      destruct (100 <? n); [discriminate|].
      destruct (Slv3.current (snd x) <? n).
      * rewrite IH by exact Hl. rewrite <- app_assoc.
        cbn [app map total fold_right u_gain]. f_equal. f_equal. unfold total, entry_update. lia.
      * rewrite IH by exact Hl. reflexivity.
Qed.

Lemma dashboard_collect_updates_closed
    (entries : list (string * list (string * Slv3.entry_data))) :
  first_error (flat_entries entries) = None ->
  Slv3.collect_updates entries
  = inr (flat_map entry_update (flat_entries entries),
         total (map u_gain (flat_map entry_update (flat_entries entries)))).
Proof.
  intros H. rewrite dashboard_collect_updates_flat, check_entries_closed by exact H.
  reflexivity.
Qed.

(** X6.  The outcome of [process_skill_updates] in closed form.  If an
    entry has an error, the message is the error of the first such entry
    and nothing changes.  Otherwise, if no entry holds a number above the
    level it shows, the message is "No changes to save" and nothing
    changes.  Otherwise, if the date does not parse, the message is the
    date error and nothing changes.  Otherwise the message is the success
    with the count and the total gain of the entries above their shown
    level, exactly these updates are committed, and the entries are
    cleared and show the stored levels. *)
Theorem process_skill_updates_outcome (g : Slv3.gui) (ts : option string) :
  Slv3.process_skill_updates g ts
  = match first_error (flat_entries (Slv3.update_entries g)) with
    | Some err => (Slv3.showerror err, g)
    | None =>
        match flat_map entry_update (flat_entries (Slv3.update_entries g)), ts with
        | [], _ => (Slv3.showinfo Slv3.NoUpdates, g)
        | _ :: _, None => (Slv3.showerror Slv3.InvalidDateFormat, g)
        | _ :: _, Some timestamp =>
            (Slv3.showinfo
               (Slv3.Success
                  (length (flat_map entry_update (flat_entries (Slv3.update_entries g))))
                  (total (map u_gain
                            (flat_map entry_update (flat_entries (Slv3.update_entries g)))))),
             Slv3.refresh_all_data
               {| Slv3.store :=
                    save_update_session (Slv3.store g) timestamp
                      (flat_map entry_update (flat_entries (Slv3.update_entries g)))
                      (total (map u_gain
                                (flat_map entry_update
                                   (flat_entries (Slv3.update_entries g)))));
                  Slv3.update_entries := Slv3.clear_entries (Slv3.update_entries g) |})
        end
    end.
Proof.
  unfold Slv3.process_skill_updates.
  pose proof (dashboard_collect_updates_spec (Slv3.update_entries g)) as Hspec.
  destruct (first_error (flat_entries (Slv3.update_entries g))) as [err|] eqn:Efe.
  - rewrite Hspec. reflexivity.
  - clear Hspec. rewrite (dashboard_collect_updates_closed _ Efe).
    destruct (flat_map entry_update (flat_entries (Slv3.update_entries g))) as [|u us'];
      [reflexivity|].
    destruct ts; reflexivity.
Qed.

Lemma clear_entries_flat (entries : list (string * list (string * Slv3.entry_data))) :
  flat_entries (Slv3.clear_entries entries)
  = map (fun x => (fst x, {| Slv3.var := Blank; Slv3.current := Slv3.current (snd x) |}))
        (flat_entries entries).
Proof.
  unfold Slv3.clear_entries.
  exact (flat_entries_map
           (fun _ _ e => {| Slv3.var := Blank; Slv3.current := Slv3.current e |}) entries).
Qed.

Lemma refresh_all_data_flat (g : Slv3.gui) :
  flat_entries (Slv3.update_entries (Slv3.refresh_all_data g))
  = map (fun x => (fst x, {| Slv3.var := Slv3.var (snd x);
                             Slv3.current :=
                               current_skill_level (Slv3.store g) (fst (fst x)) (snd (fst x)) |}))
        (flat_entries (Slv3.update_entries g)).
Proof.
  unfold Slv3.refresh_all_data. cbn [Slv3.update_entries].
  exact (flat_entries_map
           (fun a s e => {| Slv3.var := Slv3.var e;
                            Slv3.current := current_skill_level (Slv3.store g) a s |})
           (Slv3.update_entries g)).
Qed.

(** The dashboard keeps one entry per taxonomy skill. *)
Lemma gui_reachable_keys (g : Slv3.gui) :
  gui_reachable g -> map fst (flat_entries (Slv3.update_entries g)) = taxonomy_keys.
Proof.
  intros Hg.
  assert (H : (forall db, reachable db -> True) /\
              (forall g, gui_reachable g ->
                 map fst (flat_entries (Slv3.update_entries g)) = taxonomy_keys)).
  { apply reachable_gui_ind; try (intros; exact I).
    - intros db _ _. cbn [Slv3.update_entries]. rewrite flat_entries_setup, map_map.
      cbn [fst]. apply map_id.
    - intros g0 a s v _ IH. rewrite set_var_entries, map_map. exact IH.
    - intros g0 _ IH. rewrite refresh_all_data_flat, map_map. exact IH.
    - intros g0 ts _ IH.
      destruct (process_skill_updates_cases g0 ts)
        as [[m ->] | (m & us & t & timestamp & _ & _ & _ & _ & ->)]; [exact IH|].
      cbn [snd]. rewrite refresh_all_data_flat, map_map. cbn [Slv3.update_entries fst].
      rewrite clear_entries_flat, map_map. exact IH.
    - intros g0 now entries _ IH. rewrite refresh_all_data_flat, map_map. exact IH. }
  now apply H.
Qed.

Lemma entry_updates_keys (l : list (string * string * Slv3.entry_data)) :
  NoDup (map fst l) ->
  NoDup (map update_key (flat_map entry_update l)) /\
  incl (map update_key (flat_map entry_update l)) (map fst l).
Proof.
  induction l as [|x l IH]; cbn [map flat_map]; [intros _; split; [constructor|easy]|].
  intros Hnd. inversion Hnd as [|? ? Hnotin Hnd']; subst.
  destruct (IH Hnd') as (IH1 & IH2).
  assert (Hx : entry_update x = [] \/
               exists u, entry_update x = [u] /\ update_key u = fst x).
  { unfold entry_update. destruct (Slv3.var (snd x)) as [|n|]; [now left| |now left].
    destruct (_ <? n); [right|now left]. eexists. split; [reflexivity|].
    unfold update_key. cbn [u_attribute u_skill]. now destruct (fst x). }
  destruct Hx as [-> | (u & -> & Hk)]; cbn [app map].
  - split; [exact IH1|]. now apply incl_tl.
  - rewrite Hk. split.
    + constructor; [|exact IH1]. intros Hin. apply Hnotin. now apply IH2.
    + apply incl_cons; [now left|]. now apply incl_tl.
Qed.

Lemma entry_update_inv (l : list (string * string * Slv3.entry_data)) (u : update) :
  In u (flat_map entry_update l) ->
  exists e, In (u_attribute u, u_skill u, e) l /\
            Slv3.var e = Int (u_new_level u) /\
            u_old_level u = Slv3.current e /\
            u_old_level u < u_new_level u /\
            u_gain u = u_new_level u - u_old_level u.
Proof.
  intros Hin. apply in_flat_map in Hin. destruct Hin as ([[a s] e] & Hx & Hu).
  unfold entry_update in Hu. cbn [fst snd] in Hu.
  destruct (Slv3.var e) as [|n|] eqn:Ev; [contradiction| |contradiction].
  destruct (Slv3.current e <? n) eqn:El; [|contradiction].
  destruct Hu as [<-|[]]. cbn [u_attribute u_skill u_new_level u_old_level u_gain].
  exists e. apply Z.ltb_lt in El. repeat split; try assumption; reflexivity.
Qed.

Lemma first_error_none_in (l : list (string * string * Slv3.entry_data))
    (x : string * string * Slv3.entry_data) :
  first_error l = None -> In x l -> entry_error (snd (fst x)) (snd x) = None.
Proof.
  intros Hfe Hin. destruct (entry_error (snd (fst x)) (snd x)) as [err|] eqn:E; [|reflexivity].
  elim (first_error_in l x Hin); [now rewrite E | exact Hfe].
Qed.

Lemma process_skill_updates_success (g : Slv3.gui) (ts : option string) (n : nat) (t : Z) :
  fst (Slv3.process_skill_updates g ts) = Slv3.showinfo (Slv3.Success n t) ->
  exists timestamp,
    ts = Some timestamp /\
    first_error (flat_entries (Slv3.update_entries g)) = None /\
    flat_map entry_update (flat_entries (Slv3.update_entries g)) <> [] /\
    n = length (flat_map entry_update (flat_entries (Slv3.update_entries g))) /\
    t = total (map u_gain (flat_map entry_update (flat_entries (Slv3.update_entries g)))) /\
    snd (Slv3.process_skill_updates g ts)
    = Slv3.refresh_all_data
        {| Slv3.store :=
             save_update_session (Slv3.store g) timestamp
               (flat_map entry_update (flat_entries (Slv3.update_entries g))) t;
           Slv3.update_entries := Slv3.clear_entries (Slv3.update_entries g) |}.
Proof.
  unfold Slv3.process_skill_updates.
  pose proof (dashboard_collect_updates_spec (Slv3.update_entries g)) as Hspec.
  destruct (first_error (flat_entries (Slv3.update_entries g))) as [err|] eqn:Efe.
  - rewrite Hspec. discriminate.
  - clear Hspec. rewrite (dashboard_collect_updates_closed _ Efe).
    destruct (flat_map entry_update (flat_entries (Slv3.update_entries g))) as [|u us] eqn:Eus;
      [discriminate|].
    destruct ts as [timestamp|]; [|discriminate].
    cbn [fst snd]. intros [= <- <-]. exists timestamp.
    repeat split; try reflexivity. discriminate.
Qed.

(** X7.  When the dashboard reports the success of an update, from a
    reachable state: the date had parsed; one session of kind
    [skill_update] with this timestamp is appended; the count reported is
    the number of its rows and is positive; the total reported is its
    total gain, the sum of the gains of its rows; each row belongs to an
    entry that held its new level as a number, has the level stored
    before as its old level and the level stored after as its new level,
    and gains 1 to 10 levels; a stored level changes exactly when a row
    names its skill; afterwards every entry is empty and shows the stored
    level, and there is still one entry per taxonomy skill. *)
Theorem dashboard_update_commit (g : Slv3.gui) (ts : option string) (n : nat) (t : Z) :
  gui_reachable g ->
  fst (Slv3.process_skill_updates g ts) = Slv3.showinfo (Slv3.Success n t) ->
  exists s rows timestamp,
    ts = Some timestamp /\
    sessions (Slv3.store (snd (Slv3.process_skill_updates g ts)))
    = sessions (Slv3.store g) ++ [s] /\
    session_updates (Slv3.store (snd (Slv3.process_skill_updates g ts)))
    = session_updates (Slv3.store g) ++ rows /\
    session_timestamp s = timestamp /\
    session_type s = "skill_update" /\
    total_gains s = t /\ t = total (map gain rows) /\
    n = length rows /\ (0 < n)%nat /\
    (forall r, In r rows ->
       session_id r = rowid s /\
       (exists e, In (su_attribute r, su_skill_name r, e)
                     (flat_entries (Slv3.update_entries g)) /\
                  Slv3.var e = Int (new_level r)) /\
       old_level r = current_skill_level (Slv3.store g) (su_attribute r) (su_skill_name r) /\
       new_level r
       = current_skill_level (Slv3.store (snd (Slv3.process_skill_updates g ts)))
           (su_attribute r) (su_skill_name r) /\
       gain r = new_level r - old_level r /\
       0 < gain r <= 10) /\
    (forall a sk,
       current_skill_level (Slv3.store (snd (Slv3.process_skill_updates g ts))) a sk
       <> current_skill_level (Slv3.store g) a sk <->
       exists r, In r rows /\ su_attribute r = a /\ su_skill_name r = sk) /\
    Forall (fun x => Slv3.var (snd x) = Blank /\
                     Slv3.current (snd x)
                     = current_skill_level
                         (Slv3.store (snd (Slv3.process_skill_updates g ts)))
                         (fst (fst x)) (snd (fst x)))
           (flat_entries (Slv3.update_entries (snd (Slv3.process_skill_updates g ts)))) /\
    map fst (flat_entries (Slv3.update_entries (snd (Slv3.process_skill_updates g ts))))
    = taxonomy_keys.
Proof.
  intros Hg Hmsg.
  assert (Hok : store_ok (Slv3.store g)) by (apply reachable_store_ok; now constructor).
  pose proof (gui_reachable_synced g Hg) as Hsync.
  pose proof (gui_reachable_keys g Hg) as Hkeys.
  destruct (process_skill_updates_success g ts n t Hmsg)
    as (timestamp & -> & Hfe & Hne & Hn & Ht & ->).
  set (es := flat_entries (Slv3.update_entries g)) in *.
  set (us := flat_map entry_update es) in *.
  destruct (entry_updates_keys es) as (Hnd & Hincl);
    [rewrite Hkeys; exact taxonomy_keys_NoDup|].
  fold us in Hnd, Hincl.
  assert (Hinv : forall u, In u us ->
             exists e, In (u_attribute u, u_skill u, e) es /\
                       Slv3.var e = Int (u_new_level u) /\
                       u_old_level u
                       = current_skill_level (Slv3.store g) (u_attribute u) (u_skill u) /\
                       u_gain u = u_new_level u - u_old_level u /\
                       0 < u_gain u <= 10).
  { intros u Hu. destruct (entry_update_inv es u Hu) as (e & Hin & Hv & Hold & Hlt & Hgain).
    exists e. split; [exact Hin|]. split; [exact Hv|].
    pose proof (synced_levels g _ _ _ Hsync Hin) as Hcur.
    pose proof (first_error_none_in es _ Hfe Hin) as Hee.
    cbn [fst snd] in Hee. unfold entry_error in Hee. rewrite Hv in Hee.
    destruct (u_new_level u <? Slv3.current e); [discriminate|].
    destruct (Slv3.current e + 10 <? u_new_level u) eqn:E10; [discriminate|].
    apply Z.ltb_ge in E10.
    split; [congruence|]. split; [exact Hgain|]. lia. }
  rewrite refresh_all_data_flat. cbn [Slv3.update_entries].
  rewrite clear_entries_flat. fold es.
  cbn [Slv3.refresh_all_data Slv3.store].
  rewrite save_update_session_tables. cbn [skills sessions session_updates].
  set (sid := Z.of_nat (S (length (sessions (Slv3.store g))))).
  set (db' := {| skills := write_levels us (skills (Slv3.store g));
                 sessions := sessions (Slv3.store g) ++
                   [ {| rowid := sid; session_timestamp := timestamp; total_gains := t;
                        session_type := "skill_update"; notes := None |} ];
                 session_updates := session_updates (Slv3.store g)
                                    ++ map (row_of_update sid) us |}).
  assert (Hlevel : forall u, In u us ->
             current_skill_level db' (u_attribute u) (u_skill u) = u_new_level u).
  { intros u Hu. unfold current_skill_level, get_current_skills. cbn [skills db'].
    rewrite (written_level us (skills (Slv3.store g)) u Hnd Hu); [reflexivity|].
    apply (store_ok_has_row (Slv3.store g) (update_key u) Hok).
    rewrite <- Hkeys. apply Hincl. now apply in_map. }
  eexists. exists (map (row_of_update sid) us), timestamp.
  split; [reflexivity|]. split; [reflexivity|]. split; [reflexivity|].
  split; [reflexivity|]. split; [reflexivity|]. split; [reflexivity|].
  split; [rewrite map_map; exact Ht|].
  split; [now rewrite length_map|].
  split; [rewrite Hn; destruct us; [contradiction | cbn [length]; lia]|].
  split; [|split; [|split]].
  - intros r Hr. apply in_map_iff in Hr. destruct Hr as (u & <- & Hu).
    cbn [row_of_update session_id old_level new_level gain su_attribute su_skill_name rowid].
    destruct (Hinv u Hu) as (e & Hin & Hv & Hold & Hgain & Hb).
    rewrite (Hlevel u Hu). split; [reflexivity|]. split; [now exists e|].
    repeat split; try assumption; try reflexivity; lia.
  - intros a sk. split.
    + intros Hdiff. destruct (update_in_dec us a sk) as [(u & Hu & Hk) | Hnone].
      * exists (row_of_update sid u). split; [now apply in_map|].
        injection Hk as <- <-. split; reflexivity.
      * elim Hdiff. unfold current_skill_level, get_current_skills. cbn [skills db'].
        now rewrite unwritten_level.
    + intros (r & Hr & <- & <-). apply in_map_iff in Hr. destruct Hr as (u & <- & Hu).
      cbn [row_of_update su_attribute su_skill_name].
      rewrite (Hlevel u Hu). destruct (Hinv u Hu) as (e & _ & _ & Hold & Hgain & Hb).
      rewrite <- Hold. lia.
  - apply Forall_map. apply Forall_map. apply Forall_forall.
    intros x _. split; reflexivity.
  - rewrite !map_map. exact Hkeys.
Qed.

Lemma example_gui_update_reachable : gui_reachable example_gui_update.
Proof. apply gui_typing. apply gui_start. exact reach_new. Qed.

Lemma dashboard_update_commit_witness :
  gui_reachable example_gui_update /\
  fst (Slv3.process_skill_updates example_gui_update (Some example_timestamp))
  = Slv3.showinfo (Slv3.Success 1 4) /\
  exists s rows timestamp,
    Some example_timestamp = Some timestamp /\
    sessions (Slv3.store (snd (Slv3.process_skill_updates example_gui_update
                                 (Some example_timestamp))))
    = sessions (Slv3.store example_gui_update) ++ [s] /\
    session_updates (Slv3.store (snd (Slv3.process_skill_updates example_gui_update
                                        (Some example_timestamp))))
    = session_updates (Slv3.store example_gui_update) ++ rows /\
    session_timestamp s = timestamp /\
    session_type s = "skill_update" /\
    total_gains s = 4 /\ 4 = total (map gain rows) /\
    1%nat = length rows /\ (0 < 1)%nat /\
    (forall r, In r rows ->
       session_id r = rowid s /\
       (exists e, In (su_attribute r, su_skill_name r, e)
                     (flat_entries (Slv3.update_entries example_gui_update)) /\
                  Slv3.var e = Int (new_level r)) /\
       old_level r = current_skill_level (Slv3.store example_gui_update)
                       (su_attribute r) (su_skill_name r) /\
       new_level r
       = current_skill_level
           (Slv3.store (snd (Slv3.process_skill_updates example_gui_update
                               (Some example_timestamp))))
           (su_attribute r) (su_skill_name r) /\
       gain r = new_level r - old_level r /\
       0 < gain r <= 10) /\
    (forall a sk,
       current_skill_level
         (Slv3.store (snd (Slv3.process_skill_updates example_gui_update
                             (Some example_timestamp)))) a sk
       <> current_skill_level (Slv3.store example_gui_update) a sk <->
       exists r, In r rows /\ su_attribute r = a /\ su_skill_name r = sk) /\
    Forall (fun x => Slv3.var (snd x) = Blank /\
                     Slv3.current (snd x)
                     = current_skill_level
                         (Slv3.store (snd (Slv3.process_skill_updates example_gui_update
                                             (Some example_timestamp))))
                         (fst (fst x)) (snd (fst x)))
           (flat_entries
              (Slv3.update_entries (snd (Slv3.process_skill_updates example_gui_update
                                           (Some example_timestamp))))) /\
    map fst (flat_entries
               (Slv3.update_entries (snd (Slv3.process_skill_updates example_gui_update
                                            (Some example_timestamp)))))
    = taxonomy_keys.
Proof.
  assert (Hmsg : fst (Slv3.process_skill_updates example_gui_update (Some example_timestamp))
                 = Slv3.showinfo (Slv3.Success 1 4)) by (vm_compute; reflexivity).
  split; [exact example_gui_update_reachable|]. split; [exact Hmsg|].
  exact (dashboard_update_commit example_gui_update (Some example_timestamp) 1 4
           example_gui_update_reachable Hmsg).
Defined.

(* ------------------------------------------------------------------ *)
(** ** The history table and the progress chart of the dashboard *)

Lemma timestamp_asc_transitive :
  Transitive (fun a b : session_row => is_true (TimestampAsc.leb a b)).
Proof.
  intros a b c Hab Hbc. unfold is_true, TimestampAsc.leb in *.
  exact (string_leb_trans _ _ _ Hab Hbc).
Qed.

Lemma total_Permutation (l l' : list Z) : Permutation l l' -> total l = total l'.
Proof.
  induction 1 as [|x l l' _ IH|x y l|l l' l'' _ IH1 _ IH2];
    cbn [total fold_right] in *; unfold total in *; lia.
Qed.

Lemma cumsum_from_length (acc : Z) (l : list Z) : length (cumsum_from acc l) = length l.
Proof. revert acc. induction l as [|x l IH]; intros acc; cbn; [reflexivity|]. now rewrite IH. Qed.

Lemma cumsum_from_last (acc d : Z) (l : list Z) :
  last (cumsum_from acc l) d = match l with [] => d | _ => acc + total l end.
Proof.
  revert acc d. induction l as [|x l IH]; intros acc d; [reflexivity|].
  cbn [cumsum_from]. destruct l as [|y l].
  - cbn. lia.
  - change (last (acc + x :: cumsum_from (acc + x) (y :: l)) d)
      with (last (cumsum_from (acc + x) (y :: l)) d).
    rewrite IH. unfold total. cbn [fold_right]. lia.
Qed.

Lemma cumsum_from_sorted (acc : Z) (l : list Z) :
  Forall (fun x => 0 <= x) l -> StronglySorted Z.le (acc :: cumsum_from acc l).
Proof.
  intros H. revert acc. induction H as [|x l Hx _ IH]; intros acc; cbn [cumsum_from].
  - constructor; constructor.
  - specialize (IH (acc + x)). constructor; [exact IH|].
    apply StronglySorted_inv in IH. destruct IH as (_ & IH).
    constructor; [lia|]. eapply Forall_impl; [|exact IH]. cbn beta. lia.
Qed.

Lemma combine_fst {A B : Type} (l : list A) (l' : list B) :
  length l = length l' -> map fst (combine l l') = l.
Proof.
  revert l'. induction l as [|x l IH]; intros [|y l']; cbn; try discriminate; [reflexivity|].
  intros [= H]. now rewrite IH.
Qed.

Lemma combine_snd {A B : Type} (l : list A) (l' : list B) :
  length l = length l' -> map snd (combine l l') = l'.
Proof.
  revert l'. induction l as [|x l IH]; intros [|y l']; cbn; try discriminate; [reflexivity|].
  intros [= H]. now rewrite IH.
Qed.

(** X8.  The history table of the dashboard shows every session of the
    store, none twice and none left out, in descending order of the
    timestamp text, with a missing note shown as empty text.  (The
    dashboard reads the timestamps inside a [try] and shows a text that
    the library cannot read as it is stored, so that the table never
    raises.) *)
Theorem dashboard_history_shows_all (db : database) :
  length (Slv3.refresh_history_display db) = length (sessions db) /\
  Permutation (map history_row (sessions db)) (Slv3.refresh_history_display db) /\
  text_descending (map (fun row => fst (fst (fst row))) (Slv3.refresh_history_display db)).
Proof.
  unfold Slv3.refresh_history_display.
  change (fun session : session_row =>
            (session_timestamp session, session_type session, total_gains session,
             match notes session with Some note => note | None => "" end))
    with history_row.
  pose proof (SessionSort.Permuted_sort (sessions db)) as Hperm.
  pose proof (SessionSort.StronglySorted_sort (sessions db) timestamp_desc_transitive)
    as Hsorted.
  set (sorted := SessionSort.sort (sessions db)) in *.
  split; [|split].
  - rewrite length_map. symmetry. now apply Permutation_length.
  - now apply Permutation_map.
  - rewrite map_map. unfold text_descending. cbn [history_row fst].
    apply StronglySorted_map. exact Hsorted.
Qed.

Lemma ledger_totals_nonneg (db : database) :
  ledger_ok db -> Forall (fun s => 0 <= total_gains s) (sessions db).
Proof.
  intros (_ & Hrows & Htot & _). eapply Forall_impl; [|exact Htot].
  cbn beta. intros s (-> & _). apply total_nonneg. apply Forall_map.
  apply Forall_forall. intros r Hin. apply filter_In in Hin. destruct Hin as (Hin & _).
  rewrite Forall_forall in Hrows. destruct (Hrows r Hin) as (_ & Hg & Hb & _). lia.
Qed.

Lemma chart_dates (fromisoformat : string -> bool) (l : list session_row)
    (dates : list string) :
  foldM (fun dates session =>
           if fromisoformat (session_timestamp session)
           then Ok (dates ++ [session_timestamp session])
           else Raise ValueError)
        l dates
  = if forallb (fun s => fromisoformat (session_timestamp s)) l
    then Ok (dates ++ map session_timestamp l)
    else Raise ValueError.
Proof.
  revert dates. induction l as [|s l IH]; intros dates; cbn [foldM forallb map].
  - now rewrite app_nil_r.
  - destruct (fromisoformat (session_timestamp s)); cbn [bind andb]; [|reflexivity].
    rewrite IH, <- app_assoc. reflexivity.
Qed.

Lemma forallb_false_In {A : Type} (p : A -> bool) (l : list A) :
  forallb p l = false -> exists x, In x l /\ p x = false.
Proof.
  induction l as [|x l IH]; cbn [forallb]; [discriminate|].
  destruct (p x) eqn:Ex; cbn [andb].
  - intros H. destruct (IH H) as (y & Hy & Hp). exists y. split; [now right | exact Hp].
  - intros _. exists x. split; [now left | exact Ex].
Qed.

Lemma forallb_Permutation {A : Type} (p : A -> bool) (l l' : list A) :
  Permutation l l' -> forallb p l = forallb p l'.
Proof.
  induction 1 as [|x l l' _ IH|x y l|l l' l'' _ IH1 _ IH2]; cbn [forallb].
  - reflexivity.
  - now rewrite IH.
  - now destruct (p x), (p y).
  - congruence.
Qed.

(** X9.  The progress chart shows its "no session data" text exactly when
    the store has no session.  It raises [ValueError], and nothing else,
    exactly when the library cannot read the timestamp of some session.
    Otherwise it has one point per session, in ascending order of the
    timestamp text; and with values that are machine integers, which
    numpy does not wrap around, its last value is the sum of the total
    gains of all sessions, and in a reachable store its values start at 0
    or above and never decrease. *)
Theorem progress_chart_points (fromisoformat : string -> bool) (db : database) :
  (Slv3.show_progress_chart fromisoformat db = Ok None <-> sessions db = []) /\
  (forall e,
     Slv3.show_progress_chart fromisoformat db = Raise e <->
     e = ValueError /\
     exists s, In s (sessions db) /\ fromisoformat (session_timestamp s) = false) /\
  (forall points,
     Slv3.show_progress_chart fromisoformat db = Ok (Some points) ->
     length points = length (sessions db) /\
     Permutation (map fst points) (map session_timestamp (sessions db)) /\
     text_ascending (map fst points) /\
     (forallb machine_int (map snd points) = true ->
      last (map snd points) 0 = total (map total_gains (sessions db)) /\
      (reachable db -> StronglySorted Z.le (0 :: map snd points)))).
Proof.
  unfold Slv3.show_progress_chart. cbv zeta.
  pose proof (SessionSortAsc.Permuted_sort (sessions db)) as Hperm.
  pose proof (SessionSortAsc.StronglySorted_sort (sessions db) timestamp_asc_transitive)
    as Hsorted.
  set (sorted := SessionSortAsc.sort (sessions db)) in *.
  assert (Hlen : length (map session_timestamp sorted)
                 = length (cumsum (map total_gains sorted))).
  { unfold cumsum. now rewrite cumsum_from_length, !length_map. }
  assert (Hread : forallb (fun s => fromisoformat (session_timestamp s)) sorted
                  = forallb (fun s => fromisoformat (session_timestamp s)) (sessions db))
    by (symmetry; now apply forallb_Permutation).
  assert (Hchart :
            match sorted with
            | [] => Ok None
            | _ :: _ =>
                dates <- foldM (fun dates session =>
                                  if fromisoformat (session_timestamp session)
                                  then Ok (dates ++ [session_timestamp session])
                                  else Raise ValueError)
                               sorted [] ;;
                Ok (Some (combine dates (cumsum (map total_gains sorted))))
            end
            = match sorted with
              | [] => Ok None
              | _ :: _ =>
                  if forallb (fun s => fromisoformat (session_timestamp s)) (sessions db)
                  then Ok (Some (combine (map session_timestamp sorted)
                                         (cumsum (map total_gains sorted))))
                  else Raise ValueError
              end).
  { destruct sorted as [|s0 sorted'] eqn:Es; [reflexivity|].
    rewrite chart_dates, Hread.
    now destruct (forallb _ (sessions db)). }
  rewrite Hchart. clear Hchart.
  split; [|split].
  - split.
    + destruct sorted as [|s sorted'] eqn:Es.
      * intros _. now apply Permutation_nil.
      * destruct (forallb _ (sessions db)); discriminate.
    + intros E. rewrite E in Hperm. apply Permutation_nil in Hperm.
      now rewrite Hperm.
  - intros e. split.
    + destruct sorted as [|s sorted'] eqn:Es; [discriminate|].
      destruct (forallb _ (sessions db)) eqn:Ef; [discriminate|].
      intros [= <-]. split; [reflexivity|].
      apply forallb_false_In in Ef. exact Ef.
    + intros (-> & s & Hs & Hf).
      destruct sorted as [|s0 sorted'] eqn:Es.
      * apply Permutation_sym, Permutation_nil in Hperm. rewrite Hperm in Hs.
        destruct Hs.
      * destruct (forallb _ (sessions db)) eqn:Ef; [|reflexivity].
        rewrite forallb_forall in Ef. rewrite (Ef s Hs) in Hf. discriminate.
  - intros points Hp.
    assert (Epoints : points = combine (map session_timestamp sorted)
                                       (cumsum (map total_gains sorted))).
    { destruct sorted; [discriminate|].
      destruct (forallb _ (sessions db)); [|discriminate]. now injection Hp as <-. }
    clear Hp. subst points. rewrite combine_fst, combine_snd by exact Hlen.
    split; [|split; [|split; [|intros _; split]]].
    + rewrite length_combine, <- Hlen, Nat.min_id, length_map.
      symmetry. now apply Permutation_length.
    + apply Permutation_map. now apply Permutation_sym.
    + unfold text_ascending. apply StronglySorted_map. exact Hsorted.
    + unfold cumsum. rewrite cumsum_from_last.
      transitivity (total (map total_gains sorted)).
      * destruct (map total_gains sorted); [reflexivity|apply Z.add_0_l].
      * apply total_Permutation. apply Permutation_map. now apply Permutation_sym.
    + intros Hr. unfold cumsum. apply cumsum_from_sorted. apply Forall_map.
      pose proof (ledger_totals_nonneg db (reachable_ledger_ok db Hr)) as Hnn.
      rewrite Forall_forall in *. intros s Hs. apply Hnn.
      eapply Permutation_in; [apply Permutation_sym; exact Hperm | exact Hs].
Qed.

(* ------------------------------------------------------------------ *)
(** ** Category totals *)

Lemma filter_map_swap {A B : Type} (p : B -> bool) (f : A -> B) (l : list A) :
  filter p (map f l) = map f (filter (fun x => p (f x)) l).
Proof.
  induction l as [|x l IH]; [reflexivity|]. cbn [map filter].
  destruct (p (f x)); cbn [map]; now rewrite IH.
Qed.

Lemma taxonomy_keys_of_attribute (kv : string * list string) :
  In kv attributes ->
  filter (fun k => (fst k =? fst kv)%string) taxonomy_keys
  = map (fun skill => (fst kv, skill)) (snd kv).
Proof.
  intros Hin. cbn in Hin.
  destruct Hin as [<-|[<-|[<-|[<-|[<-|[]]]]]]; vm_compute; reflexivity.
Qed.

(** [SELECT SUM(current_level) .. WHERE attribute = ?] on a store with
    one row per taxonomy skill: the sum of the ten levels of the
    category, read skill by skill. *)
Lemma attribute_sum_by_lookup (db : database) (kv : string * list string) :
  map key_of (skills db) = taxonomy_keys -> In kv attributes ->
  select_sum_current_level (fst kv) (skills db)
  = Some (total (map (fun skill => current_skill_level db (fst kv) skill) (snd kv))).
Proof.
  intros Hk Hin. unfold select_sum_current_level.
  assert (Hnd : NoDup (map key_of (skills db))) by (rewrite Hk; exact taxonomy_keys_NoDup).
  set (rows := filter (fun r => (attribute r =? fst kv)%string) (skills db)).
  assert (E : map current_level rows
              = map (fun skill => current_skill_level db (fst kv) skill) (snd kv)).
  { transitivity (map (fun k => current_skill_level db (fst k) (snd k))
                      (map key_of rows)).
    - rewrite map_map. apply map_ext_in. intros r Hr.
      apply filter_In in Hr. destruct Hr as (Hr & _).
      unfold current_skill_level, get_current_skills. cbn [key_of fst snd].
      now rewrite lookup_level_row.
    - unfold rows.
      rewrite <- (filter_map_swap (fun k => (fst k =? fst kv)%string) key_of).
      rewrite Hk, taxonomy_keys_of_attribute by exact Hin.
      rewrite map_map. reflexivity. }
  destruct rows as [|r rows'] eqn:Er.
  - exfalso. cbn [map] in E. symmetry in E. apply map_eq_nil in E.
    cbn in Hin. destruct Hin as [<-|[<-|[<-|[<-|[<-|[]]]]]]; discriminate.
  - rewrite E. reflexivity.
Qed.

Lemma total_le_pointwise {A : Type} (f g : A -> Z) (l : list A) :
  (forall x, In x l -> f x <= g x) -> total (map f l) <= total (map g l).
Proof.
  induction l as [|x l IH]; intros H; cbn [map total fold_right]; [lia|].
  assert (total (map f l) <= total (map g l)) by (apply IH; intros; apply H; now right).
  pose proof (H x (or_introl eq_refl)). unfold total in *. lia.
Qed.

Lemma total_bounds {A : Type} (f : A -> Z) (lo hi : Z) (l : list A) :
  (forall x, In x l -> lo <= f x <= hi) ->
  Z.of_nat (length l) * lo <= total (map f l) <= Z.of_nat (length l) * hi.
Proof.
  induction l as [|x l IH]; intros H; cbn [map total fold_right length]; [lia|].
  assert (Z.of_nat (length l) * lo <= total (map f l) <= Z.of_nat (length l) * hi)
    by (apply IH; intros; apply H; now right).
  pose proof (H x (or_introl eq_refl)). unfold total in *. lia.
Qed.

(** X10.  In a reachable store the heat map has five rows of ten levels
    within 1..100.  The sum that [calculate_attribute_level] selects for a
    category is the sum of the heat map's row of that category: it is
    never NULL and lies between 10 and 1000, and the category level is the
    calculator applied to it and to 1000. *)
Theorem category_totals_of_reachable_store (F : float_arith) (db : database) :
  reachable db ->
  Forall (fun row => length row = 10%nat /\ Forall (fun l => 1 <= l <= 100) row)
         (Slv3.show_skill_heatmap db) /\
  map (fun kv => select_sum_current_level (fst kv) (skills db)) attributes
  = map (fun row => Some (total row)) (Slv3.show_skill_heatmap db) /\
  (forall kv, In kv attributes ->
     10 <= total (map (fun skill => current_skill_level db (fst kv) skill) (snd kv)) <= 1000 /\
     calculate_attribute_level F db (fst kv)
     = sigmoid_level_calculation F
         (total (map (fun skill => current_skill_level db (fst kv) skill) (snd kv))) 1000).
Proof.
  intros Hr. pose proof (reachable_store_ok db Hr) as Hok.
  destruct Hok as (Hk & Hb).
  assert (Hlen : forall kv, In kv attributes -> length (snd kv) = 10%nat).
  { intros kv Hin. cbn in Hin. destruct Hin as [<-|[<-|[<-|[<-|[<-|[]]]]]]; reflexivity. }
  split; [|split].
  - unfold Slv3.show_skill_heatmap. apply Forall_map. apply Forall_forall. intros kv Hin.
    split; [rewrite length_map; now apply Hlen|].
    apply Forall_map. apply Forall_forall. intros skill _.
    now apply current_skill_level_bounds.
  - unfold Slv3.show_skill_heatmap. rewrite map_map. apply map_ext_in. intros kv Hin.
    now apply attribute_sum_by_lookup.
  - intros kv Hin. split.
    + pose proof (total_bounds (fun skill => current_skill_level db (fst kv) skill) 1 100
                    (snd kv)) as H.
      rewrite (Hlen kv Hin) in H. apply H. intros skill _.
      now apply current_skill_level_bounds.
    + unfold calculate_attribute_level.
      rewrite (attribute_sum_by_lookup db kv Hk Hin).
      cbn in Hin. destruct Hin as [<-|[<-|[<-|[<-|[<-|[]]]]]]; reflexivity.
Qed.

Lemma category_totals_of_reachable_store_witness :
  reachable store_after_example /\
  Forall (fun row => length row = 10%nat /\ Forall (fun l => 1 <= l <= 100) row)
         (Slv3.show_skill_heatmap store_after_example) /\
  map (fun kv => select_sum_current_level (fst kv) (skills store_after_example)) attributes
  = map (fun row => Some (total row)) (Slv3.show_skill_heatmap store_after_example) /\
  (forall kv, In kv attributes ->
     10 <= total (map (fun skill => current_skill_level store_after_example (fst kv) skill)
                      (snd kv)) <= 1000 /\
     calculate_attribute_level exact store_after_example (fst kv)
     = sigmoid_level_calculation exact
         (total (map (fun skill => current_skill_level store_after_example (fst kv) skill)
                     (snd kv))) 1000).
Proof.
  split; [exact store_after_example_reachable|].
  exact (category_totals_of_reachable_store exact store_after_example
           store_after_example_reachable).
Defined.

(* ------------------------------------------------------------------ *)
(** ** The exceptions of the calculator *)

Lemma attributes_get_unknown (a : string) :
  ~ In a (map fst attributes) -> attributes_get a = Raise KeyError.
Proof.
  intros Hn. unfold attributes_get.
  assert (E : find (fun kv : string * list string => (fst kv =? a)%string) attributes = None).
  { apply find_none_iff. intros kv Hin.
    destruct (String.eqb_spec (fst kv) a) as [<-|]; [|reflexivity].
    elim Hn. now apply in_map. }
  now rewrite E.
Qed.

(** X11.  With binary64-like arithmetic the calculator, on a maximum that
    is not negative and a total within the 64-bit integers of the store,
    raises nothing but [ZeroDivisionError], and raises it exactly when the
    total is positive and the maximum is 0; on a reachable store
    [calculate_attribute_level] raises nothing but [KeyError], and raises
    it exactly for an attribute that the taxonomy does not have.  (Within
    these bounds no float operation of the program overflows, an error
    that the arithmetic here does not represent.) *)
Theorem calculator_exceptions (F : float_arith) :
  binary64_like F ->
  (forall t m e,
     0 <= m -> t < 2 ^ 63 ->
     (sigmoid_level_calculation F t m = Raise e <->
      0 < t /\ m = 0 /\ e = ZeroDivisionError)) /\
  (forall db a e,
     reachable db ->
     (calculate_attribute_level F db a = Raise e <->
      ~ In a (map fst attributes) /\ e = KeyError)).
Proof.
  intros HF. split.
  - intros t m e _ _. unfold sigmoid_level_calculation, int_truediv. split.
    + destruct (Z.leb_spec t 0) as [Ht|Ht]; [discriminate|].
      destruct (Z.eqb_spec m 0) as [Hm|Hm]; cbn [bind].
      * intros [= <-]. now repeat split.
      * rewrite (sigmoid_value_Ok F HF). cbn [bind]. discriminate.
    + intros (Ht & -> & ->). rewrite (proj2 (Z.leb_gt t 0)) by lia. reflexivity.
  - intros db a e _. split.
    + intros Hraise. destruct (in_dec string_dec a (map fst attributes)) as [Hin|Hn].
      * destruct (calculate_attribute_level_range F db a HF Hin) as (level & E & _).
        rewrite E in Hraise. discriminate.
      * split; [exact Hn|]. unfold calculate_attribute_level in Hraise.
        rewrite (attributes_get_unknown a Hn) in Hraise. cbn [bind] in Hraise. congruence.
    + intros (Hn & ->). unfold calculate_attribute_level.
      now rewrite (attributes_get_unknown a Hn).
Qed.

Lemma calculator_exceptions_witness :
  binary64_like exact /\ 0 <= 0 /\ 5 < 2 ^ 63 /\ reachable new_store /\
  (forall e,
     sigmoid_level_calculation exact 5 0 = Raise e <->
     0 < 5 /\ 0 = 0 /\ e = ZeroDivisionError) /\
  (forall a e,
     calculate_attribute_level exact new_store a = Raise e <->
     ~ In a (map fst attributes) /\ e = KeyError).
Proof.
  assert (H0 : 0 <= 0) by lia. assert (H5 : 5 < 2 ^ 63) by reflexivity.
  split; [exact exact_binary64_like|]. split; [exact H0|]. split; [exact H5|].
  split; [exact reach_new|].
  destruct (calculator_exceptions exact exact_binary64_like) as [Hc Ha].
  split.
  - intros e. exact (Hc 5 0 e H0 H5).
  - intros a e. exact (Ha new_store a e reach_new).
Defined.

(* ------------------------------------------------------------------ *)
(** ** Update sessions and the roll-up *)

Lemma scaled_level_monotone (F : float_arith) (s1 s2 : R) :
  binary64_like F -> (0 <= s1 <= s2)%R -> (s2 <= 1)%R ->
  Z.min (int_of_float (fadd F 1 (fmul F s1 99))) 100
  <= Z.min (int_of_float (fadd F 1 (fmul F s2 99))) 100.
Proof.
  intros HF H12 H2. apply Z.min_le_compat_r.
  assert (Hm : (0 <= fmul F s1 99 <= fmul F s2 99)%R).
  { unfold fmul. split.
    - apply (rnd_ge_IZR F HF _ 0); [lia|]. nra.
    - apply (rnd_monotone F HF). nra. }
  assert (Ha : (1 <= fadd F 1 (fmul F s1 99) <= fadd F 1 (fmul F s2 99))%R).
  { unfold fadd. split.
    - apply (rnd_ge_IZR F HF _ 1); [lia|]. lra.
    - apply (rnd_monotone F HF). lra. }
  rewrite !int_of_float_nonneg by lra. apply Int_part_le. lra.
Qed.

Lemma sigmoid_level_le (F : float_arith) (M t1 t2 l1 l2 : Z) :
  binary64_like F -> 0 < M -> t1 <= t2 ->
  sigmoid_level_calculation F t1 M = Ok l1 ->
  sigmoid_level_calculation F t2 M = Ok l2 ->
  l1 <= l2.
Proof.
  intros HF HM Ht E1 E2.
  destruct (Z.leb_spec t1 0) as [H1|H1].
  - rewrite (sigmoid_level_nonpos F t1 M H1) in E1. injection E1 as <-.
    destruct (sigmoid_level_range F HF t2 M HM) as (l & E & Hl).
    rewrite E in E2. injection E2 as <-. lia.
  - unfold sigmoid_level_calculation in E1, E2.
    rewrite (proj2 (Z.leb_gt t1 0)) in E1 by lia.
    rewrite (proj2 (Z.leb_gt t2 0)) in E2 by lia.
    rewrite (int_truediv_Ok F) in E1 by lia.
    rewrite (int_truediv_Ok F) in E2 by lia. cbn [bind] in E1, E2.
    destruct (sigmoid_value F (rnd F (IZR t1 / IZR M))) as [s1|] eqn:S1; [|discriminate].
    destruct (sigmoid_value F (rnd F (IZR t2 / IZR M))) as [s2|] eqn:S2; [|discriminate].
    cbn [bind] in E1, E2. injection E1 as <-. injection E2 as <-.
    assert (Hx : (rnd F (IZR t1 / IZR M) <= rnd F (IZR t2 / IZR M))%R).
    { apply (rnd_monotone F HF). apply Rmult_le_compat_r; [|now apply IZR_le].
      left. apply Rinv_0_lt_compat. now apply IZR_lt. }
    pose proof (sigmoid_value_monotone F HF _ _ _ _ Hx S1 S2).
    pose proof (sigmoid_value_range F HF _ _ S1).
    pose proof (sigmoid_value_range F HF _ _ S2).
    apply scaled_level_monotone; [exact HF | lra | lra].
Qed.

Lemma sum_attribute_levels_le (F : float_arith) (db db' : database)
    (attrs : list (string * list string)) :
  (forall kv, In kv attrs ->
     exists l l', calculate_attribute_level F db (fst kv) = Ok l /\
                  calculate_attribute_level F db' (fst kv) = Ok l' /\ l <= l') ->
  exists s s', sum_attribute_levels F db attrs = Ok s /\
               sum_attribute_levels F db' attrs = Ok s' /\ s <= s'.
Proof.
  induction attrs as [|kv attrs IH]; intros H; cbn [sum_attribute_levels].
  - exists 0, 0. repeat split; lia.
  - destruct (H kv (or_introl eq_refl)) as (l & l' & -> & -> & Hl).
    destruct IH as (s & s' & -> & -> & Hs); [intros; apply H; now right|].
    cbn [bind]. exists (l + s), (l' + s'). repeat split; lia.
Qed.

(** Stores with one row per taxonomy skill, the second with no level
    below the first: no category level and no overall level is lower. *)
Lemma rollup_le_levels (F : float_arith) (db db' : database) :
  binary64_like F -> store_ok db -> store_ok db' ->
  (forall a s, current_skill_level db a s <= current_skill_level db' a s) ->
  rollup_le F db db'.
Proof.
  intros HF (Hk & _) (Hk' & _) Hle.
  assert (Hattr : forall kv, In kv attributes ->
             exists l l', calculate_attribute_level F db (fst kv) = Ok l /\
                          calculate_attribute_level F db' (fst kv) = Ok l' /\ l <= l').
  { intros kv Hin.
    assert (Ha : In (fst kv) (map fst attributes)) by now apply in_map.
    destruct (calculate_attribute_level_range F db _ HF Ha) as (l & E & _).
    destruct (calculate_attribute_level_range F db' _ HF Ha) as (l' & E' & _).
    exists l, l'. split; [exact E|]. split; [exact E'|].
    unfold calculate_attribute_level in E, E'.
    rewrite (attribute_sum_by_lookup db kv Hk Hin) in E.
    rewrite (attribute_sum_by_lookup db' kv Hk' Hin) in E'.
    assert (Hg : attributes_get (fst kv) = Ok (snd kv)).
    { cbn in Hin. destruct Hin as [<-|[<-|[<-|[<-|[<-|[]]]]]]; reflexivity. }
    rewrite Hg in E, E'. cbn [bind] in E, E'.
    refine (sigmoid_level_le F _ _ _ l l' HF _ _ E E').
    - cbn in Hin. destruct Hin as [<-|[<-|[<-|[<-|[<-|[]]]]]]; reflexivity.
    - apply total_le_pointwise. intros skill _. apply Hle. }
  destruct (sum_attribute_levels_le F db db' attributes Hattr) as (s & s' & Es & Es' & Hs).
  split; [exact Hle|]. split; [|split].
  - intros a Ha. apply in_map_iff in Ha. destruct Ha as (kv & <- & Hin). now apply Hattr.
  - unfold Slv2.calculate_overall_level. rewrite Es, Es'. cbn [bind].
    change (Z.of_nat (length attributes) * 100) with 500.
    destruct (sigmoid_level_range F HF s 500) as (o & Eo & _); [lia|].
    destruct (sigmoid_level_range F HF s' 500) as (o' & Eo' & _); [lia|].
    exists o, o'. split; [exact Eo|]. split; [exact Eo'|].
    refine (sigmoid_level_le F 500 s s' o o' HF _ Hs Eo Eo'). lia.
  - unfold Slv3.calculate_overall_level. rewrite Es, Es'. cbn [bind].
    exists s, s'. repeat split. exact Hs.
Qed.

Lemma save_update_session_no_decrease (db : database) (ts : string) (us : list update)
    (t : Z) (a s : string) :
  Forall (valid_update db) us ->
  current_skill_level db a s <= current_skill_level (save_update_session db ts us t) a s.
Proof.
  intros Hv. rewrite save_update_session_tables.
  unfold current_skill_level at 2. unfold get_current_skills. cbn [skills].
  rewrite lookup_write_levels.
  destruct (find _ (rev us)) as [u|] eqn:Ef.
  - apply find_some in Ef. destruct Ef as [Hu Hk].
    apply in_rev in Hu. apply key_eqb_true in Hk. injection Hk as <- <-.
    rewrite Forall_forall in Hv. destruct (Hv u Hu) as (Hold & Hlt & _).
    unfold current_skill_level, get_current_skills in *.
    destruct (lookup_level (skills db) (u_attribute u) (u_skill u)); cbn [option_map]; lia.
  - unfold current_skill_level, get_current_skills. lia.
Qed.

(** X12.  With binary64-like arithmetic, an update session from a
    reachable state lowers nothing: after an update session of the text
    menu that returns, and after [process_skill_updates] of the dashboard
    whatever its message, no skill level, no category level, and neither
    the overall level of the text menu nor the one of the dashboard is
    lower than before. *)
Theorem update_sessions_never_lower_the_rollup (F : float_arith) :
  binary64_like F ->
  (forall db ts inputs db' rest,
     reachable db ->
     Slv2.update_skills_session db ts inputs = Ok (db', rest) ->
     rollup_le F db db') /\
  (forall g ts,
     gui_reachable g ->
     rollup_le F (Slv3.store g) (Slv3.store (snd (Slv3.process_skill_updates g ts)))).
Proof.
  intros HF. split.
  - intros db ts inputs db' rest Hr Hrun.
    pose proof (reachable_store_ok db Hr) as Hok.
    apply (rollup_le_levels F db db' HF Hok).
    + exact (update_skills_session_store_ok _ _ _ _ _ Hok Hrun).
    + intros a s. exact (update_skills_session_no_decrease _ _ _ _ _ a s Hrun).
  - intros g ts Hg.
    assert (Hok : store_ok (Slv3.store g)) by (apply reachable_store_ok; now constructor).
    assert (Hok' : store_ok (Slv3.store (snd (Slv3.process_skill_updates g ts)))).
    { apply reachable_store_ok. constructor. now constructor. }
    apply (rollup_le_levels F _ _ HF Hok Hok').
    intros a s.
    destruct (process_skill_updates_cases g ts)
      as [[m ->] | (m & us & t & timestamp & Ec & _ & _ & _ & ->)]; [cbn [snd]; lia|].
    cbn [snd Slv3.refresh_all_data Slv3.store].
    destruct (dashboard_updates_sound g us t Hok (gui_reachable_synced g Hg) Ec) as (_ & Hv).
    now apply save_update_session_no_decrease.
Qed.

Lemma update_sessions_never_lower_the_rollup_witness :
  binary64_like exact /\
  reachable new_store /\
  Slv2.update_skills_session new_store example_timestamp example_inputs
  = Ok (store_after_example, []) /\
  gui_reachable example_gui_update /\
  rollup_le exact new_store store_after_example /\
  rollup_le exact (Slv3.store example_gui_update)
    (Slv3.store (snd (Slv3.process_skill_updates example_gui_update
                        (Some example_timestamp)))).
Proof.
  assert (Hrun : Slv2.update_skills_session new_store example_timestamp example_inputs
                 = Ok (store_after_example, [])) by (vm_compute; reflexivity).
  split; [exact exact_binary64_like|]. split; [exact reach_new|]. split; [exact Hrun|].
  split; [exact example_gui_update_reachable|].
  destruct (update_sessions_never_lower_the_rollup exact exact_binary64_like) as [Hm Hd].
  split.
  - exact (Hm new_store example_timestamp example_inputs store_after_example []
             reach_new Hrun).
  - exact (Hd example_gui_update (Some example_timestamp) example_gui_update_reachable).
Defined.

(* ------------------------------------------------------------------ *)
(** ** sl.py: dictionaries *)

Lemma dict_get_cons {V : Type} (k : string) (kv : string * V) (d : list (string * V)) :
  Sl.dict_get k (kv :: d) = if (fst kv =? k)%string then Some (snd kv) else Sl.dict_get k d.
Proof. unfold Sl.dict_get. cbn [find]. now destruct (fst kv =? k)%string. Qed.

Lemma dict_get_set {V : Type} (k k' : string) (v : V) (d : list (string * V)) :
  Sl.dict_get k (Sl.dict_set k' v d) = if (k' =? k)%string then Some v else Sl.dict_get k d.
Proof.
  induction d as [|kv d IH]; cbn [Sl.dict_set].
  - rewrite dict_get_cons. cbn [fst snd]. now destruct (k' =? k)%string.
  - destruct (String.eqb_spec (fst kv) k') as [E|E].
    + rewrite !dict_get_cons. cbn [fst snd]. rewrite E.
      now destruct (k' =? k)%string.
    + rewrite !dict_get_cons, IH.
      destruct (String.eqb_spec (fst kv) k) as [E1|E1]; [|reflexivity].
      destruct (String.eqb_spec k' k) as [E2|E2]; [|reflexivity]. congruence.
Qed.

Lemma dict_get_in {V : Type} (k : string) (d : list (string * V)) :
  Sl.dict_get k d <> None <-> In k (map fst d).
Proof.
  induction d as [|kv d IH]; [cbn; tauto|].
  rewrite dict_get_cons. cbn [map In].
  destruct (String.eqb_spec (fst kv) k) as [E|E].
  - split; [now left | discriminate].
  - rewrite IH. split; [now right | intros [H|H]; [contradiction | exact H]].
Qed.

Lemma dict_get_none {V : Type} (k : string) (d : list (string * V)) :
  Sl.dict_get k d = None <-> ~ In k (map fst d).
Proof.
  rewrite <- dict_get_in. destruct (Sl.dict_get k d); split; try congruence.
  intros H. elim H. discriminate.
Qed.

Lemma dict_set_keys {V : Type} (k : string) (v : V) (d : list (string * V)) :
  Sl.dict_get k d <> None -> map fst (Sl.dict_set k v d) = map fst d.
Proof.
  induction d as [|kv d IH]; [intros H; now elim H|].
  rewrite dict_get_cons. cbn [Sl.dict_set].
  destruct (String.eqb_spec (fst kv) k) as [E|E]; cbn [map fst]; intros H.
  - now rewrite E.
  - now rewrite IH.
Qed.

Lemma dict_set_new_key {V : Type} (k : string) (v : V) (d : list (string * V)) :
  Sl.dict_get k d = None -> Sl.dict_set k v d = d ++ [(k, v)].
Proof.
  induction d as [|kv d IH]; [reflexivity|].
  rewrite dict_get_cons. cbn [Sl.dict_set app].
  destruct (fst kv =? k)%string; [discriminate|]. intros H. now rewrite IH.
Qed.

Lemma dict_set_same {V : Type} (k : string) (v : V) (d : list (string * V)) :
  Sl.dict_get k d = Some v -> Sl.dict_set k v d = d.
Proof.
  induction d as [|kv d IH]; [discriminate|].
  rewrite dict_get_cons. cbn [Sl.dict_set].
  destruct (String.eqb_spec (fst kv) k) as [E|E].
  - intros [= <-]. rewrite <- E. now destruct kv.
  - intros H. now rewrite IH.
Qed.

(** Dictionaries with the same keys in the same order, none twice, and
    the same values are the same. *)
Lemma dict_ext {V : Type} (d1 d2 : list (string * V)) :
  map fst d1 = map fst d2 -> NoDup (map fst d1) ->
  (forall k, In k (map fst d1) -> Sl.dict_get k d1 = Sl.dict_get k d2) -> d1 = d2.
Proof.
  revert d2. induction d1 as [|[k1 v1] d1 IH]; intros [|[k2 v2] d2]; cbn [map fst];
    try discriminate; [reflexivity|].
  intros [= <- Hk] Hnd Hv. inversion Hnd as [|? ? Hnotin Hnd']; subst.
  f_equal.
  - specialize (Hv k1 (or_introl eq_refl)). rewrite !dict_get_cons in Hv.
    cbn [fst snd] in Hv. rewrite String.eqb_refl in Hv. congruence.
  - apply IH; [exact Hk | exact Hnd'|]. intros k Hin.
    specialize (Hv k (or_intror Hin)). rewrite !dict_get_cons in Hv. cbn [fst] in Hv.
    destruct (String.eqb_spec k1 k) as [E|E]; [subst k; contradiction | exact Hv].
Qed.

(** The merge loop of [load_data], once for attributes and once for
    skills: the values of the keys already present are replaced. *)
Lemma merge_keys {V W : Type} (h : V -> W -> V) (items : list (string * W))
    (d : list (string * V)) :
  map fst (fold_left (fun d item =>
                        match Sl.dict_get (fst item) d with
                        | None => d
                        | Some old => Sl.dict_set (fst item) (h old (snd item)) d
                        end) items d)
  = map fst d.
Proof.
  revert d. induction items as [|item items IH]; intros d; cbn [fold_left]; [reflexivity|].
  rewrite IH. destruct (Sl.dict_get (fst item) d) eqn:E; [|reflexivity].
  apply dict_set_keys. now rewrite E.
Qed.

Lemma merge_get {V W : Type} (h : V -> W -> V) (items : list (string * W))
    (d : list (string * V)) (k : string) :
  NoDup (map fst items) ->
  Sl.dict_get k (fold_left (fun d item =>
                              match Sl.dict_get (fst item) d with
                              | None => d
                              | Some old => Sl.dict_set (fst item) (h old (snd item)) d
                              end) items d)
  = match Sl.dict_get k d with
    | None => None
    | Some old => Some (match Sl.dict_get k items with
                        | Some new => h old new
                        | None => old
                        end)
    end.
Proof.
  revert d. induction items as [|item items IH]; intros d Hnd; cbn [fold_left].
  - now destruct (Sl.dict_get k d).
  - cbn [map] in Hnd. inversion Hnd as [|? ? Hnotin Hnd']; subst.
    rewrite IH by exact Hnd'. rewrite (dict_get_cons k item items).
    destruct (String.eqb_spec (fst item) k) as [<-|Hne].
    + apply dict_get_none in Hnotin. rewrite Hnotin.
      destruct (Sl.dict_get (fst item) d) as [old|] eqn:E.
      * now rewrite dict_get_set, String.eqb_refl.
      * now rewrite E.
    + destruct (Sl.dict_get (fst item) d) as [old|] eqn:E; [|reflexivity].
      rewrite dict_get_set. apply String.eqb_neq in Hne. now rewrite Hne.
Qed.

Lemma shape_init_skill_levels : shape Sl.init_skill_levels = attributes.
Proof. vm_compute. reflexivity. Qed.

Lemma load_data_shape (levels : list (string * list (string * Z))) (file : Sl.data_file) :
  shape (Sl.load_data levels file) = shape levels.
Proof.
  destruct file as [data|]; [|reflexivity]. unfold Sl.load_data.
  generalize (Sl.skill_levels data). intros saved. revert levels.
  induction saved as [|kv saved IH]; intros levels; cbn [fold_left]; [reflexivity|].
  rewrite IH. destruct (Sl.dict_get (fst kv) levels) as [mine|] eqn:E; [|reflexivity].
  pose proof (merge_keys (fun (_ : Z) (new : Z) => new) (snd kv) mine) as Hm.
  cbn beta in Hm.
  set (mine' := fold_left _ (snd kv) mine) in *.
  clear IH. induction levels as [|x levels IHl]; [discriminate|].
  rewrite dict_get_cons in E. cbn [Sl.dict_set].
  destruct (String.eqb_spec (fst x) (fst kv)) as [Ex|Ex].
  - injection E as <-. unfold shape. cbn [map fst snd]. now rewrite Hm, Ex.
  - unfold shape in *. cbn [map]. now rewrite IHl.
Qed.

Lemma dict_get_some_in {V : Type} (k : string) (v : V) (d : list (string * V)) :
  Sl.dict_get k d = Some v -> In (k, v) d.
Proof.
  induction d as [|kv d IH]; [discriminate|]. rewrite dict_get_cons.
  destruct (String.eqb_spec (fst kv) k) as [E|E].
  - intros [= <-]. left. rewrite <- E. now destruct kv.
  - intros H. right. now apply IH.
Qed.

(** X13.  [load_data] of sl.py, on a data file whose dictionaries have no
    key twice, keeps the attributes and skills of the levels in memory,
    adding and dropping none; a skill in memory takes the level saved for
    it in the file when there is one and keeps its level otherwise; what
    the file holds for unknown attributes or skills is ignored. *)
Theorem load_data_merges_saved_levels (levels : list (string * list (string * Z)))
    (data : Sl.data) (a s : string) :
  unique_keys (Sl.skill_levels data) ->
  shape (Sl.load_data levels (Some data)) = shape levels /\
  level_of (Sl.load_data levels (Some data)) a s
  = match level_of levels a s with
    | None => None
    | Some old => Some (match level_of (Sl.skill_levels data) a s with
                        | Some new => new
                        | None => old
                        end)
    end.
Proof.
  intros (Hnd & Hinner). split; [apply load_data_shape|].
  unfold level_of, Sl.load_data.
  pose proof (merge_get
                (fun (mine : list (string * Z)) (saved : list (string * Z)) =>
                   fold_left (fun mine item =>
                                match Sl.dict_get (fst item) mine with
                                | None => mine
                                | Some _ => Sl.dict_set (fst item) (snd item) mine
                                end) saved mine)
                (Sl.skill_levels data) levels a Hnd) as Houter.
  cbn beta in Houter. rewrite Houter. clear Houter.
  destruct (Sl.dict_get a levels) as [mine|]; [|reflexivity].
  destruct (Sl.dict_get a (Sl.skill_levels data)) as [saved|] eqn:Ea.
  - assert (Hs : NoDup (map fst saved)).
    { apply dict_get_some_in in Ea. rewrite Forall_forall in Hinner.
      exact (Hinner _ Ea). }
    pose proof (merge_get (fun (_ : Z) (new : Z) => new) saved mine s Hs) as Hin.
    cbn beta in Hin. rewrite Hin. reflexivity.
  - now destruct (Sl.dict_get s mine).
Qed.

Lemma load_data_merges_saved_levels_witness :
  unique_keys (Sl.skill_levels example_data) /\
  shape (Sl.load_data Sl.init_skill_levels (Some example_data))
  = shape Sl.init_skill_levels /\
  level_of (Sl.load_data Sl.init_skill_levels (Some example_data))
           "career" "technical_mastery"
  = match level_of Sl.init_skill_levels "career" "technical_mastery" with
    | None => None
    | Some old => Some (match level_of (Sl.skill_levels example_data)
                                       "career" "technical_mastery" with
                        | Some new => new
                        | None => old
                        end)
    end.
Proof.
  assert (H : unique_keys (Sl.skill_levels example_data)).
  { split.
    - apply nodup_strings_sound. reflexivity.
    - apply Forall_forall. intros kv Hin. apply nodup_strings_sound.
      cbn in Hin. destruct Hin as [<-|[<-|[<-|[]]]]; reflexivity. }
  split; [exact H|].
  exact (load_data_merges_saved_levels Sl.init_skill_levels example_data
           "career" "technical_mastery" H).
Defined.

Lemma shape_keys {V : Type} (d : list (string * list (string * V))) :
  map fst d = map fst (shape d).
Proof. unfold shape. rewrite map_map. reflexivity. Qed.

Lemma shape_get {V W : Type} (d1 : list (string * list (string * V)))
    (d2 : list (string * list (string * W))) (a : string)
    (x1 : list (string * V)) (x2 : list (string * W)) :
  shape d1 = shape d2 -> Sl.dict_get a d1 = Some x1 -> Sl.dict_get a d2 = Some x2 ->
  map fst x1 = map fst x2.
Proof.
  revert d2. induction d1 as [|kv1 d1 IH]; intros [|kv2 d2]; try discriminate.
  unfold shape. cbn [map]. intros [= Hk Hs Hrest]. rewrite !dict_get_cons, Hk.
  destruct (fst kv2 =? a)%string.
  - intros [= <-] [= <-]. exact Hs.
  - now apply IH.
Qed.

Lemma attributes_unique_keys {V : Type} (d : list (string * list (string * V))) :
  shape d = attributes -> unique_keys d.
Proof.
  intros H. split.
  - rewrite shape_keys, H. apply nodup_strings_sound. reflexivity.
  - assert (G : Forall (fun x => NoDup (snd x)) (shape d)).
    { rewrite H. apply Forall_forall. intros x Hin. apply nodup_strings_sound.
      cbn in Hin. destruct Hin as [<-|[<-|[<-|[<-|[<-|[]]]]]]; reflexivity. }
    unfold shape in G. rewrite Forall_map in G. exact G.
Qed.

(** X14.  What [save_data] writes is what the next start reads: for levels
    over the taxonomy, saving them into any data file and then loading the
    file into the levels of [__init__] gives the same levels back. *)
Theorem saved_levels_are_loaded_again (levels : list (string * list (string * Z)))
    (file : Sl.data_file) :
  shape levels = attributes ->
  Sl.load_data Sl.init_skill_levels (Sl.save_data levels file) = levels.
Proof.
  intros Hshape. destruct (attributes_unique_keys levels Hshape) as (Hnd & Hinner).
  unfold Sl.save_data.
  set (data := {| Sl.skill_levels := levels; Sl.sessions := _ |}).
  assert (Hsh : shape (Sl.load_data Sl.init_skill_levels (Some data)) = shape levels).
  { rewrite load_data_shape. now rewrite Hshape, shape_init_skill_levels. }
  apply dict_ext.
  - now rewrite !shape_keys, Hsh.
  - now rewrite shape_keys, Hsh, <- shape_keys.
  - intros a _. unfold Sl.load_data. cbn [data Sl.skill_levels].
    pose proof (merge_get
                  (fun (mine : list (string * Z)) (saved : list (string * Z)) =>
                     fold_left (fun mine item =>
                                  match Sl.dict_get (fst item) mine with
                                  | None => mine
                                  | Some _ => Sl.dict_set (fst item) (snd item) mine
                                  end) saved mine)
                  levels Sl.init_skill_levels a Hnd) as Houter.
    cbn beta in Houter. rewrite Houter. clear Houter.
    destruct (Sl.dict_get a levels) as [saved|] eqn:Ea.
    + destruct (Sl.dict_get a Sl.init_skill_levels) as [ones|] eqn:Eo.
      * f_equal.
        assert (Hkeys : map fst ones = map fst saved).
        { apply (shape_get Sl.init_skill_levels levels a); try assumption.
          now rewrite shape_init_skill_levels. }
        assert (Hs : NoDup (map fst saved)).
        { apply dict_get_some_in in Ea. rewrite Forall_forall in Hinner.
          exact (Hinner _ Ea). }
        pose proof (merge_keys (fun (_ : Z) (new : Z) => new) saved ones) as Hmk.
        cbn beta in Hmk.
        apply dict_ext.
        -- now rewrite Hmk.
        -- now rewrite Hmk, Hkeys.
        -- intros s Hin. rewrite Hmk in Hin.
           pose proof (merge_get (fun (_ : Z) (new : Z) => new) saved ones s Hs) as Hget.
           cbn beta in Hget. rewrite Hget.
           destruct (Sl.dict_get s ones) as [old|] eqn:E1;
             [|apply dict_get_none in E1; contradiction].
           destruct (Sl.dict_get s saved) as [new|] eqn:E2; [reflexivity|].
           apply dict_get_none in E2. rewrite <- Hkeys in E2. contradiction.
      * exfalso. apply dict_get_none in Eo.
        assert (In a (map fst levels)) as Hin
            by (apply dict_get_in; now rewrite Ea).
        apply Eo. rewrite shape_keys, shape_init_skill_levels, <- Hshape, <- shape_keys.
        exact Hin.
    + destruct (Sl.dict_get a Sl.init_skill_levels) as [ones|] eqn:Eo; [|reflexivity].
      exfalso. apply dict_get_none in Ea.
      assert (In a (map fst Sl.init_skill_levels)) as Hin
          by (apply dict_get_in; now rewrite Eo).
      apply Ea. rewrite shape_keys, Hshape, <- shape_init_skill_levels, <- shape_keys.
      exact Hin.
Qed.

Lemma saved_levels_are_loaded_again_witness :
  shape Sl.init_skill_levels = attributes /\
  Sl.load_data Sl.init_skill_levels (Sl.save_data Sl.init_skill_levels None)
  = Sl.init_skill_levels.
Proof.
  split; [exact shape_init_skill_levels|].
  exact (saved_levels_are_loaded_again Sl.init_skill_levels None shape_init_skill_levels).
Defined.

(* ------------------------------------------------------------------ *)
(** ** sl.py: the update session *)

Lemma sl_prompt_level_same (current_level : Z) (inputs : list field_input) :
  Sl.prompt_level current_level inputs = Slv2.prompt_level current_level inputs.
Proof.
  induction inputs as [|v inputs IH]; [reflexivity|].
  cbn [Sl.prompt_level Slv2.prompt_level]. rewrite IH. reflexivity.
Qed.

Lemma nested_set_shape {V : Type} (levels : list (string * list (string * V)))
    (a s : string) (v : V) (mine : list (string * V)) :
  Sl.dict_get a levels = Some mine -> Sl.dict_get s mine <> None ->
  shape (Sl.dict_set a (Sl.dict_set s v mine) levels) = shape levels.
Proof.
  intros Ha Hs. induction levels as [|x levels IH]; [discriminate|].
  rewrite dict_get_cons in Ha. cbn [Sl.dict_set].
  destruct (String.eqb_spec (fst x) a) as [E|E].
  - injection Ha as <-. unfold shape. cbn [map fst snd].
    now rewrite dict_set_keys, E.
  - unfold shape in *. cbn [map]. now rewrite IH.
Qed.

Lemma nested_set_level {V : Type} (levels : list (string * list (string * V)))
    (a s : string) (v : V) (mine : list (string * V)) (a' s' : string) :
  Sl.dict_get a levels = Some mine ->
  level_of (Sl.dict_set a (Sl.dict_set s v mine) levels) a' s'
  = if ((a =? a') && (s =? s'))%string then Some v else level_of levels a' s'.
Proof.
  intros Ha. unfold level_of. rewrite dict_get_set.
  destruct (String.eqb_spec a a') as [<-|E]; cbn [andb]; [|reflexivity].
  now rewrite dict_get_set, Ha.
Qed.

Lemma shape_level_of {V : Type} (levels : list (string * list (string * V)))
    (kv : string * list string) (s : string) :
  NoDup (map fst (shape levels)) -> In kv (shape levels) -> In s (snd kv) ->
  level_of levels (fst kv) s <> None.
Proof.
  unfold level_of. induction levels as [|x levels IH]; [contradiction|].
  unfold shape. cbn [map fst]. intros Hnd Hin Hs.
  inversion Hnd as [|? ? Hnotin Hnd']; subst.
  rewrite dict_get_cons. destruct Hin as [<-|Hin]; cbn [fst snd] in *.
  - rewrite String.eqb_refl. now apply dict_get_in.
  - destruct (String.eqb_spec (fst x) (fst kv)) as [E|E].
    + elim Hnotin. rewrite E. now apply (in_map fst) in Hin.
    + now apply IH.
Qed.

(** The inner loop of the update session, over the skills of one
    attribute. *)
Lemma sl_inner_loop (a : string) (l : list string)
    (levels0 levels1 : list (string * list (string * Z)))
    (changes1 : list (string * level_change)) (in0 in1 : list field_input) :
  NoDup l -> (forall s, In s l -> level_of levels0 a s <> None) ->
  foldM (fun acc skill => Sl.update_one_skill a skill acc) l (levels0, [], in0)
  = Ok (levels1, changes1, in1) ->
  shape levels1 = shape levels0 /\
  map fst changes1 = l /\
  (forall a' s', a' <> a \/ ~ In s' l -> level_of levels1 a' s' = level_of levels0 a' s') /\
  (forall s, In s l ->
     exists old new,
       level_of levels0 a s = Some old /\ level_of levels1 a s = Some new /\
       Sl.dict_get s changes1
       = Some {| lc_old_level := old; lc_new_level := new; lc_gain := new - old |} /\
       accepted_change in0 old new) /\
  exists used, in0 = used ++ in1.
Proof.
  intros Hnd Hknown Hrun.
  pose (P := fun (done : list string)
                 (acc : list (string * list (string * Z)) * list (string * level_change)
                        * list field_input) =>
               shape (fst (fst acc)) = shape levels0 /\
               map fst (snd (fst acc)) = done /\
               (forall a' s', a' <> a \/ ~ In s' done ->
                  level_of (fst (fst acc)) a' s' = level_of levels0 a' s') /\
               (forall s, In s done ->
                  exists old new,
                    level_of levels0 a s = Some old /\
                    level_of (fst (fst acc)) a s = Some new /\
                    Sl.dict_get s (snd (fst acc))
                    = Some {| lc_old_level := old; lc_new_level := new;
                              lc_gain := new - old |} /\
                    accepted_change in0 old new) /\
               exists used, in0 = used ++ snd acc).
  change (P l (levels1, changes1, in1)).
  eapply (foldM_invariant P); [| |exact Hrun].
  - unfold P. cbn [fst snd]. repeat split; try reflexivity; try contradiction.
    now exists [].
  - intros done s post [[lv ch] ins] [[lv' ch'] ins'] El (P1 & P2 & P3 & P4 & used & P5).
    cbn [fst snd] in P1, P2, P3, P4, P5.
    assert (Hs : ~ In s done).
    { rewrite El in Hnd. apply NoDup_remove_2 in Hnd. intros H. apply Hnd.
      apply in_or_app. now left. }
    assert (Hin : In s l) by (rewrite El; apply in_or_app; right; now left).
    assert (Hold : level_of lv a s = level_of levels0 a s) by (apply P3; now right).
    unfold Sl.update_one_skill, Sl.dict_item. cbv beta iota.
    pose proof (Hknown s Hin) as Hk. rewrite <- Hold in Hk. unfold level_of in Hk, Hold.
    destruct (Sl.dict_get a lv) as [mine|] eqn:Ea; [|now elim Hk]. cbn [bind].
    destruct (Sl.dict_get s mine) as [old|] eqn:Es; [|now elim Hk]. cbn [bind].
    rewrite sl_prompt_level_same.
    destruct (Slv2.prompt_level old ins) as [[new ins1]|e] eqn:Ep; cbn [bind]; [|discriminate].
    intros [= <- <- <-].
    destruct (prompt_level_accepts _ _ _ _ Ep) as (Hacc & used1 & ->).
    unfold P. cbn [fst snd]. split; [|split; [|split; [|split]]].
    + rewrite nested_set_shape; [exact P1 | exact Ea | now rewrite Es].
    + rewrite dict_set_new_key; [now rewrite map_app, P2|].
      apply dict_get_none. now rewrite P2.
    + intros a' s' Hd. rewrite (nested_set_level lv a s new mine a' s' Ea).
      destruct (String.eqb_spec a a') as [<-|Ea']; cbn [andb].
      * destruct (String.eqb_spec s s') as [<-|Es'].
        -- destruct Hd as [Hd|Hd]; [now elim Hd|]. elim Hd. apply in_or_app. right. now left.
        -- apply P3. destruct Hd as [Hd|Hd]; [now left|]. right. intros H. apply Hd.
           apply in_or_app. now left.
      * apply P3. left. congruence.
    + intros s' Hs'. apply in_app_or in Hs'. destruct Hs' as [Hs'|[<-|[]]].
      * destruct (P4 s' Hs') as (old' & new' & Q1 & Q2 & Q3 & Q4).
        exists old', new'. split; [exact Q1|].
        assert (Hne : s <> s') by (intros ->; contradiction).
        apply String.eqb_neq in Hne. split; [|split; [|exact Q4]].
        -- rewrite (nested_set_level lv a s new mine a s' Ea), Hne, andb_false_r. exact Q2.
        -- rewrite dict_get_set, Hne. exact Q3.
      * exists old, new. split; [symmetry; exact Hold|]. split; [|split].
        -- rewrite (nested_set_level lv a s new mine a s Ea), !String.eqb_refl. reflexivity.
        -- rewrite dict_get_set, String.eqb_refl. reflexivity.
        -- unfold accepted_change. destruct Hacc as [->|(Hi & H1 & H2 & H3)]; [now left|].
           right. split; [|now repeat split]. rewrite P5. apply in_or_app. now right.
    + exists (used ++ used1). now rewrite P5, app_assoc.
Qed.

Lemma accepted_change_more (used ins : list field_input) (old new : Z) :
  accepted_change ins old new -> accepted_change (used ++ ins) old new.
Proof.
  intros [H|(Hi & H)]; [now left|]. right. split; [|exact H].
  apply in_or_app. now right.
Qed.

Lemma attributes_names_NoDup : NoDup (map fst attributes).
Proof. apply nodup_strings_sound. reflexivity. Qed.

Lemma attributes_skills_NoDup (kv : string * list string) :
  In kv attributes -> NoDup (snd kv).
Proof.
  intros Hin. apply nodup_strings_sound.
  cbn in Hin. destruct Hin as [<-|[<-|[<-|[<-|[<-|[]]]]]]; reflexivity.
Qed.

(** The two loops of the update session of sl.py. *)
Lemma sl_update_loops (levels levels' : list (string * list (string * Z)))
    (session_updates : list (string * list (string * level_change)))
    (inputs rest : list field_input) :
  shape levels = attributes ->
  foldM (fun acc kv =>
           let '(levels, session_updates, inputs) := acc in
           '(levels', changes, inputs') <-
             foldM (fun acc skill => Sl.update_one_skill (fst kv) skill acc)
                   (snd kv) (levels, [], inputs) ;;
           Ok (levels', Sl.dict_set (fst kv) changes session_updates, inputs'))
        attributes (levels, [], inputs)
  = Ok (levels', session_updates, rest) ->
  shape levels' = attributes /\
  shape session_updates = attributes /\
  (forall kv s, In kv attributes -> In s (snd kv) ->
     exists old new,
       level_of levels (fst kv) s = Some old /\
       level_of levels' (fst kv) s = Some new /\
       level_of session_updates (fst kv) s
       = Some {| lc_old_level := old; lc_new_level := new; lc_gain := new - old |} /\
       accepted_change inputs old new) /\
  exists used, inputs = used ++ rest.
Proof.
  intros Hshape Hrun.
  pose (R := fun (done : list (string * list string))
                 (acc : list (string * list (string * Z))
                        * list (string * list (string * level_change))
                        * list field_input) =>
               shape (fst (fst acc)) = attributes /\
               shape (snd (fst acc)) = done /\
               (forall a' s', ~ In a' (map fst done) ->
                  level_of (fst (fst acc)) a' s' = level_of levels a' s') /\
               (forall kv s, In kv done -> In s (snd kv) ->
                  exists old new,
                    level_of levels (fst kv) s = Some old /\
                    level_of (fst (fst acc)) (fst kv) s = Some new /\
                    level_of (snd (fst acc)) (fst kv) s
                    = Some {| lc_old_level := old; lc_new_level := new;
                              lc_gain := new - old |} /\
                    accepted_change inputs old new) /\
               exists used, inputs = used ++ snd acc).
  assert (HR : R attributes (levels', session_updates, rest)).
  { eapply (foldM_invariant R); [| |exact Hrun].
    - unfold R. cbn [fst snd]. repeat split; try reflexivity; try contradiction.
      + exact Hshape.
      + now exists [].
    - intros done kv post [[lv su] ins] [[lv' su'] ins'] El (R1 & R2 & R3 & R4 & used & R5).
      cbn [fst snd] in R1, R2, R3, R4, R5.
      destruct (foldM _ (snd kv) _) as [[[lv1 changes] ins1]|e] eqn:Ei; cbn [bind];
        [|discriminate].
      intros [= <- <- <-].
      assert (Hkv : In kv attributes) by (rewrite El; apply in_or_app; right; now left).
      assert (Hnew : ~ In (fst kv) (map fst done)).
      { pose proof attributes_names_NoDup as Hnd. rewrite El, map_app in Hnd.
        cbn [map] in Hnd. apply NoDup_remove_2 in Hnd. intros H. apply Hnd.
        apply in_or_app. now left. }
      destruct (sl_inner_loop (fst kv) (snd kv) lv lv1 changes ins ins1)
        as (I1 & I2 & I3 & I4 & used1 & I5); [| |exact Ei|].
      + now apply attributes_skills_NoDup.
      + intros s Hs. apply shape_level_of; [| |exact Hs].
        * rewrite R1. exact attributes_names_NoDup.
        * now rewrite R1.
      + unfold R. cbn [fst snd].
        assert (Esu : Sl.dict_set (fst kv) changes su = su ++ [(fst kv, changes)]).
        { apply dict_set_new_key. apply dict_get_none.
          now rewrite shape_keys, R2. }
        split; [now rewrite I1|]. split; [|split; [|split]].
        * rewrite Esu. unfold shape in *. rewrite map_app, R2. cbn [map fst snd].
          rewrite I2. now destruct kv.
        * intros a' s' Hn. rewrite I3.
          -- apply R3. intros H. apply Hn. rewrite map_app. apply in_or_app. now left.
          -- left. intros ->. apply Hn. rewrite map_app. apply in_or_app. right. now left.
        * intros kv' s Hin Hs. apply in_app_or in Hin. destruct Hin as [Hin|[<-|[]]].
          -- destruct (R4 kv' s Hin Hs) as (old & new & Q1 & Q2 & Q3 & Q4).
             assert (Hne : fst kv' <> fst kv).
             { intros E. apply Hnew. rewrite <- E. now apply in_map. }
             exists old, new. split; [exact Q1|]. split; [|split; [|exact Q4]].
             ++ rewrite I3; [exact Q2 | now left].
             ++ unfold level_of in *. rewrite dict_get_set.
                apply not_eq_sym in Hne. apply String.eqb_neq in Hne. now rewrite Hne.
          -- destruct (I4 s Hs) as (old & new & Q1 & Q2 & Q3 & Q4).
             exists old, new. split; [|split; [exact Q2|split]].
             ++ rewrite <- Q1. symmetry. now apply R3.
             ++ unfold level_of. now rewrite dict_get_set, String.eqb_refl.
             ++ rewrite R5. now apply accepted_change_more.
        * exists (used ++ used1). now rewrite R5, I5, app_assoc. }
  destruct HR as (R1 & R2 & _ & R4 & R5). cbn [fst snd] in R1, R2, R4, R5.
  repeat split; assumption.
Qed.

(** X15.  An update session of sl.py that returns, on levels over the
    taxonomy: the levels afterwards are over the taxonomy; the session
    carries the clock's timestamp and one entry for each of the 50
    skills, changed or not, with the level before, the level after and
    their difference; no level is lower than before, and each is the old
    one or a typed number above it by at most 10 and at most 100; the
    lines left are a suffix of the lines given; the file afterwards holds
    the new levels and the sessions it had, followed by this one. *)
Theorem json_update_session (levels levels' : list (string * list (string * Z)))
    (file file' : Sl.data_file) (now : string) (inputs rest : list field_input)
    (session : session_data) :
  shape levels = attributes ->
  Sl.update_skills_session levels file now inputs = Ok (levels', file', session, rest) ->
  shape levels' = attributes /\
  timestamp session = now /\
  shape (updates session) = attributes /\
  (forall a s, In (a, s) taxonomy_keys ->
     exists old new,
       level_of levels a s = Some old /\
       level_of levels' a s = Some new /\
       level_of (updates session) a s
       = Some {| lc_old_level := old; lc_new_level := new; lc_gain := new - old |} /\
       old <= new /\ accepted_change inputs old new) /\
  (exists used, inputs = used ++ rest) /\
  file' = Some {| Sl.skill_levels := levels';
                  Sl.sessions := Some (sessions_of file ++ [session]) |}.
Proof.
  intros Hshape. unfold Sl.update_skills_session.
  destruct (foldM _ attributes _) as [[[lv su] ins]|e] eqn:Ef; cbn [bind]; [|discriminate].
  intros [= <- <- <- <-].
  destruct (sl_update_loops levels lv su inputs ins Hshape Ef) as (H1 & H2 & H3 & H4).
  cbn [timestamp updates].
  split; [exact H1|]. split; [reflexivity|]. split; [exact H2|]. split; [|split; [exact H4|]].
  - intros a s Hin. unfold taxonomy_keys in Hin. apply in_flat_map in Hin.
    destruct Hin as (kv & Hkv & Hs). apply in_map_iff in Hs.
    destruct Hs as (s' & [= <- <-] & Hs).
    destruct (H3 kv s' Hkv Hs) as (old & new & Q1 & Q2 & Q3 & Q4).
    exists old, new. repeat split; try assumption.
    destruct Q4 as [->|(_ & Hle & _)]; lia.
  - unfold Sl.save_data, Sl.save_session, sessions_of.
    destruct file as [d|]; reflexivity.
Qed.

Lemma dict_get_of_in {V : Type} (k : string) (v : V) (d : list (string * V)) :
  NoDup (map fst d) -> In (k, v) d -> Sl.dict_get k d = Some v.
Proof.
  induction d as [|kv d IH]; [contradiction|]. cbn [map].
  intros Hnd Hin. inversion Hnd as [|? ? Hnotin Hnd']; subst.
  rewrite dict_get_cons. destruct Hin as [->|Hin]; cbn [fst snd].
  - now rewrite String.eqb_refl.
  - destruct (String.eqb_spec (fst kv) k) as [E|E]; [|now apply IH].
    elim Hnotin. rewrite E. now apply (in_map fst) in Hin.
Qed.

(** A property of every value of a nested dictionary over the taxonomy,
    from the property of its lookups. *)
Lemma taxonomy_entries {V : Type} (P : V -> Prop)
    (d : list (string * list (string * V))) :
  shape d = attributes ->
  (forall a s v, In (a, s) taxonomy_keys -> level_of d a s = Some v -> P v) ->
  Forall (fun kv => Forall (fun item => P (snd item)) (snd kv)) d.
Proof.
  intros Hshape H. destruct (attributes_unique_keys d Hshape) as (Hnd & Hinner).
  apply Forall_forall. intros [a items] Hkv. apply Forall_forall. intros [s v] Hitem.
  cbn [fst snd] in *.
  rewrite Forall_forall in Hinner. pose proof (Hinner _ Hkv) as Hnd'. cbn [snd] in Hnd'.
  apply (H a s v).
  - unfold taxonomy_keys. apply in_flat_map. exists (a, map fst items). split.
    + rewrite <- Hshape. unfold shape.
      change (a, map fst items)
        with ((fun kv : string * list (string * V) => (fst kv, map fst (snd kv))) (a, items)).
      now apply in_map.
    + cbn [fst snd]. apply in_map. now apply (in_map fst) in Hitem.
  - unfold level_of. rewrite (dict_get_of_in a items d Hnd Hkv).
    now apply dict_get_of_in.
Qed.

Lemma sl_inner_blank (a : string) (l : list string)
    (lv : list (string * list (string * Z))) (ch : list (string * level_change))
    (rest : list field_input) :
  (forall s, In s l -> level_of lv a s <> None) ->
  exists ch',
    foldM (fun acc skill => Sl.update_one_skill a skill acc) l
          (lv, ch, repeat Blank (length l) ++ rest)
    = Ok (lv, ch', rest).
Proof.
  revert ch. induction l as [|s l IH]; intros ch Hknown; [now exists ch|].
  cbn [foldM length repeat app]. unfold Sl.update_one_skill at 1. unfold Sl.dict_item.
  pose proof (Hknown s (or_introl eq_refl)) as Hs. unfold level_of in Hs.
  destruct (Sl.dict_get a lv) as [mine|] eqn:Ea; [|now elim Hs]. cbn [bind].
  destruct (Sl.dict_get s mine) as [old|] eqn:Es; [|now elim Hs].
  cbn [bind Sl.prompt_level].
  rewrite (dict_set_same s old mine Es), (dict_set_same a mine lv Ea).
  apply IH. intros s' Hs'. apply Hknown. now right.
Qed.

Lemma sl_outer_blank (attrs : list (string * list string))
    (lv : list (string * list (string * Z)))
    (su : list (string * list (string * level_change))) (rest : list field_input) :
  (forall kv s, In kv attrs -> In s (snd kv) -> level_of lv (fst kv) s <> None) ->
  exists su',
    foldM (fun acc kv =>
             let '(levels, session_updates, inputs) := acc in
             '(levels', changes, inputs') <-
               foldM (fun acc skill => Sl.update_one_skill (fst kv) skill acc)
                     (snd kv) (levels, [], inputs) ;;
             Ok (levels', Sl.dict_set (fst kv) changes session_updates, inputs'))
          attrs (lv, su, repeat Blank (length (flat_map snd attrs)) ++ rest)
    = Ok (lv, su', rest).
Proof.
  revert su. induction attrs as [|kv attrs IH]; intros su Hknown; [now exists su|].
  cbn [foldM flat_map]. rewrite length_app, repeat_app, <- app_assoc.
  destruct (sl_inner_blank (fst kv) (snd kv) lv []
              (repeat Blank (length (flat_map snd attrs)) ++ rest)) as (ch & ->).
  - intros s Hs. apply (Hknown kv s); [now left | exact Hs].
  - cbn [bind]. apply IH. intros kv' s Hin Hs. apply (Hknown kv' s); [now right | exact Hs].
Qed.

Lemma summary_of_nonnegative (l : list (string * list (string * level_change)))
    (lines : list (string * Z)) (t : Z) :
  Forall (fun kv => 0 <= sum_gains (snd kv)) l ->
  snd (fold_left (fun acc kv =>
                    let '(lines, total_gains) := acc in
                    let attr_gains := sum_gains (snd kv) in
                    if 0 <? attr_gains
                    then (lines ++ [(fst kv, attr_gains)], total_gains + attr_gains)
                    else (lines, total_gains))
                 l (lines, t))
  = t + total (map (fun kv => sum_gains (snd kv)) l).
Proof.
  intros H. revert lines t. induction H as [|kv l Hkv _ IH]; intros lines t;
    cbn [fold_left map total fold_right snd]; [lia|].
  destruct (Z.ltb_spec 0 (sum_gains (snd kv))); rewrite IH; unfold total; lia.
Qed.

Lemma history_total_fold (l : list (string * list (string * level_change))) (t : Z) :
  fold_left (fun total_gains kv => total_gains + sum_gains (snd kv)) l t
  = t + total (map (fun kv => sum_gains (snd kv)) l).
Proof.
  revert t. induction l as [|kv l IH]; intros t; cbn [fold_left map total fold_right]; [lia|].
  rewrite IH. unfold total. lia.
Qed.

Lemma sum_gains_nonneg (d : list (string * level_change)) :
  Forall (fun item => 0 <= lc_gain (snd item)) d -> 0 <= sum_gains d.
Proof.
  intros H. unfold sum_gains. apply (total_nonneg (map (fun kv => lc_gain (snd kv)) d)).
  now apply Forall_map.
Qed.

Lemma last_ten_snoc {A : Type} (l : list A) (x : A) :
  exists before, Sl.last_ten (l ++ [x]) = before ++ [x].
Proof.
  unfold Sl.last_ten. rewrite length_app. cbn [length].
  exists (skipn (length l + 1 - 10) l). rewrite skipn_app.
  replace (length l + 1 - 10 - length l)%nat with 0%nat by lia. reflexivity.
Qed.

(** X16.  After an update session of sl.py the total printed by
    [display_session_summary] is the sum of all gains of the session, is
    not negative, and is the total that [view_history] then shows for the
    session, which is the last line of the history. *)
Theorem session_summary_agrees_with_history
    (levels levels' : list (string * list (string * Z)))
    (file file' : Sl.data_file) (now : string) (inputs rest : list field_input)
    (session : session_data) :
  shape levels = attributes ->
  Sl.update_skills_session levels file now inputs = Ok (levels', file', session, rest) ->
  0 <= snd (Sl.display_session_summary session) /\
  snd (Sl.display_session_summary session)
  = total (map (fun kv => sum_gains (snd kv)) (updates session)) /\
  exists shown_before,
    Sl.view_history file'
    = shown_before ++ [(session, snd (Sl.display_session_summary session))].
Proof.
  intros Hshape Hrun.
  assert (Hfile : file' = Sl.save_data levels' (Sl.save_session file session)).
  { unfold Sl.update_skills_session in Hrun.
    destruct (foldM _ attributes _) as [[[lv su] ins]|e]; cbn [bind] in Hrun; [|discriminate].
    now injection Hrun as <- <- <- <-. }
  unfold Sl.update_skills_session in Hrun.
  destruct (foldM _ attributes _) as [[[lv su] ins]|e] eqn:Ef; cbn [bind] in Hrun;
    [|discriminate].
  injection Hrun as <- _ <- <-.
  destruct (sl_update_loops levels lv su inputs ins Hshape Ef) as (_ & H2 & H3 & _).
  cbn [updates] in *.
  assert (Hnn : Forall (fun kv => 0 <= sum_gains (snd kv)) su).
  { pose proof (taxonomy_entries (fun c => 0 <= lc_gain c) su H2) as Hent.
    eapply Forall_impl; [|apply Hent].
    - intros kv Hkv. now apply sum_gains_nonneg.
    - intros a s c Hin Hc. unfold taxonomy_keys in Hin. apply in_flat_map in Hin.
      destruct Hin as (kv & Hkv & Hs). apply in_map_iff in Hs.
      destruct Hs as (s' & [= <- <-] & Hs).
      destruct (H3 kv s' Hkv Hs) as (old & new & _ & _ & Q3 & Q4).
      rewrite Q3 in Hc. injection Hc as <-. cbn [lc_gain].
      destruct Q4 as [->|(_ & Hle & _)]; lia. }
  assert (Hsum : snd (Sl.display_session_summary {| timestamp := now; updates := su |})
                 = total (map (fun kv => sum_gains (snd kv)) su)).
  { pose proof (summary_of_nonnegative su [] 0 Hnn) as Hs.
    rewrite Z.add_0_l in Hs. exact Hs. }
  split; [|split; [exact Hsum|]].
  - rewrite Hsum. apply total_nonneg. now apply Forall_map.
  - subst file'. unfold Sl.view_history, Sl.save_data, Sl.save_session.
    cbn [Sl.sessions].
    destruct (last_ten_snoc (sessions_of file) {| timestamp := now; updates := su |})
      as (before & Hb).
    unfold sessions_of in Hb.
    destruct file as [d|]; cbn [Sl.sessions]; rewrite Hb, map_app; cbn [map];
      rewrite history_total_fold, Hsum, Z.add_0_l; eexists; reflexivity.
Qed.

Lemma sum_gains_zero (d : list (string * level_change)) :
  Forall (fun item => lc_gain (snd item) = 0) d -> sum_gains d = 0.
Proof.
  unfold sum_gains. induction 1 as [|item d Hi _ IH]; cbn [map fold_right]; [reflexivity|].
  rewrite Hi, IH. reflexivity.
Qed.

Lemma summary_of_no_gain (l : list (string * list (string * level_change)))
    (acc : list (string * Z) * Z) :
  Forall (fun kv => sum_gains (snd kv) = 0) l ->
  fold_left (fun acc kv =>
               let '(lines, total_gains) := acc in
               let attr_gains := sum_gains (snd kv) in
               if 0 <? attr_gains
               then (lines ++ [(fst kv, attr_gains)], total_gains + attr_gains)
               else (lines, total_gains))
            l acc
  = acc.
Proof.
  induction 1 as [|kv l Hkv _ IH]; cbn [fold_left]; [reflexivity|].
  destruct acc as [lines t]. rewrite Hkv. cbn [Z.ltb Z.compare]. exact IH.
Qed.

(** X17.  An update session of sl.py whose 50 prompts are all answered
    with an empty line leaves the levels as they were and still appends a
    session to the file: one with an entry of gain 0 for every skill, for
    which the summary prints no attribute and the total 0. *)
Theorem json_blank_session_is_recorded (levels : list (string * list (string * Z)))
    (file : Sl.data_file) (now : string) (rest : list field_input) :
  shape levels = attributes ->
  exists session,
    Sl.update_skills_session levels file now (repeat Blank 50 ++ rest)
    = Ok (levels,
          Some {| Sl.skill_levels := levels;
                  Sl.sessions := Some (sessions_of file ++ [session]) |},
          session, rest) /\
    timestamp session = now /\
    shape (updates session) = attributes /\
    Sl.display_session_summary session = ([], 0) /\
    (forall a s, In (a, s) taxonomy_keys ->
       exists old,
         level_of levels a s = Some old /\
         level_of (updates session) a s
         = Some {| lc_old_level := old; lc_new_level := old; lc_gain := 0 |}).
Proof.
  intros Hshape.
  destruct (sl_outer_blank attributes levels [] rest) as (su & Hrun).
  { intros kv s Hkv Hs. apply shape_level_of; [| |exact Hs].
    - rewrite Hshape. exact attributes_names_NoDup.
    - now rewrite Hshape. }
  change (length (flat_map snd attributes)) with 50%nat in Hrun.
  destruct (sl_update_loops levels levels su _ rest Hshape Hrun) as (_ & H2 & H3 & _).
  assert (Hchange : forall a s, In (a, s) taxonomy_keys ->
             exists old,
               level_of levels a s = Some old /\
               level_of su a s
               = Some {| lc_old_level := old; lc_new_level := old; lc_gain := 0 |}).
  { intros a s Hin. unfold taxonomy_keys in Hin. apply in_flat_map in Hin.
    destruct Hin as (kv & Hkv & Hs). apply in_map_iff in Hs.
    destruct Hs as (s' & [= <- <-] & Hs).
    destruct (H3 kv s' Hkv Hs) as (old & new & Q1 & Q2 & Q3 & _).
    rewrite Q1 in Q2. injection Q2 as <-. rewrite Z.sub_diag in Q3.
    exists old. now split. }
  exists {| timestamp := now; updates := su |}.
  split; [|split; [reflexivity|split; [exact H2|split; [|exact Hchange]]]].
  - unfold Sl.update_skills_session. rewrite Hrun. cbn [bind].
    unfold Sl.save_data, Sl.save_session, sessions_of. destruct file as [d|]; reflexivity.
  - unfold Sl.display_session_summary. cbn [updates]. apply summary_of_no_gain.
    pose proof (taxonomy_entries (fun c => lc_gain c = 0) su H2) as Hent.
    eapply Forall_impl; [|apply Hent].
    + intros kv Hkv. now apply sum_gains_zero.
    + intros a s c Hin Hc. destruct (Hchange a s Hin) as (old & _ & E).
      rewrite E in Hc. now injection Hc as <-.
Qed.

Lemma json_blank_session_is_recorded_witness :
  shape Sl.init_skill_levels = attributes /\
  exists session,
    Sl.update_skills_session Sl.init_skill_levels None example_timestamp
      (repeat Blank 50 ++ [])
    = Ok (Sl.init_skill_levels,
          Some {| Sl.skill_levels := Sl.init_skill_levels;
                  Sl.sessions := Some (sessions_of None ++ [session]) |},
          session, []) /\
    timestamp session = example_timestamp /\
    shape (updates session) = attributes /\
    Sl.display_session_summary session = ([], 0) /\
    (forall a s, In (a, s) taxonomy_keys ->
       exists old,
         level_of Sl.init_skill_levels a s = Some old /\
         level_of (updates session) a s
         = Some {| lc_old_level := old; lc_new_level := old; lc_gain := 0 |}).
Proof.
  split; [exact shape_init_skill_levels|].
  exact (json_blank_session_is_recorded Sl.init_skill_levels None example_timestamp []
           shape_init_skill_levels).
Defined.

(* ------------------------------------------------------------------ *)
(** ** sl.py and the store agree on the levels they show *)

Lemma dict_values_by_get (d : list (string * Z)) :
  NoDup (map fst d) ->
  map snd d
  = map (fun k => match Sl.dict_get k d with Some v => v | None => 0 end) (map fst d).
Proof.
  intros Hnd. rewrite map_map. apply map_ext_in. intros [k v] Hin.
  cbn [fst snd]. now rewrite (dict_get_of_in k v d Hnd Hin).
Qed.

Lemma overall_sum_fold (f g : string -> result Z) (attrs : list (string * list string))
    (t : Z) :
  (forall kv, In kv attrs -> f (fst kv) = g (fst kv)) ->
  foldM (fun total kv => level <- f (fst kv) ;; Ok (total + level)) attrs t
  = (s <- (fix sum (attrs : list (string * list string)) : result Z :=
             match attrs with
             | [] => Ok 0
             | kv :: rest => level <- g (fst kv) ;; total <- sum rest ;; Ok (level + total)
             end) attrs ;;
     Ok (t + s)).
Proof.
  revert t. induction attrs as [|kv attrs IH]; intros t Hfg; cbn [foldM bind].
  - now rewrite Z.add_0_r.
  - rewrite (Hfg kv (or_introl eq_refl)).
    destruct (g (fst kv)) as [level|e]; cbn [bind]; [|reflexivity].
    rewrite IH by (intros; apply Hfg; now right).
    match goal with |- context [bind ?r _] => destruct r as [s|e] end; cbn [bind];
      [|reflexivity].
    f_equal. lia.
Qed.

(** X18.  sl.py and the programs over the store compute the same levels:
    when the levels in memory are over the taxonomy and equal the levels
    of a store with one row per taxonomy skill, [calculate_attribute_level]
    of sl.py returns or raises as the one over the store does, for every
    attribute name, and the overall level of sl.py is the overall level
    of slv2.py. *)
Theorem json_and_store_levels_agree (F : float_arith)
    (levels : list (string * list (string * Z))) (db : database) :
  shape levels = attributes ->
  map key_of (skills db) = taxonomy_keys ->
  (forall a s, In (a, s) taxonomy_keys ->
     level_of levels a s = Some (current_skill_level db a s)) ->
  (forall a, Sl.calculate_attribute_level F levels a = calculate_attribute_level F db a) /\
  Sl.calculate_overall_level F levels = Slv2.calculate_overall_level F db.
Proof.
  intros Hshape Hk Hsame.
  destruct (attributes_unique_keys levels Hshape) as (Hnd & Hinner).
  assert (Hattr : forall a, Sl.calculate_attribute_level F levels a
                            = calculate_attribute_level F db a).
  { intros a. unfold Sl.calculate_attribute_level, calculate_attribute_level, Sl.dict_item.
    destruct (in_dec string_dec a (map fst attributes)) as [Hin|Hn].
    - apply in_map_iff in Hin. destruct Hin as (kv & <- & Hkv).
      rewrite (attribute_sum_by_lookup db kv Hk Hkv).
      destruct (Sl.dict_get (fst kv) levels) as [mine|] eqn:Ea.
      + cbn [bind].
        assert (Hkeys : map fst mine = snd kv).
        { assert (Hg : Sl.dict_get (fst kv) attributes = Some (snd kv)).
          { apply dict_get_of_in; [exact attributes_names_NoDup | now destruct kv]. }
          clear - Hshape Ea Hg. revert Hg. rewrite <- Hshape. clear Hshape.
          induction levels as [|x levels IH]; [discriminate|].
          unfold shape in *. cbn [map]. rewrite dict_get_cons in Ea.
          rewrite dict_get_cons. cbn [fst snd].
          destruct (fst x =? fst kv)%string.
          - injection Ea as <-. now intros [= <-].
          - intros H. now apply IH. }
        assert (Hm : NoDup (map fst mine)).
        { apply dict_get_some_in in Ea. rewrite Forall_forall in Hinner.
          exact (Hinner _ Ea). }
        assert (Hsum : fold_right Z.add 0 (map snd mine)
                       = total (map (fun skill => current_skill_level db (fst kv) skill)
                                    (snd kv))).
        { rewrite (dict_values_by_get mine Hm), Hkeys. unfold total. f_equal.
          apply map_ext_in. intros s Hs.
          assert (Hin : In (fst kv, s) taxonomy_keys).
          { unfold taxonomy_keys. apply in_flat_map. exists kv. split; [exact Hkv|].
            now apply in_map. }
          pose proof (Hsame _ _ Hin) as E. unfold level_of in E. rewrite Ea in E.
          now rewrite E. }
        rewrite Hsum. reflexivity.
      + exfalso. apply dict_get_none in Ea. apply Ea.
        rewrite shape_keys, Hshape. now apply in_map.
    - rewrite (attributes_get_unknown a Hn).
      assert (E : Sl.dict_get a levels = None).
      { apply dict_get_none. now rewrite shape_keys, Hshape. }
      rewrite E. cbn [bind].
      now destruct (select_sum_current_level a (skills db)). }
  split; [exact Hattr|].
  unfold Sl.calculate_overall_level, Slv2.calculate_overall_level.
  rewrite (overall_sum_fold (Sl.calculate_attribute_level F levels)
             (calculate_attribute_level F db) attributes 0)
    by (intros; apply Hattr).
  change ((fix sum (attrs : list (string * list string)) : result Z :=
             match attrs with
             | [] => Ok 0
             | kv :: rest =>
                 level <- calculate_attribute_level F db (fst kv) ;;
                 total <- sum rest ;; Ok (level + total)
             end) attributes)
    with (sum_attribute_levels F db attributes).
  destruct (sum_attribute_levels F db attributes) as [s|e]; reflexivity.
Qed.

(* ------------------------------------------------------------------ *)
(** ** Examples of the sessions of sl.py *)

Lemma json_example_run :
  Sl.update_skills_session Sl.init_skill_levels None example_timestamp example_inputs
  = Ok (json_levels_after_example, json_file_after_example, json_session_example, []).
Proof. vm_compute. reflexivity. Qed.

Lemma json_update_session_witness :
  shape Sl.init_skill_levels = attributes /\
  Sl.update_skills_session Sl.init_skill_levels None example_timestamp example_inputs
  = Ok (json_levels_after_example, json_file_after_example, json_session_example, []) /\
  shape json_levels_after_example = attributes /\
  timestamp json_session_example = example_timestamp /\
  shape (updates json_session_example) = attributes /\
  (forall a s, In (a, s) taxonomy_keys ->
     exists old new,
       level_of Sl.init_skill_levels a s = Some old /\
       level_of json_levels_after_example a s = Some new /\
       level_of (updates json_session_example) a s
       = Some {| lc_old_level := old; lc_new_level := new; lc_gain := new - old |} /\
       old <= new /\ accepted_change example_inputs old new) /\
  (exists used, example_inputs = used ++ []) /\
  json_file_after_example
  = Some {| Sl.skill_levels := json_levels_after_example;
            Sl.sessions := Some (sessions_of None ++ [json_session_example]) |}.
Proof.
  split; [exact shape_init_skill_levels|]. split; [exact json_example_run|].
  exact (json_update_session Sl.init_skill_levels json_levels_after_example None
           json_file_after_example example_timestamp example_inputs []
           json_session_example shape_init_skill_levels json_example_run).
Defined.

Lemma session_summary_agrees_with_history_witness :
  shape Sl.init_skill_levels = attributes /\
  Sl.update_skills_session Sl.init_skill_levels None example_timestamp example_inputs
  = Ok (json_levels_after_example, json_file_after_example, json_session_example, []) /\
  0 <= snd (Sl.display_session_summary json_session_example) /\
  snd (Sl.display_session_summary json_session_example)
  = total (map (fun kv => sum_gains (snd kv)) (updates json_session_example)) /\
  exists shown_before,
    Sl.view_history json_file_after_example
    = shown_before
      ++ [(json_session_example, snd (Sl.display_session_summary json_session_example))].
Proof.
  split; [exact shape_init_skill_levels|]. split; [exact json_example_run|].
  exact (session_summary_agrees_with_history Sl.init_skill_levels
           json_levels_after_example None json_file_after_example example_timestamp
           example_inputs [] json_session_example shape_init_skill_levels json_example_run).
Defined.

Lemma json_example_mirrors_store (a s : string) :
  In (a, s) taxonomy_keys ->
  level_of json_levels_after_example a s = Some (current_skill_level store_after_example a s).
Proof.
  intros Hin.
  assert (H : forallb (fun k => match level_of json_levels_after_example (fst k) (snd k) with
                                | Some v => v =? current_skill_level store_after_example
                                                   (fst k) (snd k)
                                | None => false
                                end) taxonomy_keys = true) by (vm_compute; reflexivity).
  rewrite forallb_forall in H. specialize (H (a, s) Hin). cbn [fst snd] in H.
  destruct (level_of json_levels_after_example a s) as [v|]; [|discriminate].
  apply Z.eqb_eq in H. now subst.
Qed.

Lemma json_and_store_levels_agree_witness :
  shape json_levels_after_example = attributes /\
  map key_of (skills store_after_example) = taxonomy_keys /\
  (forall a s, In (a, s) taxonomy_keys ->
     level_of json_levels_after_example a s
     = Some (current_skill_level store_after_example a s)) /\
  (forall a, Sl.calculate_attribute_level exact json_levels_after_example a
             = calculate_attribute_level exact store_after_example a) /\
  Sl.calculate_overall_level exact json_levels_after_example
  = Slv2.calculate_overall_level exact store_after_example.
Proof.
  assert (H1 : shape json_levels_after_example = attributes) by (vm_compute; reflexivity).
  assert (H2 : map key_of (skills store_after_example) = taxonomy_keys)
    by (vm_compute; reflexivity).
  split; [exact H1|]. split; [exact H2|]. split; [exact json_example_mirrors_store|].
  exact (json_and_store_levels_agree exact json_levels_after_example store_after_example
           H1 H2 json_example_mirrors_store).
Defined.

(* ------------------------------------------------------------------ *)
(** ** An example of the progress chart *)

(** The chart after the example session, read by a library that reads
    the timestamps of the clock's shape: one point, at the total gain 8. *)
Lemma progress_chart_points_witness :
  Slv3.show_progress_chart isoformat_shape store_after_example
  = Ok (Some [(example_timestamp, 8)]) /\
  reachable store_after_example /\
  forallb machine_int (map snd [(example_timestamp, 8)]) = true /\
  length [(example_timestamp, 8)] = length (sessions store_after_example) /\
  Permutation (map fst [(example_timestamp, 8)])
              (map session_timestamp (sessions store_after_example)) /\
  text_ascending (map fst [(example_timestamp, 8)]) /\
  last (map snd [(example_timestamp, 8)]) 0
  = total (map total_gains (sessions store_after_example)) /\
  StronglySorted Z.le (0 :: map snd [(example_timestamp, 8)]).
Proof.
  assert (Hp : Slv3.show_progress_chart isoformat_shape store_after_example
               = Ok (Some [(example_timestamp, 8)]))
    by (vm_compute; reflexivity).
  destruct (progress_chart_points isoformat_shape store_after_example) as (_ & _ & Hsome).
  destruct (Hsome _ Hp) as (H1 & H2 & H3 & H45).
  destruct (H45 eq_refl) as (H4 & H5).
  split; [exact Hp|]. split; [exact store_after_example_reachable|].
  split; [reflexivity|].
  split; [exact H1|]. split; [exact H2|]. split; [exact H3|].
  split; [exact H4|]. exact (H5 store_after_example_reachable).
Defined.

(* ------------------------------------------------------------------ *)
(** ** Starting again *)

(** X19.  [init_database] run twice is [init_database] run once.  It never
    touches the sessions or the recorded changes; it leaves a store with
    any skill row as it is, and fills an empty skills table with the 50
    taxonomy skills at level 1, in taxonomy order. *)
Theorem init_database_idempotent (db : database) :
  init_database (init_database db) = init_database db /\
  sessions (init_database db) = sessions db /\
  session_updates (init_database db) = session_updates db /\
  (skills db <> [] -> init_database db = db) /\
  (skills db = [] ->
   skills (init_database db)
   = map (fun k => {| attribute := fst k; skill_name := snd k; current_level := 1 |})
         taxonomy_keys).
Proof.
  assert (Hfill : forall ss rows,
             init_database {| skills := []; sessions := ss; session_updates := rows |}
             = {| skills := map (fun k => {| attribute := fst k; skill_name := snd k;
                                             current_level := 1 |}) taxonomy_keys;
                  sessions := ss; session_updates := rows |}).
  { intros ss rows. unfold init_database. cbn [skills length Z.of_nat Z.eqb sessions
                                                 session_updates].
    f_equal. }
  destruct db as [[|r t] ss rows].
  - rewrite Hfill. repeat split; try reflexivity. now intros H.
  - assert (E : init_database {| skills := r :: t; sessions := ss; session_updates := rows |}
                = {| skills := r :: t; sessions := ss; session_updates := rows |}).
    { unfold init_database. cbn [skills length].
      destruct (Z.eqb_spec (Z.of_nat (S (length t))) 0) as [H|H]; [lia | reflexivity]. }
    rewrite !E. repeat split; try reflexivity. discriminate.
Qed.

Lemma init_database_idempotent_witness :
  skills store_after_example <> [] /\
  init_database store_after_example = store_after_example /\
  init_database (init_database empty_database) = init_database empty_database /\
  skills (init_database empty_database)
  = map (fun k => {| attribute := fst k; skill_name := snd k; current_level := 1 |})
        taxonomy_keys.
Proof.
  assert (H : skills store_after_example <> []) by (vm_compute; discriminate).
  split; [exact H|].
  destruct (init_database_idempotent store_after_example) as (_ & _ & _ & Hid & _).
  destruct (init_database_idempotent empty_database) as (Hidem & _ & _ & _ & Hnew).
  split; [exact (Hid H)|]. split; [exact Hidem|]. exact (Hnew eq_refl).
Defined.

(* ------------------------------------------------------------------ *)
(** ** The menu and the dashboard commit alike *)

Lemma menu_reads_valid_entries (db : database)
    (l : list (string * string * Slv3.entry_data)) (us : list update) (t : Z)
    (rest : list field_input) :
  first_error l = None ->
  Forall (fun x => Slv3.current (snd x)
                   = current_skill_level db (fst (fst x)) (snd (fst x))) l ->
  foldM (fun acc k => Slv2.update_one_skill db (fst k) (snd k) acc) (map fst l)
        (us, t, map (fun x => Slv3.var (snd x)) l ++ rest)
  = Ok (us ++ flat_map entry_update l, t + total (map u_gain (flat_map entry_update l)), rest).
Proof.
  revert us t. induction l as [|x l IH]; intros us t Hfe Hsync; cbn [first_error] in Hfe.
  - cbn [map foldM flat_map app total fold_right]. now rewrite app_nil_r, Z.add_0_r.
  - destruct (entry_error (snd (fst x)) (snd x)) as [err|] eqn:Ee; [discriminate|].
    inversion Hsync as [|? ? Hx Hl]; subst.
    cbn [map foldM flat_map]. unfold Slv2.update_one_skill at 1. cbv zeta.
    rewrite <- Hx. unfold entry_error in Ee.
    remember (entry_update x) as ux eqn:Eux. unfold entry_update in Eux.
    destruct (Slv3.var (snd x)) as [|n|]; [| |discriminate].
    + subst ux. cbn [app Slv2.prompt_level bind]. rewrite Z.ltb_irrefl. cbn [bind app].
      now rewrite IH by assumption.
    + cbn [app Slv2.prompt_level].
      destruct (n <? Slv3.current (snd x)); [discriminate|].
      destruct (Slv3.current (snd x) + 10 <? n); [discriminate|].
      destruct (100 <? n); [discriminate|]. cbn [bind].
      destruct (Slv3.current (snd x) <? n); subst ux; cbn [bind app].
      * rewrite IH by assumption. rewrite <- app_assoc.
        cbn [app map total fold_right u_gain]. unfold total.
        now rewrite Z.add_assoc.
      * now rewrite IH by assumption.
Qed.

(** X20.  The text menu and the dashboard commit alike: from a reachable
    state of the dashboard whose entries have no error, an update session
    of the text menu on the same store, answered with the texts of the
    entries in order, returns the store that [process_skill_updates]
    leaves with the same timestamp, and uses up exactly these lines. *)
Theorem menu_and_dashboard_commit_alike (g : Slv3.gui) (ts : string)
    (rest : list field_input) :
  gui_reachable g ->
  first_error (flat_entries (Slv3.update_entries g)) = None ->
  Slv2.update_skills_session (Slv3.store g) ts
    (map (fun x => Slv3.var (snd x)) (flat_entries (Slv3.update_entries g)) ++ rest)
  = Ok (Slv3.store (snd (Slv3.process_skill_updates g (Some ts))), rest).
Proof.
  intros Hg Hfe.
  pose proof (gui_reachable_keys g Hg) as Hkeys.
  pose proof (gui_reachable_synced g Hg) as Hsync.
  unfold Slv2.update_skills_session. rewrite collect_updates_flat, <- Hkeys.
  rewrite (menu_reads_valid_entries (Slv3.store g) _ [] 0 rest Hfe Hsync).
  cbn [bind app Z.add].
  unfold Slv3.process_skill_updates.
  rewrite (dashboard_collect_updates_closed _ Hfe).
  destruct (flat_map entry_update (flat_entries (Slv3.update_entries g))) as [|u us];
    reflexivity.
Qed.

Lemma menu_and_dashboard_commit_alike_witness :
  gui_reachable example_gui_update /\
  first_error (flat_entries (Slv3.update_entries example_gui_update)) = None /\
  Slv2.update_skills_session (Slv3.store example_gui_update) example_timestamp
    (map (fun x => Slv3.var (snd x)) (flat_entries (Slv3.update_entries example_gui_update))
     ++ [])
  = Ok (Slv3.store (snd (Slv3.process_skill_updates example_gui_update
                           (Some example_timestamp))), []).
Proof.
  assert (H : first_error (flat_entries (Slv3.update_entries example_gui_update)) = None)
    by (vm_compute; reflexivity).
  split; [exact example_gui_update_reachable|]. split; [exact H|].
  exact (menu_and_dashboard_commit_alike example_gui_update example_timestamp []
           example_gui_update_reachable H).
Defined.

(* ------------------------------------------------------------------ *)
(** ** The first run *)

(** X21.  A reachable store is a first run exactly as long as it has no
    session: without a session it is still the store that the first start
    made, with every skill at level 1; once a session is recorded,
    [check_first_run] answers false for good, also when an assessment has
    set every level back to 1. *)
Theorem first_run_until_first_session (db : database) :
  reachable db ->
  (check_first_run db = true <-> sessions db = []) /\
  (sessions db = [] -> db = init_database empty_database).
Proof.
  intros Hr.
  assert (Hnew : sessions db = [] -> db = init_database empty_database).
  { revert db Hr.
    assert (H : (forall db, reachable db ->
                   sessions db = [] -> db = init_database empty_database) /\
                (forall g, gui_reachable g ->
                   sessions (Slv3.store g) = [] ->
                   Slv3.store g = init_database empty_database)).
    { apply reachable_gui_ind.
      - reflexivity.
      - intros db Hr IH Hs. rewrite (init_database_again db (reachable_store_ok db Hr)) in *.
        now apply IH.
      - intros db now inputs db' rest _ _ Hrun Hs. exfalso.
        apply crystal_ball_assessment_spec in Hrun. destruct Hrun as (a & sd & -> & _).
        rewrite save_crystal_ball_assessment_tables in Hs. cbn [sessions] in Hs.
        now destruct (sessions db).
      - intros db ts inputs db' rest _ IH Hrun Hs.
        unfold Slv2.update_skills_session in Hrun.
        destruct (Slv2.collect_updates db inputs) as [[[us t] rest']|e];
          cbn [bind] in Hrun; [|discriminate].
        destruct us as [|u us]; injection Hrun as <- <-; [now apply IH|].
        exfalso. rewrite save_update_session_tables in Hs. cbn [sessions] in Hs.
        now destruct (sessions db).
      - intros g _ IH. exact IH.
      - intros db _ IH. exact IH.
      - intros g a s v _ IH. exact IH.
      - intros g _ IH. exact IH.
      - intros g ts _ IH Hs.
        destruct (process_skill_updates_cases g ts)
          as [[m E] | (m & us & t & timestamp & _ & _ & _ & _ & E)];
          rewrite E in *; cbn [snd] in *; [now apply IH|].
        exfalso. cbn [Slv3.refresh_all_data Slv3.store] in Hs.
        rewrite save_update_session_tables in Hs. cbn [sessions] in Hs.
        now destruct (sessions (Slv3.store g)).
      - intros g now entries _ _ Hs. exfalso.
        cbn [Slv3.refresh_all_data Slv3.store] in Hs.
        rewrite process_crystal_ball_assessment_tables in Hs. cbn [sessions] in Hs.
        now destruct (sessions (Slv3.store g)). }
    intros db Hr. now apply H. }
  split; [|exact Hnew]. split.
  - unfold check_first_run. intros H. apply negb_true_iff, orb_false_iff in H.
    destruct H as [_ H]. destruct (sessions db); [reflexivity|discriminate].
  - intros Hs. rewrite (Hnew Hs). reflexivity.
Qed.

Lemma first_run_until_first_session_witness :
  reachable store_after_assessment /\
  (check_first_run store_after_assessment = true <-> sessions store_after_assessment = []) /\
  (sessions store_after_assessment = [] ->
   store_after_assessment = init_database empty_database).
Proof.
  assert (Hr : reachable store_after_assessment).
  { apply (reach_menu_assessment new_store example_timestamp assessment_inputs
             store_after_assessment []); [exact reach_new|]. vm_compute. reflexivity. }
  split; [exact Hr|]. exact (first_run_until_first_session store_after_assessment Hr).
Defined.

(* ------------------------------------------------------------------ *)
(** ** The assessment of the dashboard *)

(** X22.  The assessment of the dashboard, from a reachable store and with
    one entry per taxonomy skill, overwrites all 50 levels: the skills
    table afterwards holds, in taxonomy order, the level read from each
    entry, the number typed brought into 1..100, and 1 for an empty entry
    or text that is no number, whatever was stored before.  One session
    with the clock's timestamp is appended; its total gain is the sum of
    these levels minus 50. *)
Theorem dashboard_assessment_overwrites_all (db : database) (now : string)
    (entries : list (string * list (string * field_input))) :
  reachable db ->
  shape entries = attributes ->
  skills (Slv3.process_crystal_ball_assessment db now entries)
  = map (fun x => {| attribute := fst (fst x); skill_name := snd (fst x);
                     current_level := assessed_level (snd x) |})
        (flat_entries entries) /\
  Forall (fun r => 1 <= current_level r <= 100)
         (skills (Slv3.process_crystal_ball_assessment db now entries)) /\
  exists s,
    sessions (Slv3.process_crystal_ball_assessment db now entries) = sessions db ++ [s] /\
    session_timestamp s = now /\
    total_gains s = total (map (fun x => assessed_level (snd x)) (flat_entries entries)) - 50.
Proof.
  intros Hr Hshape. destruct (reachable_store_ok db Hr) as (Hkeys & _).
  pose proof (assessment_all_keys entries Hshape) as Hk.
  rewrite process_crystal_ball_assessment_tables. cbn [skills sessions].
  assert (Hw : write_levels (map assessed_update (flat_entries entries)) (skills db)
               = map (fun x => {| attribute := fst (fst x); skill_name := snd (fst x);
                                  current_level := assessed_level (snd x) |})
                     (flat_entries entries)).
  { rewrite write_levels_all.
    - rewrite map_map. reflexivity.
    - rewrite map_map. unfold update_key, assessed_update. cbn [u_attribute u_skill].
      rewrite (map_ext _ fst) by (intros [[? ?] ?]; reflexivity).
      rewrite Hk. exact taxonomy_keys_NoDup.
    - rewrite map_map. unfold update_key, assessed_update. cbn [u_attribute u_skill].
      rewrite (map_ext _ fst) by (intros [[? ?] ?]; reflexivity).
      now rewrite Hk. }
  rewrite Hw. split; [reflexivity|]. split.
  - apply Forall_map. apply Forall_forall. intros x _. cbn [current_level].
    apply assessed_level_bounds.
  - eexists. split; [reflexivity|]. split; [reflexivity|].
    cbn [total_gains]. rewrite map_map. unfold assessed_update. cbn [u_gain].
    rewrite total_minus_one. f_equal.
    rewrite <- (length_map fst), Hk. reflexivity.
Qed.

Lemma dashboard_assessment_overwrites_all_witness :
  reachable new_store /\
  shape example_dialog = attributes /\
  skills (Slv3.process_crystal_ball_assessment new_store example_timestamp example_dialog)
  = map (fun x => {| attribute := fst (fst x); skill_name := snd (fst x);
                     current_level := assessed_level (snd x) |})
        (flat_entries example_dialog) /\
  Forall (fun r => 1 <= current_level r <= 100)
         (skills (Slv3.process_crystal_ball_assessment new_store example_timestamp
                    example_dialog)) /\
  exists s,
    sessions (Slv3.process_crystal_ball_assessment new_store example_timestamp example_dialog)
    = sessions new_store ++ [s] /\
    session_timestamp s = example_timestamp /\
    total_gains s
    = total (map (fun x => assessed_level (snd x)) (flat_entries example_dialog)) - 50.
Proof.
  assert (H : shape example_dialog = attributes) by (vm_compute; reflexivity).
  split; [exact reach_new|]. split; [exact H|].
  exact (dashboard_assessment_overwrites_all new_store example_timestamp example_dialog
           reach_new H).
Defined.

Lemma forallb_of_map {A B : Type} (p : B -> bool) (f : A -> B) (l : list A) :
  forallb p (map f l) = forallb (fun x => p (f x)) l.
Proof. induction l as [|x l IH]; [reflexivity|]. cbn [map forallb]. now rewrite IH. Qed.

Lemma menu_reads_plain_entries (a : string) (l : list (string * field_input))
    (levels : list (string * Z)) (changes : list (string * level_change))
    (rest : list field_input) :
  forallb (fun e => plain_assessment (snd e)) l = true ->
  foldM (fun acc skill =>
           let '(levels, changes, inputs) := acc in
           '(level, inputs') <- Slv2.prompt_assessment inputs ;;
           Ok (levels ++ [(skill, level)],
               changes ++ [(skill, {| lc_old_level := 1; lc_new_level := level;
                                      lc_gain := level - 1 |})],
               inputs'))
        (map fst l) (levels, changes, map snd l ++ rest)
  = Ok (levels ++ map (fun e => (fst e, assessed_level (snd e))) l,
        changes ++ map (fun e => (fst e, {| lc_old_level := 1;
                                            lc_new_level := assessed_level (snd e);
                                            lc_gain := assessed_level (snd e) - 1 |})) l,
        rest).
Proof.
  revert levels changes. induction l as [|[s v] l IH]; intros levels changes Hp.
  - cbn [map foldM app]. now rewrite !app_nil_r.
  - cbn [forallb snd] in Hp. apply andb_true_iff in Hp. destruct Hp as [Hv Hl].
    cbn [map foldM app fst snd].
    assert (Ep : Slv2.prompt_assessment (v :: map snd l ++ rest)
                 = Ok (assessed_level v, map snd l ++ rest)).
    { destruct v as [|n|]; cbn [plain_assessment] in Hv; [reflexivity| |discriminate].
      apply andb_true_iff in Hv. destruct Hv as [H1 H2].
      apply Z.leb_le in H1, H2. cbn [Slv2.prompt_assessment assessed_level].
      rewrite (proj2 (Z.ltb_ge n 1)), (proj2 (Z.ltb_ge 100 n)) by lia. cbn [orb].
      f_equal. f_equal. f_equal. lia. }
    rewrite Ep. cbn [bind]. rewrite IH by exact Hl.
    rewrite <- !app_assoc. reflexivity.
Qed.

(** In the model of the store, which leaves the column [last_updated]
    out, the assessment of the menu answered with the texts of the
    entries returns the store of the assessment of the dashboard. *)
Lemma menu_assessment_of_entries (db : database) (now : string)
    (entries : list (string * list (string * field_input))) (rest : list field_input) :
  shape entries = attributes ->
  forallb (fun x => plain_assessment (snd x)) (flat_entries entries) = true ->
  Slv2.crystal_ball_assessment db now (map snd (flat_entries entries) ++ rest)
  = Ok (Slv3.process_crystal_ball_assessment db now entries, rest).
Proof.
  intros Hshape Hplain. unfold Slv2.crystal_ball_assessment.
  rewrite <- Hshape. unfold shape. rewrite foldM_map. cbn [fst snd].
  assert (G : forall (l : list (string * list (string * field_input)))
                     (assessment : list (string * list (string * Z)))
                     (su : list (string * list (string * level_change))),
             forallb (fun x => plain_assessment (snd x)) (flat_entries l) = true ->
             foldM (fun acc (kv : string * list (string * field_input)) =>
                      let '(initial_assessment, session_updates, inputs) := acc in
                      '(levels, changes, inputs') <-
                        foldM (fun acc skill =>
                                 let '(levels, changes, inputs) := acc in
                                 '(level, inputs') <- Slv2.prompt_assessment inputs ;;
                                 Ok (levels ++ [(skill, level)],
                                     changes ++ [(skill, {| lc_old_level := 1;
                                                            lc_new_level := level;
                                                            lc_gain := level - 1 |})],
                                     inputs'))
                              (map fst (snd kv)) ([], [], inputs) ;;
                      Ok (initial_assessment ++ [(fst kv, levels)],
                          session_updates ++ [(fst kv, changes)], inputs'))
                   l (assessment, su, map snd (flat_entries l) ++ rest)
             = Ok (assessment
                   ++ map (fun kv => (fst kv,
                                      map (fun e => (fst e, assessed_level (snd e))) (snd kv)))
                          l,
                   su
                   ++ map (fun kv =>
                             (fst kv,
                              map (fun e => (fst e, {| lc_old_level := 1;
                                                       lc_new_level := assessed_level (snd e);
                                                       lc_gain := assessed_level (snd e) - 1 |}))
                                  (snd kv)))
                          l,
                   rest)).
  { induction l as [|kv l IH]; intros assessment su Hp.
    - cbn [map foldM flat_entries flat_map app]. now rewrite !app_nil_r.
    - unfold flat_entries in Hp. cbn [flat_map] in Hp. rewrite forallb_app in Hp.
      apply andb_true_iff in Hp. destruct Hp as [Hkv Hl].
      rewrite forallb_of_map in Hkv. cbn [snd] in Hkv.
      cbn [foldM]. unfold flat_entries at 1. cbn [flat_map].
      rewrite map_app, map_map. cbn [snd]. rewrite <- app_assoc.
      rewrite (menu_reads_plain_entries (fst kv) (snd kv) [] []) by exact Hkv.
      cbn [bind app]. rewrite IH by exact Hl.
      cbn [map]. rewrite <- !app_assoc. reflexivity. }
  rewrite (G entries [] [] Hplain). cbn [bind app]. f_equal. f_equal.
  rewrite save_crystal_ball_assessment_tables, process_crystal_ball_assessment_tables.
  cbn [timestamp updates].
  assert (Eu : assessment_updates
                 (map (fun kv => (fst kv,
                                  map (fun e => (fst e, assessed_level (snd e))) (snd kv)))
                      entries)
               = map assessed_update (flat_entries entries)).
  { clear. induction entries as [|kv l IH]; [reflexivity|].
    unfold assessment_updates, flat_entries in *. cbn [map flat_map fst snd].
    rewrite map_app, IH. f_equal. rewrite !map_map. reflexivity. }
  assert (Es : map (fun kv : string * list (string * field_input) =>
                      (fst kv,
                       map (fun e => (fst e, {| lc_old_level := 1;
                                                lc_new_level := assessed_level (snd e);
                                                lc_gain := assessed_level (snd e) - 1 |}))
                           (snd kv)))
                   entries
               = map (fun kv : string * list (string * Z) =>
                        (fst kv,
                         map (fun item => (fst item, {| lc_old_level := 1;
                                                        lc_new_level := snd item;
                                                        lc_gain := snd item - 1 |}))
                             (snd kv)))
                     (map (fun kv => (fst kv,
                                      map (fun e => (fst e, assessed_level (snd e))) (snd kv)))
                          entries)).
  { rewrite map_map. apply map_ext. intros kv. cbn [fst snd]. f_equal.
    rewrite map_map. reflexivity. }
  rewrite Es, total_sum_gains_assessment, Eu. reflexivity.
Qed.

(** X23.  The text menu and the dashboard assess alike in all that the
    programs read: with one entry per taxonomy skill, each empty or a
    number within 1..100, the assessment of the text menu answered with
    the texts of the entries in order returns, uses up exactly these
    lines, and leaves the same skills with the same levels, the same
    sessions and the same recorded changes as the assessment of the
    dashboard does for the same timestamp.  (The two differ in the column
    [last_updated] of the skills rows, which the menu sets to SQLite's
    [CURRENT_TIMESTAMP] and the dashboard to the session timestamp; no
    program reads this column, and it is not compared.) *)
Theorem menu_and_dashboard_assess_alike (db : database) (now : string)
    (entries : list (string * list (string * field_input))) (rest : list field_input) :
  shape entries = attributes ->
  forallb (fun x => plain_assessment (snd x)) (flat_entries entries) = true ->
  exists db',
    Slv2.crystal_ball_assessment db now (map snd (flat_entries entries) ++ rest)
    = Ok (db', rest) /\
    skill_columns db'
    = skill_columns (Slv3.process_crystal_ball_assessment db now entries) /\
    sessions db' = sessions (Slv3.process_crystal_ball_assessment db now entries) /\
    session_updates db'
    = session_updates (Slv3.process_crystal_ball_assessment db now entries).
Proof.
  intros Hshape Hplain.
  exists (Slv3.process_crystal_ball_assessment db now entries).
  split; [now apply menu_assessment_of_entries|]. repeat split.
Qed.

Lemma menu_and_dashboard_assess_alike_witness :
  shape example_dialog = attributes /\
  forallb (fun x => plain_assessment (snd x)) (flat_entries example_dialog) = true /\
  exists db',
    Slv2.crystal_ball_assessment new_store example_timestamp
      (map snd (flat_entries example_dialog) ++ [])
    = Ok (db', []) /\
    skill_columns db'
    = skill_columns
        (Slv3.process_crystal_ball_assessment new_store example_timestamp example_dialog) /\
    sessions db'
    = sessions
        (Slv3.process_crystal_ball_assessment new_store example_timestamp example_dialog) /\
    session_updates db'
    = session_updates
        (Slv3.process_crystal_ball_assessment new_store example_timestamp example_dialog).
Proof.
  assert (H : shape example_dialog = attributes) by (vm_compute; reflexivity).
  assert (Hp : forallb (fun x => plain_assessment (snd x)) (flat_entries example_dialog)
               = true) by (vm_compute; reflexivity).
  split; [exact H|]. split; [exact Hp|].
  exact (menu_and_dashboard_assess_alike new_store example_timestamp example_dialog [] H Hp).
Defined.

(* ------------------------------------------------------------------ *)
(** ** Histories of any length *)

(** X24.  The history of the text menu over the store selects ten
    sessions, or all when there are fewer: those with the greatest
    timestamp texts, in descending order of the text, no session left out
    having a greater text than one selected.  It returns with these rows
    shown in this order when the library reads the timestamp of each, and
    raises [ValueError] when it cannot read one of them.  The history of
    sl.py shows the last ten sessions of the file, or all when there are
    fewer, in the order of the file, each with the sum of all its gains;
    it shows nothing for a missing file. *)
Theorem history_of_any_length :
  (forall fromisoformat db,
     exists selected older,
       length selected = Nat.min 10 (length (sessions db)) /\
       Permutation (sessions db) (selected ++ older) /\
       text_descending (map session_timestamp selected) /\
       (forall x y, In x selected -> In y older ->
                    String.leb (session_timestamp y) (session_timestamp x) = true) /\
       Slv2.view_history fromisoformat db
       = if forallb (fun s => fromisoformat (session_timestamp s)) selected
         then Ok selected
         else Raise ValueError) /\
  (forall file,
     length (Sl.view_history file) = Nat.min 10 (length (sessions_of file)) /\
     map fst (Sl.view_history file)
     = skipn (length (sessions_of file) - 10) (sessions_of file) /\
     Forall (fun shown =>
               snd shown = total (map (fun kv => sum_gains (snd kv)) (updates (fst shown))))
            (Sl.view_history file)) /\
  Sl.view_history None = [].
Proof.
  split; [|split; [|reflexivity]].
  - intros fromisoformat db.
    destruct (menu_history_selection db) as (selected & older & E & Hl & Hp & Hs & Ho).
    exists selected, older.
    split; [exact Hl|]. split; [exact Hp|]. split; [exact Hs|]. split; [exact Ho|].
    unfold Slv2.view_history. cbv zeta. rewrite <- E, print_rows. reflexivity.
  - intros file.
    assert (E : Sl.view_history file
                = map (fun session =>
                         (session,
                          fold_left (fun total_gains kv => total_gains + sum_gains (snd kv))
                                    (updates session) 0))
                      (Sl.last_ten (sessions_of file))).
    { unfold Sl.view_history, sessions_of. now destruct file. }
    rewrite E. unfold Sl.last_ten. split; [|split].
    + rewrite length_map, length_skipn. lia.
    + rewrite map_map. cbn [fst]. apply map_id.
    + apply Forall_map. apply Forall_forall. intros session _. cbn [fst snd].
      rewrite history_total_fold. apply Z.add_0_l.
Qed.
